(** * sheepapp: the scoring pipeline, embedded and checked against its specification

    The Python package [sheepapp] ranks breeding animals from herd records.
    This development embeds the parts of it that the specification's claims
    speak about, and the code around them:

    - [sheepapp/core/models.py]             (module [Models])
    - [sheepapp/config_presets/presets.py]  (module [Presets])
    - [sheepapp/processing/cleaner.py]      (module [Cleaner], the dtypes)
    - [sheepapp/processing/grouping.py]     (module [Grouping])
    - [sheepapp/processing/standardizer.py] (module [Standardizer])
    - [sheepapp/metrics/calculator.py]      (module [Calculator])
    - [sheepapp/scoring/filters.py]         (modules [Filters], [SoftFilters])
    - [sheepapp/scoring/ranker.py]          (modules [Ranker], [Rams])
    - [sheepapp/scoring/engine.py]          (module [Engine])

    Numbers.  The program computes on IEEE doubles held in pandas columns.
    A cell of a frame is written as the rational that its double denotes;
    a missing value is [None].  The scoring layer (category scores,
    composite score, ranks, filters, percentiles) is embedded on exact
    rationals: its theorems are about the algorithms, rounding apart.
    Where the outcome of the program turns on rounding or on [NaN] as a
    number, in the z-score and in the validation of weights, the embedding
    computes on binary64 numbers ([Float64]).

    Missing values.  In a column of a numpy dtype a missing value is [NaN]
    and every comparison with it is false.  In a column of a nullable
    dtype ([Int64] after cleaning) it is [pd.NA]: a comparison gives
    [pd.NA], which [sum] and [all] skip, which selects no row, and whose
    truth value raises.  The dtypes of a frame are passed beside it
    ([Pandas.Dtypes]) to the functions that depend on them.

    Tables.  A [DataFrame] is a list of column names together with a list of
    rows; a row gives a cell for every column name, and only the cells of
    names listed in [columns] are ever read. *)

From Stdlib Require Import QArith Qabs Qround ZArith List String Ascii Bool Lia Lqa.
From Stdlib Require Import Permutation Sorted DecimalString.
From Stdlib Require Floats.
Import ListNotations.

Local Open Scope string_scope.
Local Open Scope Q_scope.

(* ===================================================================== *)
(** * The pandas operations the program uses *)
(* ===================================================================== *)

Module Pandas.

(** A cell of a numeric column; [None] is [NaN]. A boolean column holds
    [1] for [True] and [0] for [False] (Python's [True == 1]). *)
Definition cell := option Q.

Definition Series := list cell.

Definition Row := string -> cell.

Record DataFrame := mkDataFrame {
  columns : list string;
  rows : list Row
}.

(** [name in df.columns] *)
Definition has_column (df : DataFrame) (name : string) : bool :=
  existsb (String.eqb name) (columns df).

(** [df[name]] *)
Definition column (df : DataFrame) (name : string) : Series :=
  map (fun r => r name) (rows df).

(** [len(df)] *)
Definition len (df : DataFrame) : nat := List.length (rows df).

Definition set_cell (r : Row) (name : string) (v : cell) : Row :=
  fun c => if String.eqb c name then v else r c.

Definition add_column (cols : list string) (name : string) : list string :=
  if existsb (String.eqb name) cols then cols else (cols ++ [name])%list.

(** [df[name] = s] for a series [s] aligned with the rows of [df]. *)
Definition assign (df : DataFrame) (name : string) (s : Series) : DataFrame :=
  {| columns := add_column (columns df) name;
     rows := map (fun rv => set_cell (fst rv) name (snd rv)) (combine (rows df) s) |}.

(** [df[name] = f(row)], the same assignment with the series computed row by row. *)
Definition assign_rowwise (df : DataFrame) (name : string) (f : Row -> cell) : DataFrame :=
  {| columns := add_column (columns df) name;
     rows := map (fun r => set_cell r name (f r)) (rows df) |}.

(** [df[mask]] for a boolean mask computed row by row on a frame with the
    same index. *)
Definition select (df : DataFrame) (mask : Row -> bool) : DataFrame :=
  {| columns := columns df; rows := filter mask (rows df) |}.

(** [s.dropna()] *)
Fixpoint dropna (s : Series) : list Q :=
  match s with
  | [] => []
  | None :: s' => dropna s'
  | Some v :: s' => v :: dropna s'
  end.

(** Python's [sum]: left to right from 0. *)
Definition Qsum (l : list Q) : Q := fold_left Qplus l 0.

(** [s.fillna(v)] on one cell. *)
Definition fillna (v : Q) (c : cell) : cell :=
  match c with
  | None => Some v
  | Some _ => c
  end.

(** [df[cols].mean(axis=1, skipna=True)] on one row: the mean of the cells
    that are not [NaN], and [NaN] when there is none. *)
Definition mean_skipna (cells : list cell) : cell :=
  match dropna cells with
  | [] => None
  | vs => Some (Qsum vs / inject_Z (Z.of_nat (List.length vs)))
  end.

(** [pd.concat(series, axis=1).sum(axis=1)] on one row: [NaN] counts as 0. *)
Definition sum_skipna (cells : list cell) : Q := Qsum (dropna cells).

(** Comparisons of a cell with a number; [NaN] compares false. *)
Definition cell_ge (c : cell) (x : Q) : bool :=
  match c with Some v => Qle_bool x v | None => false end.
Definition cell_le (c : cell) (x : Q) : bool :=
  match c with Some v => Qle_bool v x | None => false end.
Definition cell_lt (c : cell) (x : Q) : bool :=
  match c with Some v => negb (Qle_bool x v) | None => false end.
Definition cell_gt (c : cell) (x : Q) : bool :=
  match c with Some v => negb (Qle_bool v x) | None => false end.
Definition cell_eqb (c : cell) (x : Q) : bool :=
  match c with Some v => Qeq_bool v x | None => false end.

(** The dtypes of a frame, as far as the program depends on them: the
    columns held in a nullable extension dtype ([Int64] after
    [astype('Int64')], [boolean]).  In such a column a missing value is
    [pd.NA]; in every other column (numpy [float64], [bool]) it is [NaN].
    The dtypes are kept beside the frame. *)
Definition Dtypes := string -> bool.

(** The entry of a boolean mask; [None] is [pd.NA]. *)
Definition mask_cell := option bool.

(** The entry that a comparison of a column with a number gives for the
    cell [c], [b] being the outcome on numbers: a [NaN] compares false,
    a [pd.NA] gives [pd.NA]. *)
Definition compared (nullable : bool) (c : cell) (b : bool) : mask_cell :=
  match c with
  | Some _ => Some b
  | None => if nullable then None else Some false
  end.

(** [df[col] >= x], [df[col] <= x] and [df[col] == x], row by row. *)
Definition col_ge (dtypes : Dtypes) (col : string) (x : Q) (r : Row) : mask_cell :=
  compared (dtypes col) (r col) (cell_ge (r col) x).
Definition col_le (dtypes : Dtypes) (col : string) (x : Q) (r : Row) : mask_cell :=
  compared (dtypes col) (r col) (cell_le (r col) x).
Definition col_eqb (dtypes : Dtypes) (col : string) (x : Q) (r : Row) : mask_cell :=
  compared (dtypes col) (r col) (cell_eqb (r col) x).

(** An entry of a mask used to select rows, [df[mask]]: a [pd.NA] entry
    selects nothing. *)
Definition na_false (m : mask_cell) : bool :=
  match m with Some b => b | None => false end.

(** An entry of [~mask] under [.sum()], and an entry of a mask under
    [.all()]: a [pd.NA] entry is skipped, so it is not counted by the
    first and does not falsify the second. *)
Definition is_false (m : mask_cell) : bool :=
  match m with Some b => negb b | None => false end.
Definition na_true (m : mask_cell) : bool := negb (is_false m).

(** The same comparisons against a threshold that may itself be [NaN]
    (the quantile of an all-[NaN] column). *)
Definition cell_lt_cell (c t : cell) : bool :=
  match t with Some x => cell_lt c x | None => false end.

(** Insertion of [x] into an ascending list; used for [sort_values]
    and for the order statistics of [quantile] and [rank]. *)
Fixpoint insert_asc (x : Q) (l : list Q) : list Q :=
  match l with
  | [] => [x]
  | y :: l' => if Qle_bool x y then x :: l else y :: insert_asc x l'
  end.

Definition sort_asc (l : list Q) : list Q := fold_right insert_asc [] l.

(** The same in descending order. *)
Fixpoint insert_desc (x : Q) (l : list Q) : list Q :=
  match l with
  | [] => [x]
  | y :: l' => if Qle_bool y x then x :: l else y :: insert_desc x l'
  end.

Definition sort_desc (l : list Q) : list Q := fold_right insert_desc [] l.

(** [s.quantile(q)] with pandas' default linear interpolation: on the [n]
    sorted non-missing values, at position [h = (n - 1) * q], the value
    [x[floor h] + (h - floor h) * (x[floor h + 1] - x[floor h])];
    [NaN] when there is no value. *)
Definition quantile (s : Series) (q : Q) : cell :=
  match sort_asc (dropna s) with
  | [] => None
  | (x0 :: _) as xs =>
      let n := List.length xs in
      let h := inject_Z (Z.of_nat (n - 1)) * q in
      let lo := Z.to_nat (Qfloor h) in
      let frac := h - inject_Z (Qfloor h) in
      let xlo := nth lo xs x0 in
      let xhi := nth (S lo) xs xlo in
      Some (xlo + frac * (xhi - xlo))
  end.

(** Position (from 0) of the first element of [l] equal to [x]. *)
Fixpoint first_index (x : Q) (l : list Q) : nat :=
  match l with
  | [] => 0
  | y :: l' => if Qeq_bool y x then 0%nat else S (first_index x l')
  end.

(** [s.rank(ascending=False, method='min')]: the values are put in
    descending order and every value receives the lowest position
    (from 1) of its group of ties; a [NaN] keeps a [NaN] rank. *)
Definition rank_desc_min (s : Series) : list (option nat) :=
  let sorted := sort_desc (dropna s) in
  map (fun c => match c with
                | Some v => Some (S (first_index v sorted))
                | None => None
                end) s.

End Pandas.

(* ===================================================================== *)
(** * Python floats *)
(* ===================================================================== *)

Module Float64.

(** A Python [float], a numpy [float64]: an IEEE 754 binary64 number. *)
Definition float := PrimFloat.float.

(** The double nearest to an integer. *)
Definition of_Z (z : Z) : float :=
  FloatOps.SF2Prim (SpecFloat.binary_normalize FloatOps.prec FloatOps.emax z 0 false).

Definition of_nat (n : nat) : float := of_Z (Z.of_nat n).

(** The double that a cell or a decimal literal stands for: the rational
    itself when it is a double, the nearest double otherwise ([1#10] is
    Python's [0.1]); numerator and denominator below [2^53]. *)
Definition of_Q (q : Q) : float :=
  PrimFloat.div (of_Z (Qnum q)) (of_Z (Zpos (Qden q))).

(** The cell that holds a double: the rational it denotes; [NaN] is
    [None], and so is an infinity. *)
Definition to_cell (x : float) : Pandas.cell :=
  match FloatOps.Prim2SF x with
  | SpecFloat.S754_zero _ => Some 0
  | SpecFloat.S754_finite s m e =>
      let n := if s then Zneg m else Zpos m in
      Some (Qred (if (0 <=? e)%Z then inject_Z (n * 2 ^ e) else n # (2 ^ Z.to_pos (- e))))
  | SpecFloat.S754_infinity _ => None
  | SpecFloat.S754_nan => None
  end.

(** Python's [sum] on floats: additions left to right from 0.  (Python
    3.12 and later compensate the rounding error of the running sum; a
    sum that holds a [NaN] remains a [NaN], and the sum of no number and
    of one number are not rounded.) *)
Definition sum (l : list float) : float := fold_left PrimFloat.add l (of_Z 0).

(** A dictionary of decimal literals as the doubles they stand for. *)
Definition of_dict (d : list (string * Q)) : list (string * float) :=
  map (fun kv => (fst kv, of_Q (snd kv))) d.

End Float64.

(* ===================================================================== *)
(** * processing/cleaner.py and io/loaders.py: the dtypes of a cleaned frame *)
(* ===================================================================== *)

Module Cleaner.

(** [int_cols] of [DataCleaner._fix_data_types] and of the loader: the
    columns converted with [astype('Int64')]. *)
Definition int_cols : list string :=
  ["footrot_score"; "dag_score"; "temperament"; "cull_flag"].

(** The dtypes of a frame that went through the cleaner or the loader. *)
Definition cleaned_dtypes : Pandas.Dtypes :=
  fun col => existsb (String.eqb col) int_cols.

(** The dtypes of a frame built from Python floats. *)
Definition float_dtypes : Pandas.Dtypes := fun _ => false.

End Cleaner.

(* ===================================================================== *)
(** * Python dictionaries *)
(* ===================================================================== *)

Module PyDict.

(** A Python [dict] with string keys: insertion-ordered, one entry per key. *)
Definition dict (V : Type) := list (string * V).

(** [d.get(k, default)] *)
Fixpoint get {V} (d : dict V) (k : string) (default : V) : V :=
  match d with
  | [] => default
  | (k', v) :: d' => if String.eqb k' k then v else get d' k default
  end.

(** [k in d] *)
Definition mem {V} (d : dict V) (k : string) : bool :=
  existsb (fun kv => String.eqb (fst kv) k) d.

(** [d[k] = v]: an existing key keeps its position, a new one goes last. *)
Fixpoint set {V} (d : dict V) (k : string) (v : V) : dict V :=
  match d with
  | [] => [(k, v)]
  | (k', v') :: d' => if String.eqb k' k then (k', v) :: d' else (k', v') :: set d' k v
  end.

Definition keys {V} (d : dict V) : list string := map fst d.
Definition values {V} (d : dict V) : list V := map snd d.
Definition items {V} (d : dict V) : list (string * V) := d.

End PyDict.

(* ===================================================================== *)
(** * core/models.py *)
(* ===================================================================== *)

Module Models.

Definition dict := PyDict.dict Q.
Definition values (d : dict) : list Q := PyDict.values d.

(** [AnalysisConfig], over the type [F] of its numbers: doubles
    ([Float64.float]) where the configuration is constructed and
    validated, exact rationals where the scoring layer reads it. *)
Record AnalysisConfigOf (F : Type) := mkAnalysisConfig {
  contemporary_group_window_days : Z;
  normalization_method : string;
  min_birth_weight : F;
  max_footrot_score : Z;
  max_dag_score : Z;
  min_weaning_weight : F;
  max_micron : F;
  bse_pass_required : bool;
  weights : PyDict.dict F;
  trait_weights : list (string * PyDict.dict F)
}.

Arguments mkAnalysisConfig {F}.
Arguments contemporary_group_window_days {F}.
Arguments normalization_method {F}.
Arguments min_birth_weight {F}.
Arguments max_footrot_score {F}.
Arguments max_dag_score {F}.
Arguments min_weaning_weight {F}.
Arguments max_micron {F}.
Arguments bse_pass_required {F}.
Arguments weights {F}.
Arguments trait_weights {F}.

(** The configuration as the scoring layer reads it. *)
Definition AnalysisConfig := AnalysisConfigOf Q.

Definition default_weights : dict :=
  [("growth", 3#10); ("wool", 2#10); ("reproduction", 2#10);
   ("health", 2#10); ("temperament", 1#10)].

Definition default_trait_weights : list (string * dict) :=
  [("growth", [("adg_100_200d", 3#10); ("adg_200_300d", 3#10);
               ("wt_200d_adj", 2#10); ("wt_300d_adj", 2#10)]);
   ("wool", [("gfw", 4#10); ("micron", 3#10); ("staple_len", 3#10)]);
   ("reproduction", [("weaning_rate", 6#10); ("lambs_weaned", 4#10)]);
   ("health", [("fec_count", 4#10); ("footrot_score", 3#10); ("dag_score", 3#10)]);
   ("temperament", [("temperament", 1)])].

Inductive ValidationError := ValueError (msg : string).

(** [AnalysisConfig.validate_weights_sum]:
    [abs(sum(v.values()) - 1.0) > 0.001] on doubles. *)
Definition validate_weights_sum (v : PyDict.dict Float64.float)
    : ValidationError + PyDict.dict Float64.float :=
  if PrimFloat.ltb (Float64.of_Q (1#1000))
                   (PrimFloat.abs (PrimFloat.sub (Float64.sum (PyDict.values v))
                                                 (Float64.of_Z 1)))
  then inl (ValueError "Weights must sum to 1.0")
  else inr v.

(** The keyword arguments of [AnalysisConfig(...)]; an argument that is not
    given is [None] and takes the field's default. *)
Record ConfigArgs := mkConfigArgs {
  arg_contemporary_group_window_days : option Z;
  arg_normalization_method : option string;
  arg_min_birth_weight : option Float64.float;
  arg_max_footrot_score : option Z;
  arg_max_dag_score : option Z;
  arg_min_weaning_weight : option Float64.float;
  arg_max_micron : option Float64.float;
  arg_bse_pass_required : option bool;
  arg_weights : option (PyDict.dict Float64.float);
  arg_trait_weights : option (list (string * PyDict.dict Float64.float))
}.

Definition no_args : ConfigArgs :=
  mkConfigArgs None None None None None None None None None None.

Definition or_default {A} (o : option A) (d : A) : A :=
  match o with Some x => x | None => d end.

(** Construction of an [AnalysisConfig]: the field validator runs on the
    [weights] argument when one is given; the default is taken as it is. *)
Definition AnalysisConfig_init (a : ConfigArgs)
    : ValidationError + AnalysisConfigOf Float64.float :=
  let build w :=
    {| contemporary_group_window_days := or_default (arg_contemporary_group_window_days a) 30%Z;
       normalization_method := or_default (arg_normalization_method a) "percentile";
       min_birth_weight := or_default (arg_min_birth_weight a) (Float64.of_Q 2);
       max_footrot_score := or_default (arg_max_footrot_score a) 4%Z;
       max_dag_score := or_default (arg_max_dag_score a) 4%Z;
       min_weaning_weight := or_default (arg_min_weaning_weight a) (Float64.of_Q 20);
       max_micron := or_default (arg_max_micron a) (Float64.of_Q 25);
       bse_pass_required := or_default (arg_bse_pass_required a) true;
       weights := w;
       trait_weights :=
         or_default (arg_trait_weights a)
                    (map (fun kv => (fst kv, Float64.of_dict (snd kv))) default_trait_weights) |} in
  match arg_weights a with
  | None => inr (build (Float64.of_dict default_weights))
  | Some v =>
      match validate_weights_sum v with
      | inl e => inl e
      | inr v' => inr (build v')
      end
  end.

End Models.

(* ===================================================================== *)
(** * scoring/ranker.py *)
(* ===================================================================== *)

Module Ranker.
Import Pandas Models.

Definition growth_traits := ["adg_100_200d"; "adg_200_300d"; "wt_200d_adj"; "wt_300d_adj"].
Definition wool_traits := ["gfw"; "cfw"; "micron_score"; "staple_len_score"].
Definition repro_traits := ["weaning_rate"; "lambs_weaned"; "pregnancy_success"].
Definition health_traits := ["fec_score"; "footrot_score"; "dag_score"].

(** [5 - x] on a cell. *)
Definition invert5 (c : cell) : cell :=
  match c with Some v => Some (5 - v) | None => None end.

(** One of the first three blocks of [_calculate_category_scores]: the
    column [score_col] is written into [result_df] from the trait columns
    of [df], when [df] does not have it already. *)
Definition mean_category (df result_df : DataFrame) (score_col : string)
    (traits : list string) : DataFrame :=
  if negb (has_column df score_col) then
    let available_traits := filter (has_column df) traits in
    match available_traits with
    | _ :: _ =>
        let scores := map (fun r => mean_skipna (map r available_traits)) (rows df) in
        assign result_df score_col (map (fillna 0) scores)
    | [] => assign_rowwise result_df score_col (fun _ => Some 0)
    end
  else result_df.

(** The cells of [health_data]: the health columns with the footrot and
    dag scores inverted. *)
Definition health_data (r : Row) (t : string) : cell :=
  if String.eqb t "footrot_score" then invert5 (r t)
  else if String.eqb t "dag_score" then invert5 (r t)
  else r t.

(** The health block: footrot and dag scores are inverted before the mean. *)
Definition health_category (df result_df : DataFrame) : DataFrame :=
  if negb (has_column df "health_score") then
    let available_traits := filter (has_column df) health_traits in
    match available_traits with
    | _ :: _ =>
        let health_scores :=
          map (fun r => mean_skipna (map (health_data r) available_traits)) (rows df) in
        assign result_df "health_score" (map (fillna 0) health_scores)
    | [] => assign_rowwise result_df "health_score" (fun _ => Some 0)
    end
  else result_df.

(** The temperament block. *)
Definition temperament_category (df result_df : DataFrame) : DataFrame :=
  if negb (has_column df "temperament_score") then
    if has_column df "temperament" then
      assign result_df "temperament_score" (map (fillna 0) (column df "temperament"))
    else assign_rowwise result_df "temperament_score" (fun _ => Some 0)
  else result_df.

(** [RankingEngine._calculate_category_scores] *)
Definition _calculate_category_scores (df : DataFrame) : DataFrame :=
  let result_df := df in
  let result_df := mean_category df result_df "growth_score" growth_traits in
  let result_df := mean_category df result_df "wool_score" wool_traits in
  let result_df := mean_category df result_df "reproduction_score" repro_traits in
  let result_df := health_category df result_df in
  let result_df := temperament_category df result_df in
  result_df.

(** [score * weight] on a cell. *)
Definition scale (weight : Q) (c : cell) : cell :=
  match c with Some v => Some (v * weight) | None => None end.

(** [f"{category}_score"] *)
Definition score_column (category : string) : string := category ++ "_score".

(** The first loop of [_calculate_composite_score]: [category_scores] maps
    a category to its score column, named here by the column's name. *)
Definition collect_category_scores (df : DataFrame) (weights : dict)
    : PyDict.dict string :=
  fold_left (fun category_scores category =>
               let score_col := score_column category in
               if has_column df score_col
               then PyDict.set category_scores category score_col
               else category_scores)
            (PyDict.keys weights) [].

(** The second loop: the weighted columns and the total weight. *)
Definition accumulate_weighted (weights : dict) (category_scores : PyDict.dict string)
    : list (Row -> cell) * Q :=
  fold_left (fun (acc : list (Row -> cell) * Q) (item : string * string) =>
               let '(weighted_scores, total_weight) := acc in
               let '(category, score_col) := item in
               let weight := PyDict.get weights category 0 in
               if negb (Qle_bool weight 0)
               then ((weighted_scores ++ [fun r : Row => scale weight (r score_col)])%list,
                     total_weight + weight)
               else acc)
            (PyDict.items category_scores) ([], 0).

(** [RankingEngine._calculate_composite_score] *)
Definition _calculate_composite_score (config : AnalysisConfig) (df : DataFrame) : DataFrame :=
  let result_df := df in
  let weights := weights config in
  let category_scores := collect_category_scores df weights in
  match category_scores with
  | [] => assign_rowwise result_df "composite_score" (fun _ => Some 0)
  | _ :: _ =>
      let '(weighted_scores, total_weight) := accumulate_weighted weights category_scores in
      let composite_score :=
        match weighted_scores with
        | _ :: _ =>
            if negb (Qle_bool total_weight 0)
            then map (fun r => Some (sum_skipna (map (fun f => f r) weighted_scores) / total_weight))
                     (rows df)
            else map (fun _ => Some 0) (rows df)
        | [] => map (fun _ => Some 0) (rows df)
        end in
      assign result_df "composite_score" composite_score
  end.

Inductive RankError := IntCastingNaNError.

(** [.astype(int)] on the rank series: fails on a [NaN]. *)
Fixpoint astype_int (ranks : list (option nat)) : RankError + list cell :=
  match ranks with
  | [] => inr []
  | None :: _ => inl IntCastingNaNError
  | Some k :: rest =>
      match astype_int rest with
      | inl e => inl e
      | inr cs => inr (Some (inject_Z (Z.of_nat k)) :: cs)
      end
  end.

(** [RankingEngine._add_ranking] *)
Definition _add_ranking (df : DataFrame) : RankError + DataFrame :=
  let result_df := df in
  if has_column df "composite_score" then
    match astype_int (rank_desc_min (column df "composite_score")) with
    | inl e => inl e
    | inr ranks => inr (assign result_df "rank" ranks)
    end
  else inr (assign_rowwise result_df "rank" (fun _ => Some 1)).

(** [RankingEngine.calculate_scores] *)
Definition calculate_scores (config : AnalysisConfig) (df : DataFrame) : RankError + DataFrame :=
  let scored_df := df in
  let scored_df := _calculate_category_scores scored_df in
  let scored_df := _calculate_composite_score config scored_df in
  _add_ranking scored_df.

(** An entry of a row handed out by [df.iterrows()]: a number, [NaN],
    or [pd.NA], the missing value of a column of a nullable dtype. *)
Inductive scalar :=
| Num (v : Q)
| NaN
| NA.

(** A row handed out by [df.iterrows()]: the frame's columns and the
    entries. *)
Record RowSeries := mkRowSeries {
  index : list string;
  cells : string -> scalar
}.

(** The row of [df.iterrows()] for the row [r] of a frame with the
    columns [cols] and the dtypes [dtypes]. *)
Definition iterrows_row (dtypes : Dtypes) (cols : list string) (r : Row) : RowSeries :=
  mkRowSeries cols
    (fun name => match r name with
                 | Some v => Num v
                 | None => if dtypes name then NA else NaN
                 end).

(** [name in row] *)
Definition row_has (row : RowSeries) (name : string) : bool :=
  existsb (String.eqb name) (index row).

(** [row.get(name, default)] *)
Definition row_get (row : RowSeries) (name : string) (default : Q) : scalar :=
  if row_has row name then cells row name else Num default.

(** [score > x] and [score < x]: false on a [NaN], [pd.NA] on a [pd.NA]. *)
Definition scalar_gt (score : scalar) (x : Q) : mask_cell :=
  match score with
  | Num v => Some (negb (Qle_bool v x))
  | NaN => Some false
  | NA => None
  end.
Definition scalar_lt (score : scalar) (x : Q) : mask_cell :=
  match score with
  | Num v => Some (negb (Qle_bool x v))
  | NaN => Some false
  | NA => None
  end.

Inductive ExplanationError := TypeError (msg : string).

(** The truth value that an [if] takes of a comparison: [bool(pd.NA)]
    raises. *)
Definition truth (m : mask_cell) : ExplanationError + bool :=
  match m with
  | Some b => inr b
  | None => inl (TypeError "boolean value of NA is ambiguous")
  end.

Record Explanation := mkExplanation {
  strengths : list string;
  weaknesses : list string;
  recommendations : list string
}.

Definition categories : list string :=
  ["growth"; "wool"; "reproduction"; "health"; "temperament"].

Definition component_scores (row : RowSeries) : PyDict.dict scalar :=
  [("growth", row_get row "growth_score" 0);
   ("wool", row_get row "wool_score" 0);
   ("reproduction", row_get row "reproduction_score" 0);
   ("health", row_get row "health_score" 0);
   ("temperament", row_get row "temperament_score" 0)].

(** [f"Strong {category} performance"] and [f"Poor {category} performance"] *)
Definition strong_note (category : string) : string :=
  "Strong " ++ category ++ " performance".
Definition poor_note (category : string) : string :=
  "Poor " ++ category ++ " performance".

(** The body of the loop over [component_scores.items()]. *)
Definition note_step (e : Explanation) (item : string * scalar)
    : ExplanationError + Explanation :=
  let '(category, score) := item in
  match truth (scalar_gt score (7#10)) with
  | inl err => inl err
  | inr true =>
      inr (mkExplanation (strengths e ++ [strong_note category]) (weaknesses e)
                         (recommendations e))
  | inr false =>
      match truth (scalar_lt score (3#10)) with
      | inl err => inl err
      | inr true =>
          inr (mkExplanation (strengths e) (weaknesses e ++ [poor_note category])
                             (recommendations e))
      | inr false => inr e
      end
  end.

(** The loop: it stops at the first item whose test raises. *)
Fixpoint note_loop (items : list (string * scalar)) (e : Explanation)
    : ExplanationError + Explanation :=
  match items with
  | [] => inr e
  | item :: rest =>
      match note_step e item with
      | inl err => inl err
      | inr e' => note_loop rest e'
      end
  end.

(** [if col in row and row[col] < 0.3: recommendations.append(msg)] *)
Definition recommend (row : RowSeries) (col msg : string) (e : Explanation)
    : ExplanationError + Explanation :=
  if row_has row col then
    match truth (scalar_lt (cells row col) (3#10)) with
    | inl err => inl err
    | inr true => inr (mkExplanation (strengths e) (weaknesses e) (recommendations e ++ [msg]))
    | inr false => inr e
    end
  else inr e.

(** An exception leaves the function. *)
Definition and_then {A B} (x : ExplanationError + A) (f : A -> ExplanationError + B)
    : ExplanationError + B :=
  match x with
  | inl err => inl err
  | inr a => f a
  end.

(** [RankingEngine._generate_explanation] *)
Definition _generate_explanation (row : RowSeries) : ExplanationError + Explanation :=
  let explanation := mkExplanation [] [] [] in
  and_then (note_loop (PyDict.items (component_scores row)) explanation) (fun explanation =>
  and_then (recommend row "growth_score" "Focus on improving growth performance" explanation)
    (fun explanation =>
  and_then (recommend row "health_score" "Address health issues" explanation)
    (fun explanation =>
  recommend row "reproduction_score" "Improve reproductive performance" explanation))).

End Ranker.

(* ===================================================================== *)
(** * scoring/filters.py *)
(* ===================================================================== *)

Module Filters.
Import Pandas Models.

Record FilterResults := mkFilterResults {
  original_count : nat;
  filters_applied : list string;
  animals_removed : PyDict.dict nat;
  final_count : nat;
  total_removed : nat
}.

(** The number of [False] entries of a mask: [(~mask).sum()]; a [pd.NA]
    entry is not counted. *)
Definition count_false (mask : Row -> mask_cell) (rs : list Row) : nat :=
  List.length (filter (fun r => is_false (mask r)) rs).

(** One filter block of [apply_hard_filters]. The mask is computed on the
    input frame [df]; when it is [False] for at least one of the rows of
    [df], it is recorded and applied to the frame filtered so far, where
    it keeps the rows for which it is [True]. *)
Definition filter_block (df : DataFrame) (enabled : bool) (col name : string)
    (mask : Row -> mask_cell) (st : DataFrame * FilterResults) : DataFrame * FilterResults :=
  let '(filtered_df, filter_results) := st in
  if enabled && has_column df col then
    let removed_count := count_false mask (rows df) in
    if (0 <? removed_count)%nat then
      (select filtered_df (fun r => na_false (mask r)),
       mkFilterResults (original_count filter_results)
                       (filters_applied filter_results ++ [name])%list
                       (PyDict.set (animals_removed filter_results) name removed_count)
                       (final_count filter_results)
                       (total_removed filter_results))
    else st
  else st.

(** [FilterEngine.apply_hard_filters] on a frame [df] whose dtypes are
    [dtypes]. *)
Definition apply_hard_filters (config : AnalysisConfig) (dtypes : Dtypes) (df : DataFrame)
    : DataFrame * FilterResults :=
  let original_count := len df in
  let st := (df, mkFilterResults original_count [] [] 0 0) in
  let st := filter_block df true "wt_birth" "min_birth_weight"
              (col_ge dtypes "wt_birth" (min_birth_weight config)) st in
  let st := filter_block df true "footrot_score" "max_footrot_score"
              (col_le dtypes "footrot_score" (inject_Z (max_footrot_score config))) st in
  let st := filter_block df true "dag_score" "max_dag_score"
              (col_le dtypes "dag_score" (inject_Z (max_dag_score config))) st in
  let st := filter_block df true "wt_wean" "min_weaning_weight"
              (col_ge dtypes "wt_wean" (min_weaning_weight config)) st in
  let st := filter_block df true "micron" "max_micron"
              (col_le dtypes "micron" (max_micron config)) st in
  let st := filter_block df (bse_pass_required config) "bse_pass" "bse_pass_required"
              (col_eqb dtypes "bse_pass" 1) st in
  let '(filtered_df, filter_results) := st in
  (filtered_df,
   mkFilterResults (Filters.original_count filter_results)
                   (filters_applied filter_results)
                   (animals_removed filter_results)
                   (len filtered_df)
                   (original_count - len filtered_df)).

(** A row of the frame returned by [identify_cull_candidates]: the input
    row and the two columns the function adds. *)
Record CullRow := mkCullRow {
  animal : Row;
  cull_recommended : bool;
  cull_reasons : string
}.

Definition in_chars (a : ascii) (chars : string) : bool :=
  existsb (Ascii.eqb a) (list_ascii_of_string chars).

(** [s.rstrip(chars)]: the longest suffix made of characters of [chars]
    is removed. *)
Fixpoint rstrip (chars : string) (s : string) : string :=
  match s with
  | EmptyString => EmptyString
  | String a s' =>
      match rstrip chars s' with
      | EmptyString => if in_chars a chars then EmptyString else String a EmptyString
      | t => String a t
      end
  end.

(** [cull_candidates.loc[mask, 'cull_recommended'] = True] together with
    the update of the reasons of the same rows. *)
Definition flag_rows (mask : Row -> bool) (update : string -> string)
    (cs : list CullRow) : list CullRow :=
  map (fun c => if mask (animal c)
                then mkCullRow (animal c) true (update (cull_reasons c))
                else c) cs.

(** [FilterEngine.identify_cull_candidates] *)
Definition identify_cull_candidates (df : DataFrame) : list CullRow :=
  let cull_candidates := map (fun r => mkCullRow r false "") (rows df) in
  let cull_candidates :=
    if has_column df "cull_flag" then
      flag_rows (fun r => cell_eqb (r "cull_flag") 1)
                (fun _ => "Existing cull flag") cull_candidates
    else cull_candidates in
  let cull_candidates :=
    if has_column df "wt_300d" then
      let low_weight_threshold := quantile (column df "wt_300d") (1#10) in
      flag_rows (fun r => cell_lt_cell (r "wt_300d") low_weight_threshold)
                (fun s => s ++ "Low 300d weight; ") cull_candidates
    else cull_candidates in
  let cull_candidates :=
    if has_column df "health_score" then
      let poor_health_threshold := quantile (column df "health_score") (1#10) in
      flag_rows (fun r => cell_lt_cell (r "health_score") poor_health_threshold)
                (fun s => s ++ "Poor health; ") cull_candidates
    else cull_candidates in
  let cull_candidates :=
    if has_column df "weaning_rate" then
      flag_rows (fun r => cell_lt (r "weaning_rate") (5#10))
                (fun s => s ++ "Poor reproduction; ") cull_candidates
    else cull_candidates in
  map (fun c => mkCullRow (animal c) (cull_recommended c) (rstrip "; " (cull_reasons c)))
      cull_candidates.

End Filters.

(* ===================================================================== *)
(** * processing/standardizer.py *)
(* ===================================================================== *)

Module Standardizer.
Import Pandas.

Inductive StandardizeError :=
| UnknownMethod (method : string).

(** [(valid_values <= val).sum()] *)
Definition count_le (valid_values : list Q) (val : Q) : nat :=
  fold_left (fun acc x => if Qle_bool x val then S acc else acc) valid_values 0%nat.

(** [DataStandardizer._percentile_standardize]. (The source also computes
    [valid_values.rank(pct=True) * 100] into a local it never reads.) *)
Definition _percentile_standardize (values : Series) (valid_values : list Q) : Series :=
  map (fun c => match c with
                | Some val =>
                    Some (inject_Z (Z.of_nat (count_le valid_values val))
                          / inject_Z (Z.of_nat (List.length valid_values)) * 100)
                | None => None
                end) values.

Section ZScore.

(** numpy's [sum] of an array of doubles.  The order of its additions
    depends on the length of the array and is left open; [Float64.sum]
    is one order, and on three equal numbers every order gives the same
    double, addition being commutative. *)
Variable np_sum : list Float64.float -> Float64.float.

(** [valid_values.mean()]: the sum divided by the count. *)
Definition mean (l : list Float64.float) : Float64.float :=
  PrimFloat.div (np_sum l) (Float64.of_nat (List.length l)).

(** [valid_values.std()]: the square root of the sum of the squared
    deviations from the mean, divided by the count less one. *)
Definition std (l : list Float64.float) : Float64.float :=
  let count := Float64.of_nat (List.length l) in
  let avg := PrimFloat.div (np_sum l) count in
  let sqr := map (fun x => PrimFloat.mul (PrimFloat.sub avg x) (PrimFloat.sub avg x)) l in
  PrimFloat.sqrt (PrimFloat.div (np_sum sqr) (PrimFloat.sub count (Float64.of_Z 1))).

(** [(v - mean_val) / std_val] on one cell. *)
Definition zscore_cell (mean_val std_val : Float64.float) (c : cell) : cell :=
  match c with
  | Some v => Float64.to_cell (PrimFloat.div (PrimFloat.sub (Float64.of_Q v) mean_val) std_val)
  | None => None
  end.

(** [DataStandardizer._zscore_standardize] *)
Definition _zscore_standardize (values : Series) (valid_values : list Q) : Series :=
  let mean_val := mean (map Float64.of_Q valid_values) in
  let std_val := std (map Float64.of_Q valid_values) in
  if PrimFloat.eqb std_val (Float64.of_Z 0) then map (fun _ => Some 0) values
  else map (zscore_cell mean_val std_val) values.

(** [DataStandardizer._standardize_trait], for a standardizer whose
    [method] attribute is [method]. *)
Definition _standardize_trait (method : string) (values : Series)
    : StandardizeError + Series :=
  let valid_values := dropna values in
  if (List.length valid_values <? 2)%nat then inr (map (fun _ => None) values)
  else if String.eqb method "percentile" then
    inr (_percentile_standardize values valid_values)
  else if String.eqb method "zscore" then
    inr (_zscore_standardize values valid_values)
  else inl (UnknownMethod method).

End ZScore.

End Standardizer.

(* ===================================================================== *)
(** * processing/grouping.py *)
(* ===================================================================== *)

Module Grouping.

(** The columns of a record that grouping reads. A missing management
    group ([NaN]) and a missing birth date ([NaT]) are [None]; a date is a
    day number. *)
Record Animal := mkAnimal {
  animal_id : string;
  mgmt_group : option string;
  birth_date : option Z
}.

(** A row of the frame returned by [create_contemporary_groups]. *)
Record Grouped := mkGrouped {
  record : Animal;
  contemporary_group : option string
}.

(** Decimal rendering of a counter, as in an f-string. *)
Definition str_of_nat (n : nat) : string :=
  NilEmpty.string_of_uint (Nat.to_uint n).

(** [f"{mgmt_group}_G{current_group}"] *)
Definition group_name (mgmt : string) (current_group : nat) : string :=
  mgmt ++ "_G" ++ str_of_nat current_group.

(** The order of [sort_values('birth_date')]: ascending, [NaT] last. *)
Definition date_leb (a b : option Z) : bool :=
  match a, b with
  | Some x, Some y => (x <=? y)%Z
  | _, None => true
  | None, Some _ => false
  end.

Fixpoint insert_by_date (a : Animal) (l : list Animal) : list Animal :=
  match l with
  | [] => [a]
  | b :: l' =>
      if date_leb (birth_date a) (birth_date b) then a :: l
      else b :: insert_by_date a l'
  end.

(** [group_df.sort_values('birth_date')]; rows with equal dates keep their
    order here (pandas leaves their order open). *)
Definition sort_values (l : list Animal) : list Animal :=
  fold_right insert_by_date [] l.

(** [(birth_date - current_group_start).days <= window_days]; the
    difference with a [NaT] is [NaT], whose [days] is [NaN], and the
    comparison is then false. *)
Definition within_window (window_days : Z) (birth start : option Z) : bool :=
  match birth, start with
  | Some b, Some s => (b - s <=? window_days)%Z
  | _, _ => false
  end.

Definition mgmt_str (a : Animal) : string :=
  match mgmt_group a with Some m => m | None => "nan" end.

(** The loop state of [_group_by_birth_window]: the dictionary built so
    far, [current_group] and [current_group_start] ([None] before the
    first animal). *)
Definition window_step (window_days : Z)
    (st : PyDict.dict string * nat * option (option Z)) (row : Animal)
    : PyDict.dict string * nat * option (option Z) :=
  let '(contemporary_groups, current_group, current_group_start) := st in
  match current_group_start with
  | None =>
      (PyDict.set contemporary_groups (animal_id row) (group_name (mgmt_str row) current_group),
       current_group, Some (birth_date row))
  | Some start =>
      if within_window window_days (birth_date row) start then
        (PyDict.set contemporary_groups (animal_id row) (group_name (mgmt_str row) current_group),
         current_group, current_group_start)
      else
        let current_group := S current_group in
        (PyDict.set contemporary_groups (animal_id row) (group_name (mgmt_str row) current_group),
         current_group, Some (birth_date row))
  end.

(** [ContemporaryGrouping._group_by_birth_window]; [has_birth_date] says
    whether the frame has a [birth_date] column. *)
Definition _group_by_birth_window (window_days : Z) (has_birth_date : bool)
    (group_df : list Animal) : PyDict.dict string :=
  match group_df with
  | [] => []
  | _ :: _ =>
      if negb has_birth_date then []
      else
        let group_df := sort_values group_df in
        fst (fst (fold_left (window_step window_days) group_df ([], 1%nat, None)))
  end.

Definition opt_string_eqb (a b : option string) : bool :=
  match a, b with
  | Some x, Some y => String.eqb x y
  | _, _ => false
  end.

(** [df['mgmt_group'].unique()]: the distinct values in order of first
    appearance; a [NaN] is listed once. *)
Fixpoint unique (l : list (option string)) : list (option string) :=
  match l with
  | [] => []
  | x :: l' =>
      let same y := match x, y with
                    | Some a, Some b => String.eqb a b
                    | None, None => true
                    | _, _ => false
                    end in
      x :: filter (fun y => negb (same y)) (unique l')
  end.

(** [df.loc[df['animal_id'] == animal_id, 'contemporary_group'] = cont_group] *)
Definition set_group (animal_id0 cont_group : string) (df : list Grouped) : list Grouped :=
  map (fun g => if String.eqb (animal_id (record g)) animal_id0
                then mkGrouped (record g) (Some cont_group)
                else g) df.

(** [ContemporaryGrouping.create_contemporary_groups] *)
Definition create_contemporary_groups (window_days : Z) (has_birth_date : bool)
    (df : list Animal) : list Grouped :=
  let df0 := map (fun a => mkGrouped a None) df in
  fold_left (fun (df : list Grouped) (mgmt : option string) =>
               let group_df :=
                 filter (fun a => opt_string_eqb (mgmt_group a) mgmt) (map record df) in
               if negb has_birth_date then df
               else
                 let contemporary_groups :=
                   _group_by_birth_window window_days has_birth_date group_df in
                 fold_left (fun df item => set_group (fst item) (snd item) df)
                           (PyDict.items contemporary_groups) df)
            (unique (map mgmt_group df)) df0.

End Grouping.

(* ===================================================================== *)
(** * scoring/filters.py: soft filters *)
(* ===================================================================== *)

From Stdlib Require Import DecimalNat.

Module SoftFilters.
Import Pandas Models.

Record SoftFilterResults := mkSoftFilterResults {
  animals_flagged : PyDict.dict nat;
  flags_applied : list string
}.

(** A boolean stored in a column. *)
Definition bool_cell (b : bool) : cell := Some (if b then 1 else 0).

(** [getattr(self.config, name, default)] for the three soft thresholds:
    [AnalysisConfig] declares no field of these names, so the attribute
    is never there and the default is taken. *)
Definition getattr_default (config : AnalysisConfig) (name : string) (default : Q) : Q :=
  default.

(** One block of [apply_soft_filters]: the flag column is computed on the
    input frame [df] and written into the frame under construction; the
    number of flagged animals is recorded when it is positive. *)
Definition soft_block (config : AnalysisConfig) (df : DataFrame)
    (col flag_col name : string) (default : Q)
    (st : DataFrame * SoftFilterResults) : DataFrame * SoftFilterResults :=
  let '(filtered_df, soft_filter_results) := st in
  if has_column df col then
    let threshold := getattr_default config name default in
    let flags := map (fun r => cell_lt (r col) threshold) (rows df) in
    let filtered_df := assign filtered_df flag_col (map bool_cell flags) in
    let flagged_count := List.length (filter (fun b : bool => b) flags) in
    if (0 <? flagged_count)%nat then
      (filtered_df,
       mkSoftFilterResults
         (PyDict.set (animals_flagged soft_filter_results) name flagged_count)
         (flags_applied soft_filter_results ++ [name])%list)
    else (filtered_df, soft_filter_results)
  else st.

(** [FilterEngine.apply_soft_filters] *)
Definition apply_soft_filters (config : AnalysisConfig) (df : DataFrame)
    : DataFrame * SoftFilterResults :=
  let st := (df, mkSoftFilterResults [] []) in
  let st := soft_block config df "wt_200d" "soft_filter_200d" "min_200d_weight" 40 st in
  let st := soft_block config df "wt_300d" "soft_filter_300d" "min_300d_weight" 50 st in
  let st := soft_block config df "weaning_rate" "soft_filter_weaning" "min_weaning_rate" (5#10) st in
  st.

End SoftFilters.

(* ===================================================================== *)
(** * scoring/ranker.py: ranking of rams *)
(* ===================================================================== *)

Module Rams.
Import Pandas Models Ranker.

(** The order of [sort_values(col)] on cells: ascending, [NaN] last. *)
Definition cell_leb (a b : cell) : bool :=
  match a, b with
  | Some x, Some y => Qle_bool x y
  | _, None => true
  | None, Some _ => false
  end.

Fixpoint insert_row (col : string) (r : Row) (l : list Row) : list Row :=
  match l with
  | [] => [r]
  | r' :: l' =>
      if cell_leb (r col) (r' col) then r :: l else r' :: insert_row col r l'
  end.

(** [df.sort_values(col)]; rows with equal keys keep their order here
    (pandas leaves their order open). *)
Definition sort_values (df : DataFrame) (col : string) : DataFrame :=
  {| columns := columns df; rows := fold_right (insert_row col) [] (rows df) |}.

(** [df[df['sex'] == 'Ram']]: the text column [sex] is kept beside the
    numeric frame, one entry per row. *)
Definition select_rams (df : DataFrame) (sex : list string) : DataFrame :=
  {| columns := columns df;
     rows := map fst (filter (fun rs : Row * string => String.eqb (snd rs) "Ram")
                             (combine (rows df) sex)) |}.

(** [RankingEngine.rank_rams] *)
Definition rank_rams (config : AnalysisConfig) (df : DataFrame) (sex : list string)
    : RankError + DataFrame :=
  let rams_df := select_rams df sex in
  match rows rams_df with
  | [] => inr (mkDataFrame [] [])
  | _ :: _ =>
      match calculate_scores config rams_df with
      | inl e => inl e
      | inr ranked_rams =>
          let ranked_rams := sort_values ranked_rams "rank" in
          inr (assign_rowwise ranked_rams "selection_recommended"
                 (fun r => SoftFilters.bool_cell (cell_le (r "rank") 10)))
      end
  end.

End Rams.

(* ===================================================================== *)
(** * scoring/engine.py: checks on the results of a scoring run *)
(* ===================================================================== *)

Module Engine.
Import Pandas.

(** The entries of [self.scoring_results] that [get_summary_statistics]
    and [validate_scoring] read. *)
Record ScoringResults := mkScoringResults {
  original_data : DataFrame;
  filtered_data : DataFrame;
  scored_data : DataFrame;
  ranked_rams : DataFrame
}.

(** [s.min()] and [s.max()]: missing values are skipped, and the result
    is [NaN] when nothing is left. *)
Definition series_min (s : Series) : cell :=
  match dropna s with
  | [] => None
  | x :: xs => Some (fold_left (fun a b => if Qle_bool a b then a else b) xs x)
  end.

Definition series_max (s : Series) : cell :=
  match dropna s with
  | [] => None
  | x :: xs => Some (fold_left (fun a b => if Qle_bool a b then b else a) xs x)
  end.

(** [s.is_monotonic_increasing]: no value is smaller than the one before
    it; a missing value makes it false. *)
Fixpoint is_monotonic_increasing (s : Series) : bool :=
  match s with
  | [] => true
  | None :: _ => false
  | Some x :: rest =>
      match rest with
      | Some y :: _ => Qle_bool x y
      | _ => true
      end && is_monotonic_increasing rest
  end.

(** The [retention_rate] entry of [ScoringEngine.get_summary_statistics]. *)
Definition retention_rate (scoring_results : ScoringResults) : Q :=
  let total_animals_processed := len (original_data scoring_results) in
  let animals_after_hard_filters := len (filtered_data scoring_results) in
  if (0 <? total_animals_processed)%nat then
    (inject_Z (Z.of_nat animals_after_hard_filters)
     / inject_Z (Z.of_nat total_animals_processed)) * 100
  else 0.

(** [ScoringEngine.validate_scoring]; [None] is the empty
    [self.scoring_results] before any run. *)
Definition validate_scoring (scoring_results : option ScoringResults) : list string :=
  match scoring_results with
  | None => ["No scoring results available"]
  | Some res =>
      let issues := [] in
      let original_count := len (original_data res) in
      let filtered_count := len (filtered_data res) in
      let issues :=
        if (original_count <? filtered_count)%nat
        then (issues ++ ["Filtered data has more rows than original data"])%list
        else issues in
      let issues :=
        if has_column (scored_data res) "composite_score" then
          let scores := column (scored_data res) "composite_score" in
          if cell_lt (series_min scores) 0 || cell_gt (series_max scores) 1
          then (issues ++ ["Composite scores outside expected range [0, 1]"])%list
          else issues
        else issues in
      let issues :=
        if has_column (ranked_rams res) "rank" then
          let ranks := column (ranked_rams res) "rank" in
          if negb (is_monotonic_increasing ranks)
          then (issues ++ ["Ranks are not properly ordered"])%list
          else issues
        else issues in
      issues
  end.

End Engine.

(* ===================================================================== *)
(** * config_presets/presets.py *)
(* ===================================================================== *)

Module Presets.
Import Models.

(** A value of a preset entry that [create_config_from_preset] does not read. *)
Inductive yaml_value :=
| YNum (x : Float64.float)
| YStr (s : string).

(** A preset dictionary: the ten entries that [create_config_from_preset]
    reads, each of which may be absent, and the entries it does not read. *)
Record PresetData := mkPresetData {
  p_contemporary_group_window_days : option Z;
  p_normalization_method : option string;
  p_min_birth_weight : option Float64.float;
  p_max_footrot_score : option Z;
  p_max_dag_score : option Z;
  p_min_weaning_weight : option Float64.float;
  p_max_micron : option Float64.float;
  p_bse_pass_required : option bool;
  p_weights : option (PyDict.dict Float64.float);
  p_trait_weights : option (list (string * PyDict.dict Float64.float));
  p_other : PyDict.dict yaml_value
}.

(** core/constants.py, [DEFAULT_PRESETS]: the category weights, given
    here by their decimal literals, are the entries of the preset itself. *)
Definition flat_preset (growth wool reproduction health temperament : Q) : PresetData :=
  mkPresetData None None None None None None None None None None
    [("growth", YNum (Float64.of_Q growth)); ("wool", YNum (Float64.of_Q wool));
     ("reproduction", YNum (Float64.of_Q reproduction));
     ("health", YNum (Float64.of_Q health));
     ("temperament", YNum (Float64.of_Q temperament))].

Definition DEFAULT_PRESETS : PyDict.dict PresetData :=
  [("balanced", flat_preset (3#10) (2#10) (2#10) (2#10) (1#10));
   ("meat", flat_preset (5#10) (1#10) (2#10) (15#100) (5#100));
   ("wool", flat_preset (2#10) (4#10) (2#10) (15#100) (5#100));
   ("worm", flat_preset (25#100) (15#100) (2#10) (35#100) (5#100))].

Inductive PresetError :=
| PresetNotFound (name : string) (available : list string)
| ConfigInvalid (e : ValidationError).

(** [self.presets[name]], [None] when [name not in self.presets]. *)
Fixpoint getitem {V} (d : PyDict.dict V) (k : string) : option V :=
  match d with
  | [] => None
  | (k', v) :: d' => if String.eqb k' k then Some v else getitem d' k
  end.

(** [ConfigPresets.get_preset] *)
Definition get_preset (presets : PyDict.dict PresetData) (name : string)
    : PresetError + PresetData :=
  match getitem presets name with
  | None => inl (PresetNotFound name (PyDict.keys presets))
  | Some preset_data => inr preset_data
  end.

(** [ConfigPresets.get_available_presets] *)
Definition get_available_presets (presets : PyDict.dict PresetData) : list string :=
  PyDict.keys presets.

(** [ConfigPresets.create_config_from_preset] *)
Definition create_config_from_preset (presets : PyDict.dict PresetData) (name : string)
    : PresetError + AnalysisConfigOf Float64.float :=
  match get_preset presets name with
  | inl e => inl e
  | inr preset_data =>
      let config_data :=
        {| arg_contemporary_group_window_days :=
             Some (or_default (p_contemporary_group_window_days preset_data) 30%Z);
           arg_normalization_method :=
             Some (or_default (p_normalization_method preset_data) "percentile");
           arg_min_birth_weight :=
             Some (or_default (p_min_birth_weight preset_data) (Float64.of_Q 2));
           arg_max_footrot_score := Some (or_default (p_max_footrot_score preset_data) 4%Z);
           arg_max_dag_score := Some (or_default (p_max_dag_score preset_data) 4%Z);
           arg_min_weaning_weight :=
             Some (or_default (p_min_weaning_weight preset_data) (Float64.of_Q 20));
           arg_max_micron := Some (or_default (p_max_micron preset_data) (Float64.of_Q 25));
           arg_bse_pass_required := Some (or_default (p_bse_pass_required preset_data) true);
           arg_weights := Some (or_default (p_weights preset_data) []);
           arg_trait_weights := Some (or_default (p_trait_weights preset_data) []) |} in
      match AnalysisConfig_init config_data with
      | inl e => inl (ConfigInvalid e)
      | inr config => inr config
      end
  end.

(** [ConfigPresets.save_preset], on the presets held in memory (the same
    dictionary is also written to a YAML file). *)
Definition save_preset (presets : PyDict.dict PresetData) (name : string)
    (config : AnalysisConfigOf Float64.float) (description : string)
    : PyDict.dict PresetData :=
  let preset_data :=
    {| p_contemporary_group_window_days := Some (contemporary_group_window_days config);
       p_normalization_method := Some (normalization_method config);
       p_min_birth_weight := Some (min_birth_weight config);
       p_max_footrot_score := Some (max_footrot_score config);
       p_max_dag_score := Some (max_dag_score config);
       p_min_weaning_weight := Some (min_weaning_weight config);
       p_max_micron := Some (max_micron config);
       p_bse_pass_required := Some (bse_pass_required config);
       p_weights := Some (weights config);
       p_trait_weights := Some (trait_weights config);
       p_other := [("name", YStr name); ("description", YStr description)] |} in
  PyDict.set presets name preset_data.

End Presets.

(* ===================================================================== *)
(** * metrics/calculator.py *)
(* ===================================================================== *)

Module Calculator.
Import Pandas.

(** [a / b] on two cells, for a divisor that is not zero; a [NaN] on
    either side gives [NaN]. *)
Definition cell_div (a b : cell) : cell :=
  match a, b with
  | Some x, Some y => Some (x / y)
  | _, _ => None
  end.

(** [MetricsCalculator._calculate_reproduction_metrics]; in [np.where] the
    quotient is taken only on the rows where [lambs_born > 0]. *)
Definition _calculate_reproduction_metrics (df : DataFrame) : DataFrame :=
  let result_df := df in
  let result_df :=
    if has_column df "lambs_born" && has_column df "lambs_weaned" then
      assign result_df "weaning_rate"
        (map (fun r => if cell_gt (r "lambs_born") 0
                       then cell_div (r "lambs_weaned") (r "lambs_born")
                       else None)
             (rows df))
    else result_df in
  let result_df :=
    if has_column df "preg_scan"
    then assign result_df "pregnancy_success" (column df "preg_scan")
    else result_df in
  let result_df :=
    if has_column df "lambs_weaned"
    then assign result_df "reproductive_efficiency" (column df "lambs_weaned")
    else result_df in
  result_df.

(** The list [bse_criteria] of [_calculate_bse_status]: one mask for each
    of the four columns that the frame has. *)
Definition bse_criteria (dtypes : Dtypes) (df : DataFrame) : list (Row -> mask_cell) :=
  ((if has_column df "wt_300d" then [col_ge dtypes "wt_300d" 50] else [])
   ++ (if has_column df "footrot_score" then [col_le dtypes "footrot_score" 2] else [])
   ++ (if has_column df "dag_score" then [col_le dtypes "dag_score" 2] else [])
   ++ (if has_column df "temperament" then [col_ge dtypes "temperament" 3] else []))%list.

(** [MetricsCalculator._calculate_bse_status] on a frame whose dtypes are
    [dtypes]; [.all(axis=1)] skips the [pd.NA] entries of a row. *)
Definition _calculate_bse_status (dtypes : Dtypes) (df : DataFrame) : DataFrame :=
  let result_df := df in
  match bse_criteria dtypes df with
  | [] => assign_rowwise result_df "bse_pass" (fun _ => SoftFilters.bool_cell true)
  | (_ :: _) as criteria =>
      assign result_df "bse_pass"
        (map (fun r => SoftFilters.bool_cell (forallb (fun mask => na_true (mask r)) criteria))
             (rows df))
  end.

End Calculator.

(* ===================================================================== *)
(** * Concrete inputs used by the examples below *)
(* ===================================================================== *)

Module Examples.
Import Pandas Models.

(** A row given by its cells; a name that is not listed is [NaN]. *)
Definition row_of (l : list (string * cell)) : Row := fun c => PyDict.get l c None.

(** [AnalysisConfig()] *)
Definition default_config : AnalysisConfig :=
  mkAnalysisConfig 30 "percentile" 2 4 4 20 25 true default_weights default_trait_weights.

(** The arguments of [test_weights_validation] and [test_custom_config]
    in [tests/test_models.py]. *)
Definition args_sum_08 : ConfigArgs :=
  mkConfigArgs None None None None None None None None
               (Some (Float64.of_dict [("growth", 5#10); ("wool", 3#10)])) None.

Definition args_custom : ConfigArgs :=
  mkConfigArgs None None (Some (Float64.of_Q 3)) (Some 2%Z) None None None None
               (Some (Float64.of_dict [("growth", 5#10); ("wool", 3#10);
                                       ("reproduction", 2#10)])) None.

(** [AnalysisConfig(weights={"growth": float("nan"), "wool": 0.5})] *)
Definition args_nan : ConfigArgs :=
  mkConfigArgs None None None None None None None None
               (Some [("growth", PrimFloat.nan); ("wool", Float64.of_Q (5#10))]) None.

(** [AnalysisConfig(weights={"growth": 0.999})]: the double [0.999] lies
    below 999/1000, more than 0.001 away from 1. *)
Definition args_sum_0999 : ConfigArgs :=
  mkConfigArgs None None None None None None None None
               (Some (Float64.of_dict [("growth", 999#1000)])) None.

(** [AnalysisConfig()] as it is constructed, on doubles. *)
Definition constructed_default : AnalysisConfigOf Float64.float :=
  mkAnalysisConfig 30 "percentile" (Float64.of_Q 2) 4 4 (Float64.of_Q 20) (Float64.of_Q 25) true
    (Float64.of_dict default_weights)
    (map (fun kv => (fst kv, Float64.of_dict (snd kv))) default_trait_weights).

(** Two animals with a growth trait; the first has no fleece weight. *)
Definition df_missing_wool : DataFrame :=
  mkDataFrame ["wt_200d_adj"; "gfw"]
    [row_of [("wt_200d_adj", Some 1); ("gfw", None)];
     row_of [("wt_200d_adj", Some 1); ("gfw", Some 1)]].

(** A frame that already has the health score of the metrics layer, the
    mean of [5 - footrot_score] and [5 - dag_score]; recomputed by the
    ranking layer, with [fec_score] in the mean, it would be 2.5 and 2.2. *)
Definition df_with_health : DataFrame :=
  mkDataFrame ["fec_score"; "footrot_score"; "dag_score"; "health_score"]
    [row_of [("fec_score", Some (5#10)); ("footrot_score", Some 1);
             ("dag_score", Some 2); ("health_score", Some (7#2))];
     row_of [("fec_score", Some (6#10)); ("footrot_score", Some 3);
             ("dag_score", Some 1); ("health_score", Some 3)]].

(** A scored row whose growth score is exactly 0.7. *)
Definition row_growth_07 : Ranker.RowSeries :=
  Ranker.iterrows_row Cleaner.cleaned_dtypes
    ["growth_score"; "wool_score"; "reproduction_score"; "health_score"; "temperament_score"]
    (row_of [("growth_score", Some (7#10)); ("wool_score", Some (5#10));
             ("reproduction_score", Some (5#10)); ("health_score", Some (5#10));
             ("temperament_score", Some (5#10))]).

(** A scored row with a poor growth and a poor health score, and the
    explanation made for it. *)
Definition row_poor_growth : Ranker.RowSeries :=
  Ranker.iterrows_row Cleaner.cleaned_dtypes
    ["growth_score"; "wool_score"; "reproduction_score"; "health_score"; "temperament_score"]
    (row_of [("growth_score", Some (2#10)); ("wool_score", Some (8#10));
             ("reproduction_score", Some (5#10)); ("health_score", Some (1#10));
             ("temperament_score", Some (5#10))]).

Definition explanation_poor_growth : Ranker.Explanation :=
  Ranker.mkExplanation
    ["Strong wool performance"]
    ["Poor growth performance"; "Poor health performance"]
    ["Focus on improving growth performance"; "Address health issues"].

(** A scored row of a cleaned frame for an animal without a temperament
    record: the metrics layer copied the [Int64] column [temperament]
    into [temperament_score], so the score is [pd.NA]. *)
Definition temperament_dtypes : Dtypes :=
  fun col => Cleaner.cleaned_dtypes col || String.eqb col "temperament_score".

Definition row_temperament_na : Ranker.RowSeries :=
  Ranker.iterrows_row temperament_dtypes
    ["growth_score"; "wool_score"; "reproduction_score"; "health_score";
     "temperament"; "temperament_score"]
    (row_of [("growth_score", Some (8#10)); ("wool_score", Some (5#10));
             ("reproduction_score", Some (2#10)); ("health_score", Some (5#10));
             ("temperament", None); ("temperament_score", None)]).

(** One animal whose birth weight was not recorded. *)
Definition df_no_birth_weight : DataFrame :=
  mkDataFrame ["wt_birth"; "wt_wean"]
    [row_of [("wt_birth", None); ("wt_wean", Some 30)]].

(** Two animals after cleaning, the second without a footrot score
    ([pd.NA] in the [Int64] column); the first scores 3, then 5. *)
Definition df_footrot_na (first : Q) : DataFrame :=
  mkDataFrame ["footrot_score"]
    [row_of [("footrot_score", Some first)]; row_of [("footrot_score", None)]].

(** One animal after cleaning, of 60 kg at 300 days and without a
    footrot score. *)
Definition df_heavy_no_footrot : DataFrame :=
  mkDataFrame ["wt_300d"; "footrot_score"]
    [row_of [("wt_300d", Some 60); ("footrot_score", None)]].

(** The five rams of the specification's scenario, by birth weight. *)
Definition df_five_rams : DataFrame :=
  mkDataFrame ["wt_birth"]
    (map (fun w => row_of [("wt_birth", Some w)]) [15#10; 2; 25#10; 3; 35#10]).

(** A cohort of four animals, one without a value, with a tie. *)
Definition cohort_with_tie : Series := [Some 40; None; Some 55; Some 40].

(** A cohort whose recorded values are all the same. *)
Definition cohort_constant : Series := [Some (1#10); Some (1#10); None; Some (1#10)].

(** A mob with one animal whose birth date is missing, and one animal
    without a management group. *)
Definition mob_with_gaps : list Grouping.Animal :=
  [Grouping.mkAnimal "A1" (Some "MOB1") (Some 100%Z);
   Grouping.mkAnimal "A2" (Some "MOB1") None;
   Grouping.mkAnimal "A3" None (Some 101%Z);
   Grouping.mkAnimal "A4" (Some "MOB1") (Some 140%Z)].

(** Two animals of one cohort with footrot scores 1 and 3. *)
Definition df_footrot : DataFrame :=
  mkDataFrame ["footrot_score"]
    [row_of [("footrot_score", Some 1)]; row_of [("footrot_score", Some 3)]].

(** A filtered population of 100 animals with 300-day weights 1, ..., 100. *)
Definition df_hundred_weights : DataFrame :=
  mkDataFrame ["wt_300d"]
    (map (fun n => row_of [("wt_300d", Some (inject_Z (Z.of_nat n)))]) (seq 1 100)).

End Examples.

(* ===================================================================== *)
(** * Notions used to state the properties *)
(* ===================================================================== *)

Module Spec.
Import Pandas Models Ranker Filters.

(** The five category score columns. *)
Definition score_columns : list string :=
  ["growth_score"; "wool_score"; "reproduction_score"; "health_score"; "temperament_score"].

(** An animal has no value in any of the columns [traits] that the frame has. *)
Definition no_data (df : DataFrame) (traits : list string) (r : Row) : Prop :=
  forall t, In t traits -> has_column df t = true -> r t = None.

(** What a block of [_calculate_category_scores] for the column [col],
    computed from the columns [traits], does to the frame under
    construction: the length is kept, [col] is in the result, a column is
    rewritten only if it is [col] and the input frame [df] does not have
    it, and then an animal without data gets the score 0. *)
Definition category_block (df : DataFrame) (col : string) (traits : list string)
    (block : DataFrame -> DataFrame) : Prop :=
  forall result_df,
    len result_df = len df ->
    len (block result_df) = len df
    /\ (forall c, has_column (block result_df) c
                  = has_column result_df c || (negb (has_column df col) && String.eqb c col))
    /\ (forall c, has_column df col = true \/ String.eqb c col = false ->
                  column (block result_df) c = column result_df c)
    /\ (has_column df col = false ->
        forall i r, nth_error (rows df) i = Some r -> no_data df traits r ->
                    nth_error (column (block result_df) col) i = Some (Some 0)).

(** Descending order. *)
Definition desc (a b : Q) : Prop := b <= a.

(** The number of elements strictly above [v]. *)
Definition count_above (v : Q) (l : list Q) : nat :=
  List.length (filter (fun y => negb (Qle_bool y v)) l).

(** The number of cells strictly above [q]; a [NaN] is above nothing. *)
Definition higher_count (q : Q) (s : Series) : nat :=
  List.length (filter (fun c => cell_gt c q) s).

(** The rank of a composite cell within the series [s]: one plus the
    number of cells strictly above it. *)
Definition rank_cell (s : Series) (c : cell) : cell :=
  match c with
  | Some v => Some (inject_Z (Z.of_nat (1 + higher_count v s)))
  | None => None
  end.

(** The configured categories that enter the composite score of a frame:
    those with a positive weight whose score column is in the frame. *)
Definition active_categories (weights : dict) (df : DataFrame) : list (string * Q) :=
  filter (fun cw => has_column df (score_column (fst cw)) && negb (Qle_bool (snd cw) 0))
         weights.

Definition value_or_0 (c : cell) : Q :=
  match c with Some v => v | None => 0 end.

(** The weighted mean of the category scores of a row over the categories
    [active]; 0 when there is none. *)
Definition weighted_mean (active : list (string * Q)) (r : Row) : Q :=
  match active with
  | [] => 0
  | _ :: _ =>
      Qsum (map (fun cw => snd cw * value_or_0 (r (score_column (fst cw)))) active)
      / Qsum (map snd active)
  end.

(** ** The composite score as the specification words it

    "Divided by the sum of the weights of only those categories actually
    present for that animal": a category is present for an animal when
    the animal has a value in the category's score column or in one of
    its trait columns. *)
Definition category_traits (category : string) : list string :=
  if String.eqb category "growth" then growth_traits
  else if String.eqb category "wool" then wool_traits
  else if String.eqb category "reproduction" then repro_traits
  else if String.eqb category "health" then health_traits
  else if String.eqb category "temperament" then ["temperament"]
  else [].

Definition present_for (df : DataFrame) (r : Row) (category : string) : bool :=
  existsb (fun t => has_column df t && match r t with Some _ => true | None => false end)
          (score_column category :: category_traits category).

Definition renormalized_mean (weights : dict) (df : DataFrame) (r_in r_scored : Row) : Q :=
  let present := filter (fun cw => present_for df r_in (fst cw)) weights in
  Qsum (map (fun cw => snd cw * value_or_0 (r_scored (score_column (fst cw)))) present)
  / Qsum (map snd present).

Definition composite_renormalized_per_animal (config : AnalysisConfig) (df : DataFrame) : Prop :=
  forall scored i r_in r,
    calculate_scores config df = inr scored ->
    nth_error (rows df) i = Some r_in ->
    nth_error (rows scored) i = Some r ->
    exists q, r "composite_score" = Some q
              /\ q == renormalized_mean (weights config) df r_in r.

(** ** The weights sum to 1.0 within 0.001, on doubles. *)
Definition sums_to_one (w : PyDict.dict Float64.float) : bool :=
  PrimFloat.leb (PrimFloat.abs (PrimFloat.sub (Float64.sum (PyDict.values w)) (Float64.of_Z 1)))
                (Float64.of_Q (1#1000)).

(** The identical values of a cohort, as the specification words the
    z-score: every animal of the cohort gets 0. *)
Definition identical_values_give_zero (np_sum : list Float64.float -> Float64.float)
    (values : Series) : Prop :=
  forall x : Q,
    (2 <= List.length (dropna values))%nat ->
    Forall (fun v => v = x) (dropna values) ->
    Standardizer._standardize_trait np_sum "zscore" values = inr (map (fun _ => Some 0) values).

(** ** Explanations *)

Definition is_NA (score : scalar) : bool :=
  match score with NA => true | _ => false end.

(** Some component score of the row is [pd.NA]. *)
Definition some_score_na (row : RowSeries) : bool :=
  existsb (fun item : string * scalar => is_NA (snd item)) (component_scores row).

(** The tests of the loop as decisions on a score. *)
Definition above_07 (score : scalar) : bool := na_false (scalar_gt score (7#10)).
Definition below_03 (score : scalar) : bool := na_false (scalar_lt score (3#10)).

(** The test of a recommendation. *)
Definition advised (row : RowSeries) (col : string) : bool :=
  row_has row col && below_03 (cells row col).

(** ** The strength note as the specification words it: an explanation
    is made for the animal, and a category is strong from 0.7 on. *)
Definition strength_from_07 (row : RowSeries) : Prop :=
  exists e,
    _generate_explanation row = inr e
    /\ forall category,
         In category categories ->
         (In (strong_note category) (strengths e)
          <-> exists s, row_get row (score_column category) 0 = Num s /\ 7#10 <= s).

(** ** The hard filters as the specification tabulates them: whether the
    filter is switched on, the column it reads, the condition to survive
    as a mask on the rows. *)
Definition hard_filters (config : AnalysisConfig) (dtypes : Dtypes)
    : list (bool * string * (Row -> mask_cell)) :=
  [(true, "wt_birth", col_ge dtypes "wt_birth" (min_birth_weight config));
   (true, "footrot_score", col_le dtypes "footrot_score" (inject_Z (max_footrot_score config)));
   (true, "dag_score", col_le dtypes "dag_score" (inject_Z (max_dag_score config)));
   (true, "wt_wean", col_ge dtypes "wt_wean" (min_weaning_weight config));
   (true, "micron", col_le dtypes "micron" (max_micron config));
   (bse_pass_required config, "bse_pass", col_eqb dtypes "bse_pass" 1)].

(** Some animal of the frame fails the condition [cond]: it has a
    recorded value that does not meet it, or a [NaN]. *)
Definition some_fails (df : DataFrame) (cond : Row -> mask_cell) : bool :=
  existsb (fun r => is_false (cond r)) (rows df).

(** The verdict of one condition on an animal of the frame: whether the
    animal meets it; for an animal whose value is [pd.NA], whether no
    animal of the frame fails it. *)
Definition meets (df : DataFrame) (cond : Row -> mask_cell) (r : Row) : bool :=
  match cond r with
  | Some b => b
  | None => negb (some_fails df cond)
  end.

(** An animal survives when it meets the condition of every filter that
    is switched on and whose column is in the frame. *)
Definition survives (config : AnalysisConfig) (dtypes : Dtypes) (df : DataFrame) (r : Row)
    : bool :=
  forallb (fun f : bool * string * (Row -> mask_cell) =>
             let '(enabled, col, cond) := f in
             negb (enabled && has_column df col) || meets df cond r)
          (hard_filters config dtypes).

(** The specification's reading: a filter also passes for an animal
    whose own value is missing. *)
Definition passes_evaluable (config : AnalysisConfig) (dtypes : Dtypes) (df : DataFrame)
    (r : Row) : bool :=
  forallb (fun f : bool * string * (Row -> mask_cell) =>
             let '(enabled, col, cond) := f in
             negb (enabled && has_column df col)
             || match r col with None => true | Some _ => na_false (cond r) end)
          (hard_filters config dtypes).

Definition missing_value_never_eliminates (config : AnalysisConfig) (dtypes : Dtypes)
    (df : DataFrame) : Prop :=
  forall i r,
    nth_error (rows df) i = Some r ->
    passes_evaluable config dtypes df r = true ->
    exists j, nth_error (rows (fst (apply_hard_filters config dtypes df))) j = Some r.

(** ** The four cull criteria on a row of the frame [df] *)
Definition flagged (df : DataFrame) (r : Row) : Prop :=
  has_column df "cull_flag" = true
  /\ exists v, r "cull_flag" = Some v /\ v == 1.

(** Below the 10th percentile of the column [col] of the frame. *)
Definition below_decile (col : string) (df : DataFrame) (r : Row) : Prop :=
  has_column df col = true
  /\ exists v t, r col = Some v /\ quantile (column df col) (1#10) = Some t /\ v < t.

Definition poor_reproduction (df : DataFrame) (r : Row) : Prop :=
  has_column df "weaning_rate" = true
  /\ exists v, r "weaning_rate" = Some v /\ v < 5#10.

(** The text [reason] occurs in the reasons of an animal. *)
Definition reason_in (reason reasons : string) : Prop :=
  exists pre post, reasons = (pre ++ reason ++ post)%string.

(** A decision procedure for it. *)
Fixpoint contains (reason reasons : string) : bool :=
  String.prefix reason reasons
  || match reasons with
     | EmptyString => false
     | String _ rest => contains reason rest
     end.

(** ** The number of values of a cohort that are at most [v]. *)
Definition count_at_most (v : Q) (valid_values : list Q) : nat :=
  List.length (filter (fun x => Qle_bool x v) valid_values).

(** ** Grouping as the specification words it: an animal without a
    birth date or without a management group gets no cohort. *)
Definition missing_data_excluded (window_days : Z) (has_birth_date : bool)
    (df : list Grouping.Animal) : Prop :=
  forall g,
    In g (Grouping.create_contemporary_groups window_days has_birth_date df) ->
    Grouping.mgmt_group (Grouping.record g) = None
    \/ Grouping.birth_date (Grouping.record g) = None ->
    Grouping.contemporary_group g = None.

(** The frame under construction keeps the input records, and an animal
    without a management group has no cohort. *)
Definition grouping_invariant (df : list Grouping.Animal) (out : list Grouping.Grouped) : Prop :=
  map Grouping.record out = df
  /\ forall g, In g out -> Grouping.mgmt_group (Grouping.record g) = None -> Grouping.contemporary_group g = None.

End Spec.

(* ===================================================================== *)
(** * Further notions used to state properties *)
(* ===================================================================== *)

Module SpecMore.
Import Pandas Models Filters Spec.

(** The sum of the values of a dictionary of counts. *)
Definition sum_counts (d : PyDict.dict nat) : nat :=
  fold_right Nat.add 0%nat (PyDict.values d).

(** The number of rows that [p] accepts. *)
Definition count_if (p : Row -> bool) (rs : list Row) : nat :=
  List.length (filter p rs).

Definition is_na (m : mask_cell) : bool :=
  match m with None => true | Some _ => false end.

(** An animal is removed by a filter without failing it: the filter is
    switched on, its column is in the frame, some animal fails it, and
    this animal's value is [pd.NA]. *)
Definition removed_as_na (df : DataFrame) (f : bool * string * (Row -> mask_cell)) (r : Row)
    : bool :=
  let '(enabled, col, cond) := f in
  enabled && has_column df col && some_fails df cond && is_na (cond r).

(** The number of animals that some filter removes in that way. *)
Definition na_removals (config : AnalysisConfig) (dtypes : Dtypes) (df : DataFrame) : nat :=
  count_if (fun r => existsb (fun f => removed_as_na df f r) (Spec.hard_filters config dtypes))
           (rows df).

(** The state of [apply_hard_filters] after the blocks named [done_]:
    the frame holds the rows of the input that [kept] accepts, every
    filter recorded as applied has its positive count, and the counts
    cover the rows dropped so far, those of [nas] apart. *)
Definition accounting (df : DataFrame) (done_ : list string) (kept nas : Row -> bool)
    (st : DataFrame * FilterResults) : Prop :=
  rows (fst st) = filter kept (rows df)
  /\ original_count (snd st) = len df
  /\ (count_if (fun r => negb (kept r) && negb (nas r)) (rows df)
      <= sum_counts (animals_removed (snd st)))%nat
  /\ PyDict.keys (animals_removed (snd st)) = filters_applied (snd st)
  /\ (forall k, In k (PyDict.keys (animals_removed (snd st))) -> In k done_)
  /\ Forall (fun kv : string * nat => (0 < snd kv)%nat) (animals_removed (snd st)).

(** The soft filters: the column read, the flag column written, the name
    under which flagged animals are counted, the threshold. *)
Definition soft_filters : list (string * string * string * Q) :=
  [("wt_200d", "soft_filter_200d", "min_200d_weight", 40);
   ("wt_300d", "soft_filter_300d", "min_300d_weight", 50);
   ("weaning_rate", "soft_filter_weaning", "min_weaning_rate", 5#10)].

Definition soft_flag_columns : list string :=
  ["soft_filter_200d"; "soft_filter_300d"; "soft_filter_weaning"].

(** The number of rows whose value in [col] is below [threshold]. *)
Definition count_below (df : DataFrame) (col : string) (threshold : Q) : nat :=
  List.length (filter (fun r : Row => cell_lt (r col) threshold) (rows df)).

(** The window index that the loop of [_group_by_birth_window] gives to
    each row of a list it walks through, from the counter [k] and the
    window start [start] ([None] before the first row). *)
Fixpoint assign_windows (window_days : Z) (rows : list Grouping.Animal) (k : nat)
    (start : option (option Z)) : list (Grouping.Animal * nat) :=
  match rows with
  | [] => []
  | row :: rest =>
      match start with
      | None =>
          (row, k) :: assign_windows window_days rest k (Some (Grouping.birth_date row))
      | Some s =>
          if Grouping.within_window window_days (Grouping.birth_date row) s
          then (row, k) :: assign_windows window_days rest k start
          else (row, S k)
               :: assign_windows window_days rest (S k) (Some (Grouping.birth_date row))
      end
  end.

(** The rows of a management group in the order of the loop, each with
    its window index. *)
Definition windows_of (window_days : Z) (df : list Grouping.Animal) (mgmt : string)
    : list (Grouping.Animal * nat) :=
  assign_windows window_days
    (Grouping.sort_values
       (filter (fun a => Grouping.opt_string_eqb (Grouping.mgmt_group a) (Some mgmt)) df))
    1 None.

(** Ascending birth dates, [NaT] last. *)
Definition by_date (a b : Grouping.Animal) : Prop :=
  Grouping.date_leb (Grouping.birth_date a) (Grouping.birth_date b) = true.

(** Two rows given the same window index were born within the window
    length of each other, the second not before the first. *)
Definition same_window_close (window_days : Z) (e1 e2 : Grouping.Animal * nat) : Prop :=
  snd e1 = snd e2 ->
  exists b1 b2,
    Grouping.birth_date (fst e1) = Some b1
    /\ Grouping.birth_date (fst e2) = Some b2
    /\ (0 <= b2 - b1 <= window_days)%Z.

(** The hard filters as conditions on a value: whether the filter is
    switched on, the column it reads, what a surviving value satisfies. *)
Definition hard_thresholds (config : AnalysisConfig) : list (bool * string * (cell -> bool)) :=
  [(true, "wt_birth", fun c => cell_ge c (min_birth_weight config));
   (true, "footrot_score", fun c => cell_le c (inject_Z (max_footrot_score config)));
   (true, "dag_score", fun c => cell_le c (inject_Z (max_dag_score config)));
   (true, "wt_wean", fun c => cell_ge c (min_weaning_weight config));
   (true, "micron", fun c => cell_le c (max_micron config));
   (bse_pass_required config, "bse_pass", fun c => cell_eqb c 1)].

(** The criteria of the breeding soundness examination: the column read
    and the mask of the passing values. *)
Definition bse_masks (dtypes : Dtypes) : list (string * (Row -> mask_cell)) :=
  [("wt_300d", col_ge dtypes "wt_300d" 50);
   ("footrot_score", col_le dtypes "footrot_score" 2);
   ("dag_score", col_le dtypes "dag_score" 2);
   ("temperament", col_ge dtypes "temperament" 3)].

(** An animal fails no criterion whose column is in the frame: its value
    meets the criterion or is [pd.NA]; a [NaN] fails. *)
Definition passes_bse (dtypes : Dtypes) (df : DataFrame) (r : Row) : bool :=
  forallb (fun f : string * (Row -> mask_cell) =>
             negb (has_column df (fst f)) || na_true (snd f r))
          (bse_masks dtypes).

(** An animal passes the five hard filters on measurements, as
    [Spec.survives] decides them on the frame [df]. *)
Definition passes_measurements (config : AnalysisConfig) (dtypes : Dtypes) (df : DataFrame)
    (r : Row) : bool :=
  forallb (fun f : bool * string * (Row -> mask_cell) =>
             let '(enabled, col, cond) := f in
             negb (enabled && has_column df col) || Spec.meets df cond r)
          (removelast (Spec.hard_filters config dtypes)).

(** An animal had lambs and weaned fewer than half of them. *)
Definition weaned_under_half (r : Row) : Prop :=
  exists born weaned,
    r "lambs_born" = Some born /\ r "lambs_weaned" = Some weaned
    /\ 0 < born /\ 2 * weaned < born.

(** The composite score that [_calculate_composite_score] gives a row,
    from the weights and the dictionary of category score columns. *)
Definition composite_cell (weights : dict) (category_scores : PyDict.dict string) (r : Row)
    : cell :=
  match category_scores with
  | [] => Some 0
  | _ :: _ =>
      let '(weighted_scores, total_weight) :=
        Ranker.accumulate_weighted weights category_scores in
      match weighted_scores with
      | _ :: _ =>
          if negb (Qle_bool total_weight 0)
          then Some (sum_skipna (map (fun f => f r) weighted_scores) / total_weight)
          else Some 0
      | [] => Some 0
      end
  end.

(** [set_group] on one row. *)
Definition relabel (g : Grouping.Grouped) (item : string * string) : Grouping.Grouped :=
  if String.eqb (Grouping.animal_id (Grouping.record g)) (fst item)
  then Grouping.mkGrouped (Grouping.record g) (Some (snd item))
  else g.

(** The dictionary entry of a row with its window index. *)
Definition window_item (e : Grouping.Animal * nat) : string * string :=
  (Grouping.animal_id (fst e), Grouping.group_name (Grouping.mgmt_str (fst e)) (snd e)).

(** The dictionary of a management-group value of the frame. *)
Definition group_dict (window_days : Z) (df : list Grouping.Animal) (mgmt : option string)
    : PyDict.dict string :=
  Grouping._group_by_birth_window window_days true
    (filter (fun a => Grouping.opt_string_eqb (Grouping.mgmt_group a) mgmt) df).

(** [a1] comes strictly before [a2] in [sort_values('birth_date')]: born
    earlier, or [a2] has no birth date while [a1] has one. *)
Definition born_before (a1 a2 : Grouping.Animal) : Prop :=
  match Grouping.birth_date a1, Grouping.birth_date a2 with
  | Some x, Some y => (x < y)%Z
  | Some _, None => True
  | None, _ => False
  end.

(** The animals of a management group. *)
Definition mob (df : list Grouping.Animal) (m : string) : list Grouping.Animal :=
  filter (fun a => Grouping.opt_string_eqb (Grouping.mgmt_group a) (Some m)) df.

(** A string of decimal digits. *)
Definition digits (s : string) : Prop :=
  exists d, NilEmpty.uint_of_string s = Some d.

End SpecMore.

(* ===================================================================== *)
(** * Comparisons on rationals and cells *)
(* ===================================================================== *)

Lemma Qle_bool_false (x y : Q) : Qle_bool x y = false <-> y < x.
Proof.
  split; intro H.
  - apply Qnot_le_lt. intro Hle. apply Qle_bool_iff in Hle. congruence.
  - destruct (Qle_bool x y) eqn:E; [|reflexivity].
    apply Qle_bool_iff in E. exfalso. apply (Qlt_not_le _ _ H E).
Qed.

Lemma Qgt_bool_true (x y : Q) : negb (Qle_bool x y) = true <-> y < x.
Proof. rewrite negb_true_iff. apply Qle_bool_false. Qed.

Lemma Qeq_bool_false (x y : Q) : Qeq_bool x y = false <-> ~ x == y.
Proof.
  split; intro H.
  - intro E. apply Qeq_bool_iff in E. congruence.
  - destruct (Qeq_bool x y) eqn:E; [|reflexivity].
    apply Qeq_bool_iff in E. contradiction.
Qed.

(* ===================================================================== *)
(** * Configuration (core/models.py) *)
(* ===================================================================== *)

Section Config.
Import Models.

(** What the validator lets through is what it was given, and the test
    of the source is false on it. *)
Lemma validate_weights_sum_ok (v v' : PyDict.dict Float64.float) :
  validate_weights_sum v = inr v' ->
  v' = v
  /\ PrimFloat.ltb (Float64.of_Q (1#1000))
                   (PrimFloat.abs (PrimFloat.sub (Float64.sum (PyDict.values v))
                                                 (Float64.of_Z 1))) = false.
Proof.
  unfold validate_weights_sum.
  destruct (PrimFloat.ltb _ _) eqn:E; [discriminate|].
  intro H. injection H as <-. split; reflexivity.
Qed.

Example default_config_constructed :
  AnalysisConfig_init no_args = inr Examples.constructed_default
  /\ Spec.sums_to_one (weights Examples.constructed_default) = true.
Proof. split; reflexivity. Qed.

(** The test of [tests/test_models.py]: weights summing to 0.8 are refused,
    and the three-category configuration of [test_custom_config] is kept. *)
Example weights_of_the_tests :
  AnalysisConfig_init Examples.args_sum_08 = inl (ValueError "Weights must sum to 1.0")
  /\ exists cfg,
       AnalysisConfig_init Examples.args_custom = inr cfg
       /\ Spec.sums_to_one (weights cfg) = true
       /\ weights cfg
          = Float64.of_dict [("growth", 5#10); ("wool", 3#10); ("reproduction", 2#10)].
Proof. split; [reflexivity|]. eexists. repeat split; reflexivity. Qed.

(** At the edge of the tolerance the doubles decide: the double [0.999]
    is more than [0.001] below 1 and is refused. *)
Example weights_sum_0999_refused :
  AnalysisConfig_init Examples.args_sum_0999 = inl (ValueError "Weights must sum to 1.0").
Proof. reflexivity. Qed.

(** Weights that are refused or kept: a sum for which the test
    [abs(sum - 1.0) > 0.001] is true is refused with the validation
    error, and a configuration that is constructed carries the weights it
    was given, unchanged. *)
Lemma analysis_config_weights_checked (a : ConfigArgs) :
  (forall w, arg_weights a = Some w ->
             PrimFloat.ltb (Float64.of_Q (1#1000))
                           (PrimFloat.abs (PrimFloat.sub (Float64.sum (PyDict.values w))
                                                         (Float64.of_Z 1))) = true ->
             AnalysisConfig_init a = inl (ValueError "Weights must sum to 1.0"))
  /\
  (forall cfg w, AnalysisConfig_init a = inr cfg -> arg_weights a = Some w -> weights cfg = w).
Proof.
  split.
  - intros w Hw Hfar. unfold AnalysisConfig_init. rewrite Hw.
    unfold validate_weights_sum. rewrite Hfar. reflexivity.
  - intros cfg w. unfold AnalysisConfig_init. intros H Hw. rewrite Hw in H.
    destruct (validate_weights_sum w) as [e|v'] eqn:Hval; [discriminate|].
    apply validate_weights_sum_ok in Hval. destruct Hval as [-> _].
    injection H as <-. reflexivity.
Qed.

(** C5 (the code departs from it): a weight that is [NaN] passes the
    validator, because [abs(nan - 1.0) > 0.001] is false; the
    configuration is constructed with the weights as given, and they do
    not sum to 1.0 within 0.001. *)
Theorem analysis_config_nan_weights_constructed :
  exists cfg,
    AnalysisConfig_init Examples.args_nan = inr cfg
    /\ weights cfg = [("growth", PrimFloat.nan); ("wool", Float64.of_Q (5#10))]
    /\ Spec.sums_to_one (weights cfg) = false.
Proof. eexists. repeat split; reflexivity. Qed.

End Config.

(* ===================================================================== *)
(** * Frames: columns after an assignment *)
(* ===================================================================== *)

Section Frames.
Import Pandas.

Lemma has_column_add (cols : list string) (name c : string) :
  existsb (String.eqb c) (add_column cols name)
  = existsb (String.eqb c) cols || String.eqb c name.
Proof.
  unfold add_column. destruct (existsb (String.eqb name) cols) eqn:E.
  - destruct (String.eqb c name) eqn:Ec.
    + apply String.eqb_eq in Ec. subst c. rewrite E. reflexivity.
    + now rewrite orb_false_r.
  - rewrite existsb_app. simpl. now rewrite orb_false_r.
Qed.

Lemma has_column_assign (df : DataFrame) (name : string) (s : Series) (c : string) :
  has_column (assign df name s) c = has_column df c || String.eqb c name.
Proof. apply has_column_add. Qed.

Lemma has_column_assign_rowwise (df : DataFrame) (name : string) (f : Row -> cell) (c : string) :
  has_column (assign_rowwise df name f) c = has_column df c || String.eqb c name.
Proof. apply has_column_add. Qed.

Lemma map_combine_fst {A B C} (f : A -> C) (l : list A) (s : list B) :
  List.length s = List.length l ->
  map (fun rv => f (fst rv)) (combine l s) = map f l.
Proof.
  revert s. induction l as [|a l IH]; intros [|b s] H; simpl in *; try discriminate; auto.
  f_equal. apply IH. lia.
Qed.

Lemma map_combine_snd {A B} (l : list A) (s : list B) :
  List.length s = List.length l ->
  map snd (combine l s) = s.
Proof.
  revert s. induction l as [|a l IH]; intros [|b s] H; simpl in *; try discriminate; auto.
  f_equal. apply IH. lia.
Qed.

Lemma len_assign (df : DataFrame) (name : string) (s : Series) :
  List.length s = len df -> len (assign df name s) = len df.
Proof.
  intro H. unfold len, assign. simpl. rewrite length_map, length_combine.
  unfold len in H. lia.
Qed.

Lemma len_assign_rowwise (df : DataFrame) (name : string) (f : Row -> cell) :
  len (assign_rowwise df name f) = len df.
Proof. unfold len, assign_rowwise. simpl. apply length_map. Qed.

(** The columns of [df] after [df[name] = s]. *)
Lemma column_assign (df : DataFrame) (name : string) (s : Series) (c : string) :
  List.length s = len df ->
  column (assign df name s) c = if String.eqb c name then s else column df c.
Proof.
  intro H. unfold column, assign, set_cell. simpl. rewrite map_map.
  destruct (String.eqb c name).
  - now apply map_combine_snd.
  - now apply (map_combine_fst (fun r : Row => r c)).
Qed.

Lemma column_assign_rowwise (df : DataFrame) (name : string) (f : Row -> cell) (c : string) :
  column (assign_rowwise df name f) c
  = if String.eqb c name then map f (rows df) else column df c.
Proof.
  unfold column, assign_rowwise, set_cell. simpl. rewrite map_map.
  destruct (String.eqb c name); reflexivity.
Qed.

Lemma length_column (df : DataFrame) (c : string) : List.length (column df c) = len df.
Proof. apply length_map. Qed.

(** A cell read through the row or through the column. *)
Lemma nth_error_column (df : DataFrame) (c : string) (i : nat) (r : Row) :
  nth_error (rows df) i = Some r -> nth_error (column df c) i = Some (r c).
Proof.
  intro H. unfold column.
  exact (map_nth_error (fun r0 : Row => r0 c) i (rows df) H).
Qed.

End Frames.

(* ===================================================================== *)
(** * Explanations (scoring/ranker.py) *)
(* ===================================================================== *)

Section Explanation.
Import Pandas Ranker Spec.

Lemma cell_gt_spec (c : cell) (x : Q) :
  cell_gt c x = true <-> exists s, c = Some s /\ x < s.
Proof.
  destruct c as [v|]; simpl.
  - rewrite Qgt_bool_true. split.
    + intro H. exists v. auto.
    + intros [s [E H]]. injection E as ->. exact H.
  - split; [discriminate|]. intros [s [E _]]. discriminate.
Qed.

Lemma cell_lt_spec (c : cell) (x : Q) :
  cell_lt c x = true <-> exists s, c = Some s /\ s < x.
Proof.
  destruct c as [v|]; simpl.
  - rewrite Qgt_bool_true. split.
    + intro H. exists v. auto.
    + intros [s [E H]]. injection E as ->. exact H.
  - split; [discriminate|]. intros [s [E _]]. discriminate.
Qed.

Lemma above_07_spec (score : scalar) :
  above_07 score = true <-> exists s, score = Num s /\ 7#10 < s.
Proof.
  destruct score as [v| |]; unfold above_07; simpl.
  - rewrite Qgt_bool_true. split.
    + intro H. exists v. auto.
    + intros [s [E H]]. injection E as ->. exact H.
  - split; [discriminate|]. intros [s [E _]]. discriminate.
  - split; [discriminate|]. intros [s [E _]]. discriminate.
Qed.

Lemma below_03_spec (score : scalar) :
  below_03 score = true <-> exists s, score = Num s /\ s < 3#10.
Proof.
  destruct score as [v| |]; unfold below_03; simpl.
  - rewrite Qgt_bool_true. split.
    + intro H. exists v. auto.
    + intros [s [E H]]. injection E as ->. exact H.
  - split; [discriminate|]. intros [s [E _]]. discriminate.
  - split; [discriminate|]. intros [s [E _]]. discriminate.
Qed.

Lemma above_below_excl (score : scalar) :
  above_07 score = true -> below_03 score = false.
Proof.
  destruct score as [v| |]; unfold above_07, below_03; simpl; try reflexivity.
  rewrite Qgt_bool_true, negb_false_iff, Qle_bool_iff. intro H.
  apply Qlt_le_weak. eapply Qlt_trans; [|exact H]. reflexivity.
Qed.

(** The loop raises when an item holds [pd.NA], and otherwise appends
    the notes of the items above 0.7 and below 0.3. *)
Lemma note_loop_cases (items : list (string * scalar)) (e : Explanation) :
  note_loop items e
  = if existsb (fun item : string * scalar => is_NA (snd item)) items
    then inl (TypeError "boolean value of NA is ambiguous")
    else inr (mkExplanation
                (strengths e
                 ++ map strong_note (map fst (filter (fun i => above_07 (snd i)) items)))
                (weaknesses e
                 ++ map poor_note (map fst (filter (fun i => below_03 (snd i)) items)))
                (recommendations e)).
Proof.
  revert e. induction items as [|[category score] items IH]; intro e.
  - simpl. rewrite !app_nil_r. now destruct e.
  - cbn [note_loop existsb snd filter]. unfold note_step.
    destruct score as [v| |]; cbn [scalar_gt scalar_lt truth is_NA orb].
    + unfold above_07, below_03. cbn [scalar_gt scalar_lt na_false].
      destruct (negb (Qle_bool v (7#10))) eqn:G.
      * assert (L : negb (Qle_bool (3#10) v) = false)
          by (apply (above_below_excl (Num v)); exact G).
        rewrite L, IH. destruct (existsb _ items); [reflexivity|].
        cbn [strengths weaknesses recommendations map fst]. now rewrite <- app_assoc.
      * destruct (negb (Qle_bool (3#10) v)) eqn:L; rewrite IH;
          (destruct (existsb _ items); [reflexivity|]);
          cbn [strengths weaknesses recommendations map fst]; now rewrite <- ?app_assoc.
    + rewrite IH. reflexivity.
    + reflexivity.
Qed.

(** A recommendation on a score that is not [pd.NA]. *)
Lemma recommend_cases (row : RowSeries) (col msg : string) (e : Explanation) :
  is_NA (row_get row col 0) = false ->
  recommend row col msg e
  = inr (if advised row col
         then mkExplanation (strengths e) (weaknesses e) (recommendations e ++ [msg])
         else e).
Proof.
  unfold recommend, row_get, advised, below_03. destruct (row_has row col); [|reflexivity].
  destruct (cells row col) as [v| |]; cbn [is_NA scalar_lt truth na_false andb];
    [| reflexivity | discriminate].
  intros _. now destruct (negb (Qle_bool (3#10) v)).
Qed.

(** [_generate_explanation] raises exactly when a component score is
    [pd.NA]; what it returns otherwise. *)
Lemma generate_explanation_cases (row : RowSeries) :
  _generate_explanation row
  = if some_score_na row
    then inl (TypeError "boolean value of NA is ambiguous")
    else inr (mkExplanation
                (map strong_note
                     (map fst (filter (fun i => above_07 (snd i)) (component_scores row))))
                (map poor_note
                     (map fst (filter (fun i => below_03 (snd i)) (component_scores row))))
                ((if advised row "growth_score"
                  then ["Focus on improving growth performance"] else [])
                 ++ (if advised row "health_score" then ["Address health issues"] else [])
                 ++ (if advised row "reproduction_score"
                     then ["Improve reproductive performance"] else []))).
Proof.
  unfold _generate_explanation, PyDict.items. rewrite note_loop_cases.
  fold (some_score_na row). destruct (some_score_na row) eqn:E; [reflexivity|].
  unfold some_score_na, component_scores in E. cbn [existsb snd] in E.
  repeat (apply orb_false_iff in E; destruct E as [? E]).
  cbn [and_then strengths weaknesses recommendations app].
  rewrite recommend_cases by assumption. cbn [and_then].
  rewrite recommend_cases by assumption. cbn [and_then].
  rewrite recommend_cases by assumption.
  destruct (advised row "growth_score"), (advised row "health_score"),
           (advised row "reproduction_score"); reflexivity.
Qed.

Lemma length_append (s t : string) :
  String.length (s ++ t)%string = (String.length s + String.length t)%nat.
Proof. induction s as [|a s IH]; simpl; [reflexivity | now rewrite IH]. Qed.

Lemma append_cancel_r (t s1 s2 : string) :
  (s1 ++ t)%string = (s2 ++ t)%string -> s1 = s2.
Proof.
  revert s2. induction s1 as [|a s1 IH]; intros [|b s2] H; simpl in H.
  - reflexivity.
  - apply (f_equal String.length) in H. simpl in H.
    rewrite length_append in H. lia.
  - apply (f_equal String.length) in H. simpl in H.
    rewrite length_append in H. lia.
  - injection H as -> H. f_equal. now apply IH.
Qed.

Lemma strong_note_inj (c1 c2 : string) : strong_note c1 = strong_note c2 -> c1 = c2.
Proof.
  unfold strong_note. simpl. intro H. injection H as H.
  now apply append_cancel_r in H.
Qed.

Lemma poor_note_inj (c1 c2 : string) : poor_note c1 = poor_note c2 -> c1 = c2.
Proof.
  unfold poor_note. simpl. intro H. injection H as H.
  now apply append_cancel_r in H.
Qed.

(** Membership of a note in the notes of the selected items of a
    dictionary without repeated keys. *)
Lemma In_note_filter (note : string -> string) (p : scalar -> bool)
    (items : list (string * scalar)) (category : string) (score : scalar) :
  (forall c1 c2, note c1 = note c2 -> c1 = c2) ->
  NoDup (map fst items) ->
  In (category, score) items ->
  (In (note category) (map note (map fst (filter (fun i => p (snd i)) items)))
   <-> p score = true).
Proof.
  intros Hinj Hnd Hin. rewrite map_map. rewrite in_map_iff. split.
  - intros [[c sc] [Heq Hf]]. apply filter_In in Hf. destruct Hf as [Hin' Hp].
    simpl in *. apply Hinj in Heq. subst c.
    assert (sc = score) as ->; [|exact Hp].
    clear - Hnd Hin Hin'. induction items as [|[k v] items IH]; [contradiction|].
    simpl in Hnd. inversion Hnd as [|? ? Hk Hnd']; subst.
    destruct Hin as [E|Hin], Hin' as [E'|Hin'].
    + congruence.
    + injection E as -> ->. exfalso. apply Hk.
      change category with (fst (category, sc)). now apply in_map.
    + injection E' as -> ->. exfalso. apply Hk.
      change category with (fst (category, score)). now apply in_map.
    + now apply IH.
  - intro Hp. exists (category, score). split; [reflexivity|].
    apply filter_In. auto.
Qed.

Lemma component_scores_keys (row : RowSeries) :
  NoDup (map fst (component_scores row)).
Proof. simpl. repeat constructor; simpl; intuition discriminate. Qed.

(** The notes of an explanation that is returned. *)
Lemma explanation_notes (row : RowSeries) (e : Explanation) :
  _generate_explanation row = inr e ->
  (forall category score,
     In (category, score) (component_scores row) ->
     score <> NA
     /\ (In (strong_note category) (strengths e) <-> above_07 score = true)
     /\ (In (poor_note category) (weaknesses e) <-> below_03 score = true))
  /\ (forall col msg,
        In (col, msg) [("growth_score", "Focus on improving growth performance");
                       ("health_score", "Address health issues");
                       ("reproduction_score", "Improve reproductive performance")] ->
        (In msg (recommendations e) <-> advised row col = true)).
Proof.
  rewrite generate_explanation_cases. destruct (some_score_na row) eqn:E; [discriminate|].
  intro H.
  apply (f_equal (fun x : ExplanationError + Explanation =>
                    match x with inr e' => e' | inl _ => e end)) in H.
  cbn beta iota in H. subst e. cbn [strengths weaknesses recommendations]. split.
  - intros category score Hin. split; [|split].
    + intros ->. unfold some_score_na in E.
      assert (existsb (fun item : string * scalar => is_NA (snd item)) (component_scores row)
              = true); [|congruence].
      apply existsb_exists. exists (category, NA). split; [exact Hin | reflexivity].
    + apply (In_note_filter strong_note above_07); auto using component_scores_keys.
      exact strong_note_inj.
    + apply (In_note_filter poor_note below_03); auto using component_scores_keys.
      exact poor_note_inj.
  - intros col msg Hin. cbn [In] in Hin.
    destruct Hin as [Hin|[Hin|[Hin|[]]]]; injection Hin as <- <-;
      destruct (advised row "growth_score"), (advised row "health_score"),
               (advised row "reproduction_score"); simpl;
      split; intro H; try reflexivity; try discriminate; auto;
      repeat (destruct H as [H|H]; try discriminate H); try contradiction.
Qed.

(** C9 (amended): [_generate_explanation] raises a [TypeError] exactly
    for a row in which one of the five category scores, read as
    [row.get(category_score, 0)], is [pd.NA].  For every other row and
    each of the five categories, the note "Strong <category> performance"
    is among the strengths exactly when the score is strictly above 0.7,
    and "Poor <category> performance" is among the weaknesses exactly
    when the score is below 0.3; each of the three recommendations is
    emitted exactly when its score column (growth, health, reproduction)
    is in the row and its value is below 0.3. *)
Theorem explanation_thresholds (row : RowSeries) :
  match _generate_explanation row with
  | inl err =>
      err = TypeError "boolean value of NA is ambiguous"
      /\ exists category,
           In category categories /\ row_get row (score_column category) 0 = NA
  | inr e =>
      Forall (fun category =>
                let score := row_get row (score_column category) 0 in
                score <> NA
                /\ (In (strong_note category) (strengths e)
                    <-> exists s, score = Num s /\ 7#10 < s)
                /\ (In (poor_note category) (weaknesses e)
                    <-> exists s, score = Num s /\ s < 3#10))
             categories
      /\ Forall (fun cm : string * string =>
                   In (snd cm) (recommendations e)
                   <-> row_has row (fst cm) = true
                       /\ exists s, cells row (fst cm) = Num s /\ s < 3#10)
                [("growth_score", "Focus on improving growth performance");
                 ("health_score", "Address health issues");
                 ("reproduction_score", "Improve reproductive performance")]
  end.
Proof.
  destruct (_generate_explanation row) as [err|e] eqn:G.
  - rewrite generate_explanation_cases in G.
    destruct (some_score_na row) eqn:E; [|discriminate].
    injection G as <-. split; [reflexivity|].
    unfold some_score_na in E. apply existsb_exists in E.
    destruct E as [[category score] [Hin Hna]]. cbn [snd] in Hna.
    destruct score; try discriminate.
    exists category. unfold component_scores in Hin. cbn [In] in Hin. unfold categories.
    repeat (destruct Hin as [Hin|Hin];
            [injection Hin as Hc Hs; subst category; split; [simpl; tauto | exact Hs]|]).
    contradiction.
  - destruct (explanation_notes row e G) as [Hnotes Hrec]. split.
    + unfold categories.
      repeat apply Forall_cons; try apply Forall_nil; cbv zeta;
        rewrite <- above_07_spec, <- below_03_spec; apply Hnotes; simpl; tauto.
    + repeat apply Forall_cons; try apply Forall_nil; cbn [fst snd];
        rewrite <- below_03_spec, <- andb_true_iff; apply Hrec; simpl; tauto.
Qed.

(** A row of a cleaned frame whose temperament was not recorded: the
    comparison of the score with 0.7 is [pd.NA], and its truth value
    raises. *)
Example explanation_raises_on_missing_temperament :
  _generate_explanation Examples.row_temperament_na
  = inl (TypeError "boolean value of NA is ambiguous").
Proof. reflexivity. Qed.

(** C9, as the specification states it, fails on a growth score of
    exactly 0.7: the specification wants a strength note, the code emits
    none. *)
Lemma strength_from_07_fails : ~ Spec.strength_from_07 Examples.row_growth_07.
Proof.
  intros [e [He H]]. destruct (H "growth") as [_ Hnote].
  - unfold categories. simpl. auto.
  - assert (Hin : In (strong_note "growth") (strengths e)).
    { apply Hnote. exists (7#10). split; [reflexivity | apply Qle_refl]. }
    vm_compute in He. injection He as <-. vm_compute in Hin. exact Hin.
Qed.

End Explanation.

(* ===================================================================== *)
(** * Category scores, composite score and rank (scoring/ranker.py) *)
(* ===================================================================== *)

Section RankerFrames.
Import Pandas Models Ranker Spec.

Lemma mean_skipna_no_data (f : string -> cell) (l : list string) :
  (forall t, In t l -> f t = None) -> mean_skipna (map f l) = None.
Proof.
  intro H. unfold mean_skipna.
  assert (E : dropna (map f l) = []).
  { induction l as [|t l IH]; [reflexivity|]. simpl.
    rewrite (H t) by now left. apply IH. intros t' Ht'. apply H. now right. }
  now rewrite E.
Qed.

Lemma no_data_available (df : DataFrame) (traits : list string) (r : Row) :
  no_data df traits r ->
  forall t, In t (filter (has_column df) traits) -> r t = None.
Proof. intros H t Ht. apply filter_In in Ht. now apply H. Qed.

Ltac block_skipped Hlen :=
  split; [|split; [|split]];
  [exact Hlen | intro c; now rewrite orb_false_r | reflexivity | discriminate].

Ltac other_column Hc E :=
  match goal with
  | |- (if String.eqb ?c ?col then _ else _) = _ =>
      destruct Hc as [Hc|Hc]; [congruence | now rewrite Hc]
  end.

(** A block that assigns the series [map value (rows df)]. *)
Lemma assign_block (df result_df : DataFrame) (col : string) (traits : list string)
    (value : Row -> cell) :
  has_column df col = false ->
  len result_df = len df ->
  (forall r, no_data df traits r -> value r = Some 0) ->
  let out := assign result_df col (map value (rows df)) in
  len out = len df
  /\ (forall c, has_column out c = has_column result_df c || (negb false && String.eqb c col))
  /\ (forall c, false = true \/ String.eqb c col = false ->
                column out c = column result_df c)
  /\ (false = false ->
      forall i r, nth_error (rows df) i = Some r -> no_data df traits r ->
                  nth_error (column out col) i = Some (Some 0)).
Proof.
  intros E Hlen Hval out. subst out.
  assert (Hl : List.length (map value (rows df)) = len result_df)
    by (rewrite length_map; now rewrite Hlen).
  split; [|split; [|split]].
  - now rewrite len_assign.
  - intro c. now rewrite has_column_assign.
  - intros c [Hc|Hc]; [discriminate|]. rewrite column_assign by exact Hl. now rewrite Hc.
  - intros _ i r Hi Hno. rewrite column_assign by exact Hl. rewrite String.eqb_refl.
    rewrite (map_nth_error value i (rows df) Hi). f_equal. now apply Hval.
Qed.

Lemma assign_rowwise_eq (result_df df : DataFrame) (col : string) (v : cell) :
  len result_df = len df ->
  assign_rowwise result_df col (fun _ => v) = assign result_df col (map (fun _ => v) (rows df)).
Proof.
  intro Hlen. unfold assign_rowwise, assign. f_equal.
  unfold len in Hlen. revert Hlen. generalize (rows df).
  induction (rows result_df) as [|r rs IH]; intros [|r' rs'] H; simpl in *;
    try discriminate; [reflexivity|].
  f_equal. apply IH. lia.
Qed.

Lemma mean_category_block (df : DataFrame) (col : string) (traits : list string) :
  category_block df col traits (fun result_df => mean_category df result_df col traits).
Proof.
  intros result_df Hlen. unfold mean_category.
  destruct (has_column df col) eqn:E; cbn [negb]; [block_skipped Hlen|].
  destruct (filter (has_column df) traits) as [|t0 ts] eqn:Ea.
  - rewrite (assign_rowwise_eq result_df df) by exact Hlen.
    apply (assign_block df result_df col traits (fun _ => Some 0)); auto.
  - rewrite map_map.
    apply (assign_block df result_df col traits
             (fun r => fillna 0 (mean_skipna (map r (t0 :: ts))))); auto.
    intros r Hno. rewrite mean_skipna_no_data; [reflexivity|].
    rewrite <- Ea. now apply no_data_available.
Qed.

Lemma health_category_block (df : DataFrame) :
  category_block df "health_score" health_traits (health_category df).
Proof.
  intros result_df Hlen. unfold health_category.
  destruct (has_column df "health_score") eqn:E; cbn [negb]; [block_skipped Hlen|].
  destruct (filter (has_column df) health_traits) as [|t0 ts] eqn:Ea.
  - rewrite (assign_rowwise_eq result_df df) by exact Hlen.
    apply (assign_block df result_df "health_score" health_traits (fun _ => Some 0)); auto.
  - rewrite map_map.
    apply (assign_block df result_df "health_score" health_traits
             (fun r => fillna 0 (mean_skipna (map (health_data r) (t0 :: ts))))); auto.
    intros r Hno. rewrite mean_skipna_no_data; [reflexivity|].
    rewrite <- Ea. intros t Ht. unfold health_data.
    rewrite (no_data_available df health_traits r Hno t Ht).
    destruct (String.eqb t "footrot_score"), (String.eqb t "dag_score"); reflexivity.
Qed.

Lemma temperament_category_block (df : DataFrame) :
  category_block df "temperament_score" ["temperament"] (temperament_category df).
Proof.
  intros result_df Hlen. unfold temperament_category.
  destruct (has_column df "temperament_score") eqn:E; cbn [negb]; [block_skipped Hlen|].
  destruct (has_column df "temperament") eqn:Et.
  - unfold column. rewrite map_map.
    apply (assign_block df result_df "temperament_score" ["temperament"]
             (fun r => fillna 0 (r "temperament"))); auto.
    intros r Hno. rewrite (Hno "temperament"); [reflexivity | now left | exact Et].
  - rewrite (assign_rowwise_eq result_df df) by exact Hlen.
    apply (assign_block df result_df "temperament_score" ["temperament"] (fun _ => Some 0));
      auto.
Qed.

(** After [_calculate_category_scores] the five score columns are in the
    frame, every column the input already had is as it was, and in a
    score column that was computed an animal without data for the
    category has the score 0. *)
Lemma category_scores_frame (df : DataFrame) :
  let cat_df := _calculate_category_scores df in
  len cat_df = len df
  /\ Forall (fun c => has_column cat_df c = true) score_columns
  /\ (forall c, has_column df c = true -> column cat_df c = column df c)
  /\ Forall (fun category =>
               has_column df (score_column category) = false ->
               forall i r,
                 nth_error (rows df) i = Some r ->
                 no_data df (category_traits category) r ->
                 nth_error (column cat_df (score_column category)) i = Some (Some 0))
            categories.
Proof.
  unfold _calculate_category_scores.
  destruct (mean_category_block df "growth_score" growth_traits df eq_refl)
    as [L1 [H1 [K1 V1]]].
  set (d1 := mean_category df df "growth_score" growth_traits) in *.
  destruct (mean_category_block df "wool_score" wool_traits d1 L1) as [L2 [H2 [K2 V2]]].
  set (d2 := mean_category df d1 "wool_score" wool_traits) in *.
  destruct (mean_category_block df "reproduction_score" repro_traits d2 L2)
    as [L3 [H3 [K3 V3]]].
  set (d3 := mean_category df d2 "reproduction_score" repro_traits) in *.
  destruct (health_category_block df d3 L3) as [L4 [H4 [K4 V4]]].
  set (d4 := health_category df d3) in *.
  destruct (temperament_category_block df d4 L4) as [L5 [H5 [K5 V5]]].
  set (d5 := temperament_category df d4) in *.
  cbv zeta. split; [exact L5|]. split; [|split].
  - unfold score_columns.
    repeat apply Forall_cons; try apply Forall_nil;
      rewrite H5, ?H4, ?H3, ?H2, ?H1; cbn [String.eqb Ascii.eqb Bool.eqb andb];
      rewrite ?andb_false_r, ?orb_false_r, ?andb_true_r;
      try (destruct (has_column df "growth_score"); reflexivity);
      try (destruct (has_column df "wool_score"); reflexivity);
      try (destruct (has_column df "reproduction_score"); reflexivity);
      try (destruct (has_column df "health_score"); reflexivity);
      try (destruct (has_column df "temperament_score"); reflexivity).
  - assert (Hne : forall c col, has_column df c = true ->
                                has_column df col = true \/ String.eqb c col = false).
    { intros c col Hc. destruct (has_column df col) eqn:E; [now left|]. right.
      destruct (String.eqb c col) eqn:Ec; [|reflexivity].
      apply String.eqb_eq in Ec. congruence. }
    intros c Hc. rewrite K5, K4, K3, K2, K1 by now apply Hne. reflexivity.
  - unfold categories.
    repeat apply Forall_cons; try apply Forall_nil; intros Habs i r Hi Hno;
      unfold score_column; cbn [append];
      rewrite ?K5, ?K4, ?K3, ?K2 by (right; reflexivity).
    + exact (V1 Habs i r Hi Hno).
    + exact (V2 Habs i r Hi Hno).
    + exact (V3 Habs i r Hi Hno).
    + exact (V4 Habs i r Hi Hno).
    + exact (V5 Habs i r Hi Hno).
Qed.

End RankerFrames.

Section Rank.
Import Pandas Spec.

Lemma insert_desc_perm (x : Q) (l : list Q) : Permutation (insert_desc x l) (x :: l).
Proof.
  induction l as [|y l IH]; simpl; [reflexivity|].
  destruct (Qle_bool y x); [reflexivity|].
  rewrite IH. apply perm_swap.
Qed.

Lemma sort_desc_perm (l : list Q) : Permutation (sort_desc l) l.
Proof.
  induction l as [|x l IH]; simpl; [reflexivity|].
  rewrite insert_desc_perm. now constructor.
Qed.

Lemma insert_desc_sorted (x : Q) (l : list Q) :
  StronglySorted desc l -> StronglySorted desc (insert_desc x l).
Proof.
  induction l as [|y l IH]; intro Hs; simpl.
  - constructor; constructor.
  - inversion Hs as [|? ? Hs' Hall]; subst.
    destruct (Qle_bool y x) eqn:E.
    + apply Qle_bool_iff in E. constructor; [exact Hs|].
      constructor; [exact E|].
      eapply Forall_impl; [|exact Hall]. unfold desc. intros a Ha.
      eapply Qle_trans; eassumption.
    + apply Qle_bool_false in E. constructor; [now apply IH|].
      apply (Permutation_Forall (Permutation_sym (insert_desc_perm x l))).
      constructor; [unfold desc; now apply Qlt_le_weak | exact Hall].
Qed.

Lemma sort_desc_sorted (l : list Q) : StronglySorted desc (sort_desc l).
Proof.
  induction l as [|x l IH]; simpl; [constructor | now apply insert_desc_sorted].
Qed.

Lemma count_above_perm (v : Q) (l l' : list Q) :
  Permutation l l' -> count_above v l = count_above v l'.
Proof.
  unfold count_above. induction 1; simpl.
  - reflexivity.
  - destruct (negb (Qle_bool x v)); simpl; congruence.
  - destruct (negb (Qle_bool x v)), (negb (Qle_bool y v)); reflexivity.
  - congruence.
Qed.

(** In a descending list that holds [v], the first position of [v] is the
    number of elements strictly above it. *)
Lemma first_index_sorted (v : Q) (l : list Q) :
  StronglySorted desc l ->
  (exists y, In y l /\ y == v) ->
  first_index v l = count_above v l.
Proof.
  unfold count_above. induction l as [|x l IH]; intros Hs [y [Hin Hy]]; [contradiction|].
  inversion Hs as [|? ? Hs' Hall]; subst. simpl.
  destruct (Qeq_bool x v) eqn:E.
  - apply Qeq_bool_iff in E.
    assert (Hx : Qle_bool x v = true) by (apply Qle_bool_iff; rewrite E; apply Qle_refl).
    rewrite Hx. simpl.
    assert (Hnone : filter (fun y0 => negb (Qle_bool y0 v)) l = []).
    { clear - Hall E. induction l as [|z l IHl]; [reflexivity|]. simpl.
      inversion Hall as [|? ? Hz Hall']; subst. unfold desc in Hz.
      assert (Hzv : Qle_bool z v = true)
        by (apply Qle_bool_iff; rewrite <- E; exact Hz).
      rewrite Hzv. simpl. now apply IHl. }
    now rewrite Hnone.
  - apply Qeq_bool_false in E.
    assert (Hin' : In y l).
    { destruct Hin as [->|Hin]; [contradiction | exact Hin]. }
    assert (Hxv : Qle_bool x v = false).
    { apply Qle_bool_false. rewrite Forall_forall in Hall.
      specialize (Hall y Hin'). unfold desc in Hall.
      apply Qle_lteq in Hall. destruct Hall as [Hlt|Heq].
      - now rewrite <- Hy.
      - exfalso. apply E. rewrite <- Heq. exact Hy. }
    rewrite Hxv. simpl. f_equal. apply IH; [exact Hs'|]. exists y. auto.
Qed.

Lemma In_dropna (s : Series) (v : Q) : In (Some v) s <-> In v (dropna s).
Proof.
  induction s as [|[w|] s IH]; simpl; [tauto| |].
  - rewrite <- IH. split; intros [H|H]; auto; left; congruence.
  - rewrite <- IH. split; [intros [H|H]; [discriminate|auto] | auto].
Qed.

Lemma higher_count_dropna (q : Q) (s : Series) :
  higher_count q s = count_above q (dropna s).
Proof.
  unfold higher_count, count_above. induction s as [|[w|] s IH]; simpl; auto.
  destruct (negb (Qle_bool w q)); simpl; congruence.
Qed.

(** The rank of a value of the series is one more than the number of
    values strictly above it. *)
Lemma rank_desc_min_value (s : Series) (v : Q) :
  In (Some v) s ->
  S (first_index v (sort_desc (dropna s))) = (1 + higher_count v s)%nat.
Proof.
  intro Hin. rewrite higher_count_dropna.
  rewrite <- (count_above_perm v _ _ (sort_desc_perm (dropna s))).
  rewrite first_index_sorted; [reflexivity | apply sort_desc_sorted |].
  exists v. split; [|reflexivity].
  apply (Permutation_in _ (Permutation_sym (sort_desc_perm (dropna s)))).
  now apply In_dropna.
Qed.

End Rank.

Section Composite.
Import Pandas Models Ranker Spec.

Lemma fold_Qplus_acc (l : list Q) (a : Q) : fold_left Qplus l a == a + Qsum l.
Proof.
  unfold Qsum. revert a. induction l as [|x l IH]; intro a; simpl.
  - ring.
  - rewrite IH, (IH (0 + x)). ring.
Qed.

Lemma Qsum_cons (x : Q) (l : list Q) : Qsum (x :: l) == x + Qsum l.
Proof. unfold Qsum at 1. simpl. rewrite fold_Qplus_acc. ring. Qed.

Lemma Qsum_pos (l : list Q) :
  l <> [] -> Forall (fun w => 0 < w) l -> 0 < Qsum l.
Proof.
  induction l as [|x l IH]; intros Hne Hall; [congruence|].
  inversion Hall as [|? ? Hx Hall']; subst. cbv beta in Hx. rewrite Qsum_cons.
  destruct l as [|y l].
  - change (0 < x + 0). lra.
  - assert (0 < Qsum (y :: l)) by (apply IH; [discriminate | exact Hall']). lra.
Qed.

Lemma set_fresh {V} (d : PyDict.dict V) (k : string) (v : V) :
  ~ In k (PyDict.keys d) -> PyDict.set d k v = (d ++ [(k, v)])%list.
Proof.
  induction d as [|[k' v'] d IH]; intro H; simpl; [reflexivity|].
  destruct (String.eqb k' k) eqn:E.
  - apply String.eqb_eq in E. subst. exfalso. apply H. now left.
  - rewrite IH; [reflexivity|]. intro Hin. apply H. now right.
Qed.

Lemma get_in (d : dict) (k : string) (w : Q) :
  NoDup (PyDict.keys d) -> In (k, w) d -> PyDict.get d k 0 = w.
Proof.
  induction d as [|[k' v'] d IH]; intros Hnd Hin; [contradiction|].
  simpl in *. inversion Hnd as [|? ? Hk Hnd']; subst.
  destruct Hin as [E|Hin].
  - injection E as -> ->. now rewrite String.eqb_refl.
  - destruct (String.eqb k' k) eqn:E.
    + apply String.eqb_eq in E. subst. exfalso. apply Hk.
      change k with (fst (k, w)). now apply in_map.
    + now apply IH.
Qed.

(** The dictionary built by the first loop, for a [weights] dictionary. *)
Lemma collect_category_scores_eq (df : DataFrame) (weights : dict) :
  NoDup (PyDict.keys weights) ->
  collect_category_scores df weights
  = map (fun cw => (fst cw, score_column (fst cw)))
        (filter (fun cw => has_column df (score_column (fst cw))) weights).
Proof.
  unfold collect_category_scores, PyDict.keys.
  assert (G : forall (ws : dict) (acc : PyDict.dict string),
             NoDup (map fst ws) ->
             (forall k, In k (map fst ws) -> ~ In k (PyDict.keys acc)) ->
             fold_left (fun category_scores category =>
                          if has_column df (score_column category)
                          then PyDict.set category_scores category (score_column category)
                          else category_scores) (map fst ws) acc
             = (acc ++ map (fun cw => (fst cw, score_column (fst cw)))
                           (filter (fun cw => has_column df (score_column (fst cw))) ws))%list).
  { induction ws as [|[k w] ws IH]; intros acc Hnd Hfresh; simpl.
    - now rewrite app_nil_r.
    - simpl in Hnd. inversion Hnd as [|? ? Hk Hnd']; subst.
      destruct (has_column df (score_column k)) eqn:E.
      + rewrite set_fresh by (apply Hfresh; now left).
        rewrite IH; [simpl; now rewrite <- app_assoc | exact Hnd' |].
        intros k' Hk' Hin. unfold PyDict.keys in Hin. rewrite map_app in Hin.
        apply in_app_or in Hin. destruct Hin as [Hin|Hin].
        * apply (Hfresh k'); [now right | exact Hin].
        * simpl in Hin. destruct Hin as [->|[]]. contradiction.
      + apply IH; [exact Hnd'|]. intros k' Hk'. apply Hfresh. now right. }
  intro Hnd. rewrite (G weights [] Hnd); [reflexivity|]. intros k _ [].
Qed.

(** The second loop, from any accumulator. *)
Lemma accumulate_weighted_fold (weights : dict) (items : PyDict.dict string)
    (ws : list (Row -> cell)) (t : Q) :
  let positive (item : string * string) := negb (Qle_bool (PyDict.get weights (fst item) 0) 0) in
  fold_left (fun (acc : list (Row -> cell) * Q) (item : string * string) =>
               let '(weighted_scores, total_weight) := acc in
               let '(category, score_col) := item in
               let weight := PyDict.get weights category 0 in
               if negb (Qle_bool weight 0)
               then ((weighted_scores ++ [fun r : Row => scale weight (r score_col)])%list,
                     total_weight + weight)
               else acc) items (ws, t)
  = ((ws ++ map (fun item => fun r : Row => scale (PyDict.get weights (fst item) 0) (r (snd item)))
                (filter positive items))%list,
     fold_left Qplus (map (fun item => PyDict.get weights (fst item) 0) (filter positive items)) t).
Proof.
  cbv zeta. revert ws t. induction items as [|[category score_col] items IH]; intros ws t; simpl.
  - now rewrite app_nil_r.
  - destruct (negb (Qle_bool (PyDict.get weights category 0) 0)); simpl.
    + rewrite IH. now rewrite <- app_assoc.
    + apply IH.
Qed.

(** The row sum of the weighted columns. *)
Lemma weighted_row_sum (r : Row) (active : list (string * Q)) :
  sum_skipna (map (fun cw => scale (snd cw) (r (score_column (fst cw)))) active)
  == Qsum (map (fun cw => snd cw * value_or_0 (r (score_column (fst cw)))) active).
Proof.
  unfold sum_skipna. induction active as [|[c w] active IH]; simpl; [reflexivity|].
  destruct (r (score_column c)) as [v|]; simpl.
  - rewrite !Qsum_cons, IH. simpl. ring.
  - rewrite Qsum_cons, IH. simpl. ring.
Qed.

(** The categories selected by the two loops are the active categories. *)
Lemma positive_items_active (df : DataFrame) (weights l : dict) :
  NoDup (PyDict.keys weights) ->
  (forall cw, In cw l -> In cw weights) ->
  filter (fun item : string * string =>
            negb (Qle_bool (PyDict.get weights (fst item) 0) 0))
         (map (fun cw : string * Q => (fst cw, score_column (fst cw)))
              (filter (fun cw => has_column df (score_column (fst cw))) l))
  = map (fun cw : string * Q => (fst cw, score_column (fst cw))) (active_categories l df).
Proof.
  intros Hnd. unfold active_categories.
  induction l as [|[c w] l IH]; intro Hsub; simpl; [reflexivity|].
  assert (Hget : PyDict.get weights c 0 = w) by (apply get_in; [exact Hnd | apply Hsub; now left]).
  assert (IH' := IH (fun cw H => Hsub cw (or_intror H))).
  destruct (has_column df (score_column c)); simpl.
  - rewrite Hget. destruct (negb (Qle_bool w 0)); simpl; now rewrite IH'.
  - exact IH'.
Qed.

Lemma active_positive (weights : dict) (df : DataFrame) :
  Forall (fun w => 0 < w) (map snd (active_categories weights df)).
Proof.
  apply Forall_forall. intros w Hin. apply in_map_iff in Hin.
  destruct Hin as [[c w'] [<- Hin]]. unfold active_categories in Hin.
  apply filter_In in Hin. destruct Hin as [_ H]. apply andb_true_iff in H.
  destruct H as [_ H]. simpl in *. now apply Qgt_bool_true in H.
Qed.

(** The frame after [_calculate_composite_score], whatever the weights:
    only the composite column is written, and it has no [NaN]. *)
Lemma composite_frame (config : AnalysisConfig) (df : DataFrame) :
  let out := _calculate_composite_score config df in
  len out = len df
  /\ has_column out "composite_score" = true
  /\ (forall c, String.eqb c "composite_score" = false -> column out c = column df c)
  /\ exists comp : Row -> Q,
       column out "composite_score" = map (fun r => Some (comp r)) (rows df).
Proof.
  unfold _calculate_composite_score.
  destruct (collect_category_scores df (weights config)) as [|item items].
  - cbv zeta. split; [apply len_assign_rowwise|]. split.
    { rewrite has_column_assign_rowwise, String.eqb_refl. apply orb_true_r. }
    split.
    + intros c Hc. now rewrite column_assign_rowwise, Hc.
    + exists (fun _ => 0). now rewrite column_assign_rowwise, String.eqb_refl.
  - destruct (accumulate_weighted (weights config) (item :: items)) as [ws t].
    match goal with
    | |- context [assign df "composite_score" ?s] =>
        assert (Hs : exists comp : Row -> Q, s = map (fun r => Some (comp r)) (rows df))
    end.
    { destruct ws as [|f ws]; [now exists (fun _ => 0)|].
      destruct (negb (Qle_bool t 0)); [|now exists (fun _ => 0)].
      now exists (fun r => sum_skipna (map (fun g => g r) (f :: ws)) / t). }
    destruct Hs as [comp Hs]. cbv zeta. rewrite Hs.
    assert (Hl : List.length (map (fun r => Some (comp r)) (rows df)) = len df)
      by apply length_map.
    split; [now apply len_assign|]. split.
    { rewrite has_column_assign, String.eqb_refl. apply orb_true_r. }
    split.
    + intros c Hc. rewrite column_assign by exact Hl. now rewrite Hc.
    + exists comp. rewrite column_assign by exact Hl. now rewrite String.eqb_refl.
Qed.

(** The composite score in closed form: for every row, the weighted mean
    of its category scores over the active categories of the frame. *)
Lemma composite_closed_form (config : AnalysisConfig) (df : DataFrame) :
  NoDup (PyDict.keys (weights config)) ->
  Forall2 (fun (r : Row) (c : cell) =>
             exists q, c = Some q
                       /\ q == weighted_mean (active_categories (weights config) df) r)
          (rows df)
          (column (_calculate_composite_score config df) "composite_score").
Proof.
  intro Hnd.
  assert (Hmap : forall (act : list (string * Q)) (f : Row -> Q),
             (forall r, f r == weighted_mean act r) ->
             Forall2 (fun (r : Row) (c : cell) =>
                        exists q, c = Some q /\ q == weighted_mean act r)
                     (rows df) (map (fun r => Some (f r)) (rows df))).
  { intros act f Hf. induction (rows df) as [|r rs IH]; simpl; constructor; [|exact IH].
    exists (f r). split; [reflexivity | apply Hf]. }
  unfold _calculate_composite_score.
  rewrite (collect_category_scores_eq df (weights config) Hnd).
  set (present := filter (fun cw => has_column df (score_column (fst cw))) (weights config)).
  assert (Hact : filter (fun item : string * string =>
                           negb (Qle_bool (PyDict.get (weights config) (fst item) 0) 0))
                        (map (fun cw : string * Q => (fst cw, score_column (fst cw))) present)
                 = map (fun cw : string * Q => (fst cw, score_column (fst cw)))
                       (active_categories (weights config) df)).
  { apply positive_items_active; auto. }
  destruct (map (fun cw : string * Q => (fst cw, score_column (fst cw))) present)
    as [|item items] eqn:Hitems.
  - rewrite column_assign_rowwise, String.eqb_refl.
    simpl in Hact. symmetry in Hact. apply map_eq_nil in Hact. rewrite Hact.
    apply (Hmap [] (fun _ => 0)). reflexivity.
  - unfold accumulate_weighted.
    pose proof (accumulate_weighted_fold (weights config) (item :: items) [] 0) as Hfold.
    cbv zeta in Hfold. unfold PyDict.items. rewrite Hfold. clear Hfold.
    rewrite Hact. cbn [app]. rewrite !map_map. cbn [fst snd].
    assert (Htot : fold_left Qplus
                     (map (fun cw : string * Q => PyDict.get (weights config) (fst cw) 0)
                          (active_categories (weights config) df)) 0
                   = Qsum (map snd (active_categories (weights config) df))).
    { unfold Qsum. f_equal. apply map_ext_in. intros [c w] Hin. simpl.
      apply get_in; [exact Hnd|]. unfold active_categories in Hin.
      apply filter_In in Hin. tauto. }
    rewrite Htot.
    assert (Hws : map (fun cw : string * Q =>
                         fun r : Row => scale (PyDict.get (weights config) (fst cw) 0)
                                              (r (score_column (fst cw))))
                      (active_categories (weights config) df)
                  = map (fun cw : string * Q =>
                           fun r : Row => scale (snd cw) (r (score_column (fst cw))))
                        (active_categories (weights config) df)).
    { apply map_ext_in. intros [c w] Hin. simpl.
      rewrite (get_in (weights config) c w); [reflexivity | exact Hnd |].
      unfold active_categories in Hin. apply filter_In in Hin. tauto. }
    rewrite Hws. clear Hws Htot.
    pose proof (active_positive (weights config) df) as Hpos.
    destruct (active_categories (weights config) df) as [|a act] eqn:Ha.
    + cbn [map]. rewrite column_assign by apply length_map.
      rewrite String.eqb_refl. apply (Hmap [] (fun _ => 0)). reflexivity.
    + assert (Ht : 0 < Qsum (map snd (a :: act)))
        by (apply Qsum_pos; [discriminate | exact Hpos]).
      assert (Hb : negb (Qle_bool (Qsum (map snd (a :: act))) 0) = true)
        by now apply Qgt_bool_true.
      cbn [map] in *. rewrite Hb.
      rewrite column_assign by apply length_map.
      rewrite String.eqb_refl.
      apply (Hmap (a :: act) (fun r => sum_skipna
                     (map (fun f : Row -> cell => f r)
                        ((fun r0 : Row => scale (snd a) (r0 (score_column (fst a))))
                         :: map (fun cw : string * Q =>
                                   fun r0 : Row => scale (snd cw) (r0 (score_column (fst cw))))
                                act))
                   / Qsum (snd a :: map snd act))).
      intro r. unfold weighted_mean.
      apply Qdiv_comp; [|reflexivity].
      rewrite <- (weighted_row_sum r (a :: act)).
      cbn [map]. rewrite map_map. reflexivity.
Qed.

End Composite.

Section Scores.
Import Pandas Models Ranker Spec.

Lemma astype_int_ranks (s s' : Series) :
  (forall c, In c s' -> c <> None /\ In c s) ->
  astype_int (map (fun c => match c with
                            | Some v => Some (S (first_index v (sort_desc (dropna s))))
                            | None => None
                            end) s')
  = inr (map (rank_cell s) s').
Proof.
  induction s' as [|[v|] s' IH]; intro H; cbn [map astype_int].
  - reflexivity.
  - rewrite IH by (intros c Hc; apply H; now right).
    rewrite rank_desc_min_value by (apply H; now left). reflexivity.
  - exfalso. destruct (H None (or_introl eq_refl)) as [Hn _]. now apply Hn.
Qed.

(** [_add_ranking] on a frame whose composite column has no [NaN]. *)
Lemma add_ranking_frame (df : DataFrame) :
  has_column df "composite_score" = true ->
  (forall c, In c (column df "composite_score") -> c <> None) ->
  exists ranked,
    _add_ranking df = inr ranked
    /\ len ranked = len df
    /\ (forall c, String.eqb c "rank" = false -> column ranked c = column df c)
    /\ column ranked "rank"
       = map (rank_cell (column df "composite_score")) (column df "composite_score").
Proof.
  intros Hhas Hcol. unfold _add_ranking. rewrite Hhas. unfold rank_desc_min.
  rewrite astype_int_ranks by (intros c Hc; split; [now apply Hcol | exact Hc]).
  eexists. split; [reflexivity|].
  assert (Hl : List.length (map (rank_cell (column df "composite_score"))
                                (column df "composite_score")) = len df)
    by (rewrite length_map; apply length_column).
  split; [now apply len_assign|]. split.
  - intros c Hc. rewrite column_assign by exact Hl. now rewrite Hc.
  - rewrite column_assign by exact Hl. now rewrite String.eqb_refl.
Qed.

(** [calculate_scores] always returns a frame; it has as many rows as the
    input, the rank column is computed from the composite column, and the
    other columns are those of the frame after the composite score. *)
Lemma calculate_scores_frame (config : AnalysisConfig) (df : DataFrame) :
  let comp_df := _calculate_composite_score config (_calculate_category_scores df) in
  exists ranked,
    calculate_scores config df = inr ranked
    /\ len ranked = len df
    /\ (forall c, String.eqb c "rank" = false -> column ranked c = column comp_df c)
    /\ column ranked "rank"
       = map (rank_cell (column comp_df "composite_score")) (column comp_df "composite_score")
    /\ (forall c, In c (column comp_df "composite_score") -> c <> None).
Proof.
  intro comp_df. subst comp_df. unfold calculate_scores.
  destruct (category_scores_frame df) as [Lcat _].
  destruct (composite_frame config (_calculate_category_scores df))
    as [Lcomp [Hhas [Hother [comp Hcomp]]]].
  set (cat_df := _calculate_category_scores df) in *.
  set (comp_df := _calculate_composite_score config cat_df) in *.
  assert (Hsome : forall c, In c (column comp_df "composite_score") -> c <> None).
  { intros c Hc. rewrite Hcomp in Hc. apply in_map_iff in Hc.
    destruct Hc as [r [<- _]]. discriminate. }
  destruct (add_ranking_frame comp_df Hhas Hsome) as [ranked [Hr [Lr [Ho Hrank]]]].
  exists ranked. repeat split; auto. congruence.
Qed.

End Scores.

Section RankerClaims.
Import Pandas Models Ranker Spec.

Lemma higher_count_Qeq (q q' : Q) (s : Series) :
  q == q' -> higher_count q s = higher_count q' s.
Proof.
  intro E. unfold higher_count. f_equal. apply filter_ext. intros [v|]; simpl; [|reflexivity].
  f_equal. destruct (Qle_bool v q) eqn:A, (Qle_bool v q') eqn:B; try reflexivity.
  - apply Qle_bool_iff in A. apply Qle_bool_false in B. rewrite E in A. lra.
  - apply Qle_bool_iff in B. apply Qle_bool_false in A. rewrite E in A. lra.
Qed.

(** C4: [calculate_scores] returns a frame in which the rank of every
    animal is one plus the number of animals whose composite score is
    strictly higher; animals with equal composite scores therefore have
    the same rank, and the ranks after a group of ties skip: the scores
    0.90, 0.90, 0.80 receive the ranks 1, 1, 3. *)
Theorem rank_counts_strictly_higher (config : AnalysisConfig) (df : DataFrame) :
  exists ranked,
    calculate_scores config df = inr ranked
    /\ len ranked = len df
    /\ (forall i r,
          nth_error (rows ranked) i = Some r ->
          exists q,
            r "composite_score" = Some q
            /\ r "rank"
               = Some (inject_Z (Z.of_nat
                         (1 + higher_count q (column ranked "composite_score")))))
    /\ (forall i j ri rj qi qj,
          nth_error (rows ranked) i = Some ri ->
          nth_error (rows ranked) j = Some rj ->
          ri "composite_score" = Some qi ->
          rj "composite_score" = Some qj ->
          qi == qj -> ri "rank" = rj "rank")
    /\ rank_desc_min [Some (90#100); Some (90#100); Some (80#100)]
       = [Some 1%nat; Some 1%nat; Some 3%nat].
Proof.
  destruct (calculate_scores_frame config df) as [ranked [Hr [Hlen [Hother [Hrank Hsome]]]]].
  cbv zeta in *.
  set (comp_df := _calculate_composite_score config (_calculate_category_scores df)) in *.
  assert (Hcs : column ranked "composite_score" = column comp_df "composite_score")
    by (apply Hother; reflexivity).
  rewrite <- Hcs in Hrank, Hsome.
  assert (Hrow : forall i r,
             nth_error (rows ranked) i = Some r ->
             exists q,
               r "composite_score" = Some q
               /\ r "rank"
                  = Some (inject_Z (Z.of_nat
                            (1 + higher_count q (column ranked "composite_score"))))).
  { intros i r Hi.
    pose proof (nth_error_column ranked "composite_score" i r Hi) as Hc.
    pose proof (nth_error_column ranked "rank" i r Hi) as Hk.
    rewrite Hrank in Hk.
    rewrite (map_nth_error (rank_cell (column ranked "composite_score")) i _ Hc) in Hk.
    injection Hk as Hk.
    destruct (r "composite_score") as [q|] eqn:Eq.
    - exists q. split; [reflexivity|]. now rewrite <- Hk.
    - exfalso. apply (Hsome None); [|reflexivity]. eapply nth_error_In. exact Hc. }
  exists ranked. repeat split; auto.
  intros i j ri rj qi qj Hi Hj Hqi Hqj E.
  destruct (Hrow i ri Hi) as [q1 [E1 R1]]. destruct (Hrow j rj Hj) as [q2 [E2 R2]].
  rewrite R1, R2. assert (q1 = qi) by congruence. assert (q2 = qj) by congruence. subst.
  now rewrite (higher_count_Qeq qi qj _ E).
Qed.

(** The scenario of the specification: footrot scores 1 and 3, the only
    health trait, give the health scores 4 and 2. *)
Example footrot_inverted_once :
  column (_calculate_category_scores Examples.df_footrot) "health_score"
  = [Some (4#1); Some (2#1)].
Proof. vm_compute. reflexivity. Qed.

(** C10: a category score column that the input of [calculate_scores]
    already has comes out with every value unchanged; in particular a
    [health_score] computed upstream is not recomputed, and so not
    inverted again. *)
Theorem existing_score_column_unchanged (config : AnalysisConfig) (df : DataFrame)
    (c : string) :
  In c score_columns ->
  has_column df c = true ->
  exists scored,
    calculate_scores config df = inr scored
    /\ column scored c = column df c.
Proof.
  intros Hin Hhas.
  destruct (calculate_scores_frame config df) as [ranked [Hr [_ [Hother _]]]].
  cbv zeta in Hother.
  destruct (category_scores_frame df) as [_ [_ Hkeep]].
  destruct (composite_frame config (_calculate_category_scores df)) as [_ [_ [Hcomp _]]].
  exists ranked. split; [exact Hr|].
  assert (Hne : String.eqb c "rank" = false /\ String.eqb c "composite_score" = false).
  { unfold score_columns in Hin. simpl in Hin.
    repeat (destruct Hin as [<-|Hin]; [split; reflexivity|]). contradiction. }
  destruct Hne as [H1 H2].
  rewrite (Hother c H1), (Hcomp c H2). now apply Hkeep.
Qed.

Lemma existing_score_column_unchanged_witness :
  exists scored,
    calculate_scores Examples.default_config Examples.df_with_health = inr scored
    /\ column scored "health_score" = [Some (7#2); Some 3].
Proof.
  apply (existing_score_column_unchanged Examples.default_config Examples.df_with_health
           "health_score").
  - unfold score_columns. simpl. auto.
  - reflexivity.
Defined.

(** C1 (amended): for every animal the composite score is the sum of
    weight times category score divided by the sum of the weights, both
    over the configured categories with a positive weight whose score
    column is in the frame after category scoring: the denominator is the
    same for every animal.  The five category score columns are always in
    that frame and reach the scored frame unchanged; where such a column
    was computed, an animal without data for the category has the score
    0 in it. *)
Theorem composite_score_weighted_mean (config : AnalysisConfig) (df : DataFrame) :
  NoDup (PyDict.keys (weights config)) ->
  let cat_df := _calculate_category_scores df in
  exists scored,
    calculate_scores config df = inr scored
    /\ Forall2 (fun (r_cat : Row) (c : cell) =>
                  exists q, c = Some q
                            /\ q == weighted_mean (active_categories (weights config) cat_df) r_cat)
               (rows cat_df) (column scored "composite_score")
    /\ Forall (fun c => has_column cat_df c = true
                        /\ column scored c = column cat_df c) score_columns
    /\ Forall (fun category =>
                 has_column df (score_column category) = false ->
                 forall i r,
                   nth_error (rows df) i = Some r ->
                   no_data df (category_traits category) r ->
                   nth_error (column scored (score_column category)) i = Some (Some 0))
              categories.
Proof.
  intros Hnd cat_df.
  destruct (calculate_scores_frame config df) as [ranked [Hr [_ [Hother _]]]].
  cbv zeta in Hother.
  destruct (category_scores_frame df) as [_ [Hfive [_ Hzero]]].
  destruct (composite_frame config (_calculate_category_scores df)) as [_ [_ [Hcomp _]]].
  assert (Hsame : forall c, In c score_columns -> column ranked c = column cat_df c).
  { intros c Hin.
    assert (Hne : String.eqb c "rank" = false /\ String.eqb c "composite_score" = false).
    { unfold score_columns in Hin. simpl in Hin.
      repeat (destruct Hin as [<-|Hin]; [split; reflexivity|]). contradiction. }
    destruct Hne as [H1 H2]. now rewrite (Hother c H1), (Hcomp c H2). }
  exists ranked. split; [exact Hr|]. split; [|split].
  - rewrite (Hother "composite_score" eq_refl).
    now apply composite_closed_form.
  - rewrite Forall_forall in *. intros c Hc. split; [now apply Hfive | now apply Hsame].
  - rewrite Forall_forall in *. intros category Hcat Habs i r Hi Hno.
    rewrite Hsame.
    + now apply (Hzero category Hcat Habs i r).
    + unfold categories in Hcat. simpl in Hcat. unfold score_columns.
      repeat (destruct Hcat as [<-|Hcat]; [simpl; tauto|]). contradiction.
Qed.

Lemma composite_score_weighted_mean_witness :
  exists scored,
    calculate_scores Examples.default_config Examples.df_missing_wool = inr scored
    /\ Forall2 (fun (r_cat : Row) (c : cell) =>
                  exists q, c = Some q
                            /\ q == weighted_mean
                                      (active_categories (weights Examples.default_config)
                                         (_calculate_category_scores Examples.df_missing_wool))
                                      r_cat)
               (rows (_calculate_category_scores Examples.df_missing_wool))
               (column scored "composite_score").
Proof.
  destruct (composite_score_weighted_mean Examples.default_config Examples.df_missing_wool)
    as [scored [Hs [Hq _]]].
  - simpl. repeat constructor; simpl; intuition discriminate.
  - exists scored. split; [exact Hs | exact Hq].
Defined.

(** C1, as the specification states it, fails: the first animal of
    [df_missing_wool] has a growth score of 1 and no other data.  Its
    composite score is 0.3, the zeros of the four other categories
    included; renormalized over the growth category alone it would be 1. *)
Lemma composite_renormalized_per_animal_fails :
  ~ composite_renormalized_per_animal Examples.default_config Examples.df_missing_wool.
Proof.
  intro H.
  destruct (calculate_scores Examples.default_config Examples.df_missing_wool)
    as [e|scored] eqn:E; [vm_compute in E; discriminate|].
  destruct (nth_error (rows scored) 0) as [r|] eqn:Er.
  2:{ vm_compute in E. injection E as <-. discriminate. }
  destruct (H scored 0%nat _ r E eq_refl Er) as [q [Hq Hre]].
  vm_compute in E. injection E as <-. simpl in Er. injection Er as <-.
  vm_compute in Hq. injection Hq as <-.
  vm_compute in Hre. discriminate.
Qed.

End RankerClaims.

(* ===================================================================== *)
(** * Hard filters (scoring/filters.py) *)
(* ===================================================================== *)

Section HardFilters.
Import Pandas Models Filters Spec.

Lemma filter_filter_and {A} (p q : A -> bool) (l : list A) :
  filter q (filter p l) = filter (fun x => p x && q x) l.
Proof.
  induction l as [|x l IH]; simpl; [reflexivity|].
  destruct (p x); simpl; [destruct (q x); now rewrite IH | exact IH].
Qed.

Lemma count_false_zero (mask : Row -> mask_cell) (rs : list Row) :
  count_false mask rs = 0%nat -> forall r, In r rs -> is_false (mask r) = false.
Proof.
  unfold count_false. induction rs as [|x rs IH]; intros H r Hin; [contradiction|].
  simpl in H. destruct (is_false (mask x)) eqn:E; simpl in H; [discriminate|].
  destruct Hin as [<-|Hin]; [exact E | now apply IH].
Qed.

Lemma count_false_some_fails (df : DataFrame) (mask : Row -> mask_cell) :
  (0 <? count_false mask (rows df))%nat = some_fails df mask.
Proof.
  unfold count_false, some_fails. induction (rows df) as [|x rs IH]; [reflexivity|].
  simpl. destruct (is_false (mask x)); [reflexivity | exact IH].
Qed.

(** Where some animal fails the condition, an animal meets it exactly
    when its own entry of the mask is [True]. *)
Lemma meets_applied (df : DataFrame) (mask : Row -> mask_cell) (r : Row) :
  some_fails df mask = true -> meets df mask r = na_false (mask r).
Proof. unfold meets. intros ->. now destruct (mask r). Qed.

(** Where no animal fails it, every animal of the frame meets it. *)
Lemma meets_not_applied (df : DataFrame) (mask : Row -> mask_cell) (r : Row) :
  some_fails df mask = false -> In r (rows df) -> meets df mask r = true.
Proof.
  unfold meets. intros E Hin. rewrite E.
  destruct (mask r) as [[|]|] eqn:Em; try reflexivity.
  exfalso. unfold some_fails in E.
  assert (existsb (fun r => is_false (mask r)) (rows df) = true); [|congruence].
  apply existsb_exists. exists r. split; [exact Hin | now rewrite Em].
Qed.

(** One block keeps the rows that were kept so far and meet the block's
    condition, when the block applies. *)
Lemma filter_block_rows (df : DataFrame) (enabled : bool) (col name : string)
    (mask : Row -> mask_cell) (st : DataFrame * FilterResults) (kept : Row -> bool) :
  columns (fst st) = columns df ->
  rows (fst st) = filter kept (rows df) ->
  let st' := filter_block df enabled col name mask st in
  columns (fst st') = columns df
  /\ rows (fst st')
     = filter (fun r => kept r && (negb (enabled && has_column df col) || meets df mask r))
              (rows df).
Proof.
  destruct st as [filtered_df filter_results]. simpl. intros Hc Hr.
  unfold filter_block. destruct (enabled && has_column df col); simpl.
  - rewrite count_false_some_fails. destruct (some_fails df mask) eqn:E; simpl.
    + split; [exact Hc|]. rewrite Hr, filter_filter_and. apply filter_ext. intro r.
      now rewrite (meets_applied df mask r E).
    + split; [exact Hc|]. rewrite Hr. apply filter_ext_in. intros r Hin.
      now rewrite (meets_not_applied df mask r E Hin), andb_true_r.
  - split; [exact Hc|]. rewrite Hr. apply filter_ext. intro r. now rewrite andb_true_r.
Qed.

(** The rows that [apply_hard_filters] keeps. *)
Lemma apply_hard_filters_rows (config : AnalysisConfig) (dtypes : Dtypes) (df : DataFrame) :
  let filtered_df := fst (apply_hard_filters config dtypes df) in
  columns filtered_df = columns df
  /\ rows filtered_df = filter (survives config dtypes df) (rows df).
Proof.
  unfold apply_hard_filters.
  set (st0 := (df, mkFilterResults (len df) [] [] 0 0)).
  assert (H0 : columns (fst st0) = columns df /\ rows (fst st0) = filter (fun _ => true) (rows df)).
  { split; [reflexivity|]. simpl. clear. induction (rows df) as [|r l IH]; simpl; congruence. }
  destruct H0 as [C0 R0].
  destruct (filter_block_rows df true "wt_birth" "min_birth_weight"
              (col_ge dtypes "wt_birth" (min_birth_weight config)) st0 _ C0 R0)
    as [C1 R1].
  set (st1 := filter_block df true "wt_birth" "min_birth_weight" _ st0) in *.
  destruct (filter_block_rows df true "footrot_score" "max_footrot_score"
              (col_le dtypes "footrot_score" (inject_Z (max_footrot_score config)))
              st1 _ C1 R1) as [C2 R2].
  set (st2 := filter_block df true "footrot_score" "max_footrot_score" _ st1) in *.
  destruct (filter_block_rows df true "dag_score" "max_dag_score"
              (col_le dtypes "dag_score" (inject_Z (max_dag_score config)))
              st2 _ C2 R2) as [C3 R3].
  set (st3 := filter_block df true "dag_score" "max_dag_score" _ st2) in *.
  destruct (filter_block_rows df true "wt_wean" "min_weaning_weight"
              (col_ge dtypes "wt_wean" (min_weaning_weight config))
              st3 _ C3 R3) as [C4 R4].
  set (st4 := filter_block df true "wt_wean" "min_weaning_weight" _ st3) in *.
  destruct (filter_block_rows df true "micron" "max_micron"
              (col_le dtypes "micron" (max_micron config))
              st4 _ C4 R4) as [C5 R5].
  set (st5 := filter_block df true "micron" "max_micron" _ st4) in *.
  destruct (filter_block_rows df (bse_pass_required config) "bse_pass" "bse_pass_required"
              (col_eqb dtypes "bse_pass" 1)
              st5 _ C5 R5) as [C6 R6].
  set (st6 := filter_block df (bse_pass_required config) "bse_pass" "bse_pass_required" _ st5) in *.
  cbv zeta in *. destruct st6 as [filtered_df filter_results]. simpl in *.
  split; [exact C6|]. rewrite R6. apply filter_ext. intro r.
  unfold survives, hard_filters. simpl. now rewrite andb_true_r, !andb_assoc.
Qed.

(** C2 (amended): the frame returned by [apply_hard_filters] has the
    columns of the input and exactly the rows that meet the condition of
    every filter that is switched on and whose column is in the frame, in
    their order.  A filter whose column is not in the frame removes
    nothing.  A value that is missing does not meet a condition: as a
    [NaN] it fails it, and as a [pd.NA] of a nullable column it is kept
    exactly when no animal of the frame fails that condition. *)
Theorem hard_filters_survivors (config : AnalysisConfig) (dtypes : Dtypes) (df : DataFrame) :
  let filtered_df := fst (apply_hard_filters config dtypes df) in
  columns filtered_df = columns df
  /\ rows filtered_df = filter (survives config dtypes df) (rows df)
  /\ forall r : Row,
       survives config dtypes df r = true
       <-> forall (enabled : bool) (col : string) (cond : Row -> mask_cell),
             In (enabled, col, cond) (hard_filters config dtypes) ->
             enabled = true -> has_column df col = true ->
             cond r = Some true
             \/ (cond r = None /\ dtypes col = true /\ r col = None
                 /\ forall r', In r' (rows df) -> cond r' <> Some false).
Proof.
  cbv zeta. destruct (apply_hard_filters_rows config dtypes df) as [Hc Hr].
  split; [exact Hc|]. split; [exact Hr|].
  intro r. unfold survives. rewrite forallb_forall. split.
  - intros H enabled col cond Hin -> Hhas. specialize (H _ Hin). cbn beta iota in H.
    rewrite Hhas in H. cbn [andb negb orb] in H.
    unfold meets in H. destruct (cond r) as [[|]|] eqn:Ec; [now left | discriminate |].
    right. split; [reflexivity|].
    assert (Hna : dtypes col = true /\ r col = None).
    { unfold hard_filters in Hin. cbn [In] in Hin.
      repeat (destruct Hin as [Hin|Hin];
              [injection Hin; intros; subst; unfold col_ge, col_le, col_eqb, compared in Ec;
               destruct (r _); [discriminate|]; destruct (dtypes _); [auto | discriminate]|]).
      contradiction. }
    split; [tauto|]. split; [tauto|].
    intros r' Hin' Ef. apply negb_true_iff in H. unfold some_fails in H.
    assert (existsb (fun r0 => is_false (cond r0)) (rows df) = true); [|congruence].
    apply existsb_exists. exists r'. split; [exact Hin' | now rewrite Ef].
  - intros H [[enabled col] cond] Hin. destruct enabled; [|reflexivity].
    destruct (has_column df col) eqn:Hhas; [|reflexivity]. cbn [andb negb orb].
    destruct (H true col cond Hin eq_refl Hhas) as [E|[E [_ [_ Hall]]]];
      unfold meets; rewrite E; [reflexivity|].
    apply negb_true_iff. unfold some_fails.
    destruct (existsb _ (rows df)) eqn:Ex; [|reflexivity].
    apply existsb_exists in Ex. destruct Ex as [r' [Hin' Hf]].
    exfalso. apply (Hall r' Hin'). destruct (cond r') as [[|]|]; try discriminate. reflexivity.
Qed.

(** The scenario of the specification: of five rams with birth weights
    1.5, 2.0, 2.5, 3.0 and 3.5 kg and a minimum of 2.0 kg, the one of
    1.5 kg is removed. *)
Example five_rams_one_removed :
  let out := apply_hard_filters Examples.default_config Cleaner.cleaned_dtypes
               Examples.df_five_rams in
  len (fst out) = 4%nat
  /\ column (fst out) "wt_birth" = [Some 2; Some (25#10); Some 3; Some (35#10)]
  /\ animals_removed (snd out) = [("min_birth_weight", 1%nat)]
  /\ total_removed (snd out) = 1%nat.
Proof. vm_compute. repeat split. Qed.

(** A footrot score that is missing in the [Int64] column of a cleaned
    frame: beside a score of 3, under the maximum of 4, the filter is not
    applied and both animals stay; beside a score of 5 the filter is
    applied, one removal is recorded and both animals go. *)
Example missing_footrot_score_na :
  let kept := apply_hard_filters Examples.default_config Cleaner.cleaned_dtypes
                (Examples.df_footrot_na 3) in
  let dropped := apply_hard_filters Examples.default_config Cleaner.cleaned_dtypes
                   (Examples.df_footrot_na 5) in
  column (fst kept) "footrot_score" = [Some 3; None]
  /\ filters_applied (snd kept) = []
  /\ len (fst dropped) = 0%nat
  /\ animals_removed (snd dropped) = [("max_footrot_score", 1%nat)]
  /\ total_removed (snd dropped) = 2%nat.
Proof. vm_compute. repeat split. Qed.

(** C2, as the specification states it, fails: an animal whose birth
    weight is missing, in a frame that has the birth-weight column, is
    removed by the birth-weight filter. *)
Lemma missing_value_never_eliminates_fails :
  ~ missing_value_never_eliminates Examples.default_config Cleaner.cleaned_dtypes
      Examples.df_no_birth_weight.
Proof.
  intro H.
  destruct (H 0%nat _ eq_refl) as [j Hj].
  - vm_compute. reflexivity.
  - vm_compute in Hj. destruct j; discriminate.
Qed.

End HardFilters.

(* ===================================================================== *)
(** * Cull candidates (scoring/filters.py) *)
(* ===================================================================== *)

Section Cull.
Import Pandas Models Filters Spec.

Lemma prefix_split (s1 s2 : string) :
  String.prefix s1 s2 = true -> exists post, s2 = (s1 ++ post)%string.
Proof.
  revert s2. induction s1 as [|a s1 IH]; intros [|b s2] H; simpl in *.
  - now exists EmptyString.
  - now exists (String b s2).
  - discriminate.
  - destruct (Ascii.ascii_dec a b) as [->|]; [|discriminate].
    destruct (IH s2 H) as [post ->]. now exists post.
Qed.

Lemma contains_sound (reason reasons : string) :
  contains reason reasons = true -> reason_in reason reasons.
Proof.
  induction reasons as [|a rest IH]; cbn [contains]; intro H.
  - rewrite orb_false_r in H. apply prefix_split in H. destruct H as [post H].
    now exists EmptyString, post.
  - apply orb_true_iff in H. destruct H as [H|H].
    + apply prefix_split in H. destruct H as [post H]. now exists EmptyString, post.
    + destruct (IH H) as [pre [post ->]]. now exists (String a pre), post.
Qed.

Lemma flag_rows_guard (b : bool) (mask : Row -> bool) (update : string -> string)
    (cs : list CullRow) :
  (if b then flag_rows mask update cs else cs)
  = flag_rows (fun r => b && mask r) update cs.
Proof.
  destruct b; simpl; [reflexivity|]. unfold flag_rows.
  induction cs as [|c cs IH]; simpl; congruence.
Qed.

Lemma flag_rows_map (f : Row -> CullRow) (mask : Row -> bool)
    (update : string -> string) (l : list Row) :
  (forall r, animal (f r) = r) ->
  flag_rows mask update (map f l)
  = map (fun r => if mask r
                  then mkCullRow r true (update (cull_reasons (f r)))
                  else f r) l.
Proof.
  intro Hf. unfold flag_rows. rewrite map_map. apply map_ext. intro r.
  now rewrite Hf.
Qed.

Ltac animal_kept :=
  let r := fresh "r" in
  intro r;
  repeat match goal with
         | |- context [if ?b then _ else _] => destruct b
         end; reflexivity.

Lemma cell_eqb_spec (c : cell) (x : Q) :
  cell_eqb c x = true <-> exists v, c = Some v /\ v == x.
Proof.
  destruct c as [v|]; simpl.
  - rewrite Qeq_bool_iff. split; [intro H; now exists v | intros [w [E H]]; congruence].
  - split; [discriminate | intros [w [E _]]; discriminate].
Qed.

Lemma cell_lt_cell_spec (c t : cell) :
  cell_lt_cell c t = true <-> exists v x, c = Some v /\ t = Some x /\ v < x.
Proof.
  destruct t as [x|]; simpl.
  - rewrite cell_lt_spec. split.
    + intros [v [E H]]. now exists v, x.
    + intros [v [y [E [Ey H]]]]. exists v. split; congruence.
  - split; [discriminate | intros [v [y [_ [Ey _]]]]; discriminate].
Qed.

(** C8: [identify_cull_candidates] keeps the rows of the frame and
    recommends an animal for culling exactly when at least one criterion
    holds: its cull flag is 1, its 300-day weight is below the 10th
    percentile of the frame's 300-day weights, its health score is below
    the 10th percentile of the frame's health scores, or its weaning rate
    is below 0.5.  The reason text of every criterion that holds occurs
    in the animal's reasons. *)
Theorem cull_iff_some_criterion (df : DataFrame) :
  let out := identify_cull_candidates df in
  map animal out = rows df
  /\ Forall (fun c =>
               let r := animal c in
               (cull_recommended c = true
                <-> flagged df r \/ below_decile "wt_300d" df r
                    \/ below_decile "health_score" df r \/ poor_reproduction df r)
               /\ (flagged df r -> reason_in "Existing cull flag" (cull_reasons c))
               /\ (below_decile "wt_300d" df r -> reason_in "Low 300d weight" (cull_reasons c))
               /\ (below_decile "health_score" df r -> reason_in "Poor health" (cull_reasons c))
               /\ (poor_reproduction df r -> reason_in "Poor reproduction" (cull_reasons c)))
            out.
Proof.
  unfold identify_cull_candidates. cbv zeta.
  rewrite !flag_rows_guard.
  rewrite flag_rows_map by animal_kept.
  rewrite flag_rows_map by animal_kept.
  rewrite flag_rows_map by animal_kept.
  rewrite flag_rows_map by animal_kept.
  rewrite !map_map.
  split.
  - rewrite <- (map_id (rows df)) at 2. apply map_ext. intro r.
    repeat match goal with
           | |- context [if ?b then _ else _] => destruct b
           end; reflexivity.
  - apply Forall_forall. intros c Hc. apply in_map_iff in Hc. destruct Hc as [r [<- _]].
    cbv zeta.
    assert (F : flagged df r
                <-> has_column df "cull_flag" && cell_eqb (r "cull_flag") 1 = true).
    { unfold flagged. now rewrite andb_true_iff, cell_eqb_spec. }
    assert (W : below_decile "wt_300d" df r
                <-> has_column df "wt_300d"
                    && cell_lt_cell (r "wt_300d") (quantile (column df "wt_300d") (1#10)) = true).
    { unfold below_decile. now rewrite andb_true_iff, cell_lt_cell_spec. }
    assert (Hh : below_decile "health_score" df r
                <-> has_column df "health_score"
                    && cell_lt_cell (r "health_score")
                                    (quantile (column df "health_score") (1#10)) = true).
    { unfold below_decile. now rewrite andb_true_iff, cell_lt_cell_spec. }
    assert (P : poor_reproduction df r
                <-> has_column df "weaning_rate" && cell_lt (r "weaning_rate") (5#10) = true).
    { unfold poor_reproduction. now rewrite andb_true_iff, cell_lt_spec. }
    revert F W Hh P.
    destruct (has_column df "cull_flag" && cell_eqb (r "cull_flag") 1);
      destruct (has_column df "wt_300d"
                && cell_lt_cell (r "wt_300d") (quantile (column df "wt_300d") (1#10)));
      destruct (has_column df "health_score"
                && cell_lt_cell (r "health_score") (quantile (column df "health_score") (1#10)));
      destruct (has_column df "weaning_rate" && cell_lt (r "weaning_rate") (5#10));
      cbn [animal cull_reasons cull_recommended];
      intros F W Hh P; rewrite F, W, Hh, P;
      (split; [intuition discriminate|]);
      repeat split; intro H; try discriminate H;
      apply contains_sound; vm_compute; reflexivity.
Qed.

(** The scenario of the specification: of 100 animals with the 300-day
    weights 1, ..., 100 the threshold is 10.9, and exactly the ten
    lightest are recommended. *)
Example bottom_decile_of_hundred :
  quantile (column Examples.df_hundred_weights "wt_300d") (1#10) = Some (109#10)
  /\ map cull_recommended (identify_cull_candidates Examples.df_hundred_weights)
     = (repeat true 10 ++ repeat false 90)%list.
Proof. split; vm_compute; reflexivity. Qed.

End Cull.

(* ===================================================================== *)
(** * Standardization within a cohort (processing/standardizer.py) *)
(* ===================================================================== *)

Section Percentile.
Import Pandas Standardizer Spec.

Lemma count_le_filter (valid_values : list Q) (v : Q) :
  count_le valid_values v = count_at_most v valid_values.
Proof.
  unfold count_le, count_at_most.
  assert (G : forall l acc,
             fold_left (fun acc x => if Qle_bool x v then S acc else acc) l acc
             = (acc + List.length (filter (fun x => Qle_bool x v) l))%nat).
  { induction l as [|x l IH]; intro acc; simpl; [lia|].
    rewrite IH. destruct (Qle_bool x v); simpl; lia. }
  apply G.
Qed.

Lemma count_at_most_bound (v : Q) (l : list Q) : (count_at_most v l <= List.length l)%nat.
Proof. unfold count_at_most. apply filter_length_le. Qed.

Lemma count_at_most_mono (v w : Q) (l : list Q) :
  v <= w -> (count_at_most v l <= count_at_most w l)%nat.
Proof.
  intro H. unfold count_at_most. induction l as [|x l IH]; simpl; [lia|].
  destruct (Qle_bool x v) eqn:A.
  - apply Qle_bool_iff in A.
    assert (B : Qle_bool x w = true) by (apply Qle_bool_iff; lra).
    rewrite B. simpl. lia.
  - destruct (Qle_bool x w); simpl; lia.
Qed.

Lemma inject_nat_le (a b : nat) :
  (a <= b)%nat -> inject_Z (Z.of_nat a) <= inject_Z (Z.of_nat b).
Proof. intro H. rewrite <- Zle_Qle. lia. Qed.

Lemma inject_nat_pos (n : nat) : (0 < n)%nat -> 0 < inject_Z (Z.of_nat n).
Proof. intro H. change 0 with (inject_Z 0). rewrite <- Zlt_Qlt. lia. Qed.

(** The percentile of a count among [n] values, as the source computes it. *)
Lemma percent_mono (a b n : nat) :
  (0 < n)%nat -> (a <= b)%nat ->
  inject_Z (Z.of_nat a) / inject_Z (Z.of_nat n) * 100
  <= inject_Z (Z.of_nat b) / inject_Z (Z.of_nat n) * 100.
Proof.
  intros Hn Hab.
  apply Qmult_le_compat_r; [|lra].
  unfold Qdiv. apply Qmult_le_compat_r; [now apply inject_nat_le|].
  apply Qlt_le_weak, Qinv_lt_0_compat. now apply inject_nat_pos.
Qed.

Lemma percent_full (n : nat) :
  (0 < n)%nat -> inject_Z (Z.of_nat n) / inject_Z (Z.of_nat n) * 100 == 100.
Proof.
  intro Hn. pose proof (inject_nat_pos n Hn) as Hp. field. lra.
Qed.

Lemma percent_zero (n : nat) :
  inject_Z (Z.of_nat 0) / inject_Z (Z.of_nat n) * 100 == 0.
Proof. unfold Qdiv. change (inject_Z (Z.of_nat 0)) with 0. ring. Qed.

Lemma nth_error_percentile (values : Series) (valid_values : list Q) (i : nat) (v : Q) :
  nth_error values i = Some (Some v) ->
  nth_error (_percentile_standardize values valid_values) i
  = Some (Some (inject_Z (Z.of_nat (count_le valid_values v))
                / inject_Z (Z.of_nat (List.length valid_values)) * 100)).
Proof.
  intro H. unfold _percentile_standardize.
  rewrite (map_nth_error _ i values H). reflexivity.
Qed.

(** C3: with at least two recorded values in the cohort, percentile
    standardization returns a series aligned with the input in which
    every animal with a value [v] gets (number of recorded values at most
    [v]) / (number of recorded values) x 100.  That value lies in
    [0, 100]; it does not decrease when the raw value increases, and
    equal raw values get equal percentiles. *)
Theorem percentile_standardize_properties (np_sum : list Float64.float -> Float64.float)
    (values : Series) :
  (2 <= List.length (dropna values))%nat ->
  exists out,
    _standardize_trait np_sum "percentile" values = inr out
    /\ List.length out = List.length values
    /\ (forall i v,
          nth_error values i = Some (Some v) ->
          exists p,
            nth_error out i = Some (Some p)
            /\ p == inject_Z (Z.of_nat (count_at_most v (dropna values)))
                    / inject_Z (Z.of_nat (List.length (dropna values))) * 100
            /\ 0 <= p /\ p <= 100)
    /\ (forall i j v w p q,
          nth_error values i = Some (Some v) ->
          nth_error values j = Some (Some w) ->
          nth_error out i = Some (Some p) ->
          nth_error out j = Some (Some q) ->
          (v <= w -> p <= q) /\ (v == w -> p == q)).
Proof.
  intro Hn. unfold _standardize_trait.
  assert (Hlt : (List.length (dropna values) <? 2)%nat = false) by (apply Nat.ltb_ge; lia).
  rewrite Hlt. cbn [String.eqb Ascii.eqb Bool.eqb].
  eexists. split; [reflexivity|]. split; [apply length_map|].
  set (valid := dropna values) in *.
  assert (Hpos : (0 < List.length valid)%nat) by lia.
  split.
  - intros i v Hi. eexists. split; [apply nth_error_percentile; exact Hi|].
    rewrite count_le_filter. split; [reflexivity|]. split.
    + eapply Qle_trans; [|apply (percent_mono 0); [exact Hpos | lia]].
      rewrite percent_zero. apply Qle_refl.
    + eapply Qle_trans; [apply percent_mono; [exact Hpos | apply count_at_most_bound]|].
      rewrite (percent_full _ Hpos). apply Qle_refl.
  - intros i j v w p q Hi Hj Hp Hq.
    rewrite (nth_error_percentile values valid i v Hi) in Hp.
    rewrite (nth_error_percentile values valid j w Hj) in Hq.
    injection Hp as <-. injection Hq as <-. rewrite !count_le_filter.
    assert (Hm : forall a b, a <= b ->
                   inject_Z (Z.of_nat (count_at_most a valid))
                   / inject_Z (Z.of_nat (List.length valid)) * 100
                   <= inject_Z (Z.of_nat (count_at_most b valid))
                      / inject_Z (Z.of_nat (List.length valid)) * 100).
    { intros a b Hab. apply percent_mono; [exact Hpos | now apply count_at_most_mono]. }
    split.
    + apply Hm.
    + intro E. apply Qle_antisym; apply Hm; rewrite E; apply Qle_refl.
Qed.

Lemma percentile_standardize_properties_witness :
  exists out,
    _standardize_trait Float64.sum "percentile" Examples.cohort_with_tie = inr out
    /\ List.length out = 4%nat
    /\ nth_error out 0 = Some (Some (200#3))
    /\ nth_error out 3 = Some (Some (200#3))
    /\ exists p, nth_error out 2 = Some (Some p) /\ p == 100.
Proof.
  destruct (percentile_standardize_properties Float64.sum Examples.cohort_with_tie)
    as [out [Hout [Hlen _]]].
  - simpl. lia.
  - exists out. split; [exact Hout|]. split; [exact Hlen|].
    vm_compute in Hout. injection Hout as <-.
    split; [reflexivity|]. split; [reflexivity|].
    eexists. split; reflexivity.
Defined.

End Percentile.

Section ZScoreIdenticalValues.
Import Pandas Standardizer Spec.

(** The guard of [_zscore_standardize]: where the standard deviation
    computes to 0, every row gets 0, a row without a value included. *)
Lemma zscore_std_zero (np_sum : list Float64.float -> Float64.float) (values : Series) :
  (2 <= List.length (dropna values))%nat ->
  PrimFloat.eqb (std np_sum (map Float64.of_Q (dropna values))) (Float64.of_Z 0) = true ->
  _standardize_trait np_sum "zscore" values = inr (map (fun _ => Some 0) values).
Proof.
  intros Hn Hz. unfold _standardize_trait.
  assert (Hlt : (List.length (dropna values) <? 2)%nat = false) by (apply Nat.ltb_ge; lia).
  rewrite Hlt. cbn [String.eqb Ascii.eqb Bool.eqb].
  unfold _zscore_standardize. now rewrite Hz.
Qed.

(** Identical values whose mean is computed exactly: the deviations are
    0 and so is the standard deviation. *)
Example zscore_identical_values_exact :
  _standardize_trait Float64.sum "zscore" [Some 2; Some 2; None; Some 2]
  = inr [Some 0; Some 0; Some 0; Some 0].
Proof. reflexivity. Qed.

(** The doubles of the cohort [0.1, 0.1, NaN, 0.1]: the sum of the three
    values is rounded, the mean is the next double above 0.1, and the
    standard deviation is about 1.7e-17, not 0. *)
Example cohort_constant_mean_std :
  let doubles := map Float64.of_Q (dropna Examples.cohort_constant) in
  Float64.to_cell (mean Float64.sum doubles)
  = Some (7205759403792795 # 72057594037927936)
  /\ Float64.to_cell (Float64.of_Q (1#10)) = Some (3602879701896397 # 36028797018963968)
  /\ Float64.to_cell (std Float64.sum doubles)
     = Some (2757880273211543 # 162259276829213363391578010288128)
  /\ PrimFloat.eqb (std Float64.sum doubles) (Float64.of_Z 0) = false.
Proof. repeat split; reflexivity. Qed.

(** C7 (the code departs from it): in a cohort whose three recorded
    values are all 0.1, z-score standardization gives every animal with a
    value about -0.8165 instead of 0: the mean of the three doubles is
    rounded away from 0.1, the standard deviation is not 0, and the test
    [std_val == 0] is false. *)
Theorem zscore_identical_values_not_zero :
  Forall (fun v => v = 1#10) (dropna Examples.cohort_constant)
  /\ _standardize_trait Float64.sum "zscore" Examples.cohort_constant
     = inr [Some (-7354347395230783 # 9007199254740992);
            Some (-7354347395230783 # 9007199254740992);
            None;
            Some (-7354347395230783 # 9007199254740992)]
  /\ ~ identical_values_give_zero Float64.sum Examples.cohort_constant.
Proof.
  split; [repeat constructor|].
  assert (E : _standardize_trait Float64.sum "zscore" Examples.cohort_constant
              = inr [Some (-7354347395230783 # 9007199254740992);
                     Some (-7354347395230783 # 9007199254740992);
                     None;
                     Some (-7354347395230783 # 9007199254740992)])
    by (vm_compute; reflexivity).
  split; [exact E|].
  intro H. specialize (H (1#10)). rewrite E in H.
  assert (Hn : (2 <= List.length (dropna Examples.cohort_constant))%nat) by (simpl; lia).
  specialize (H Hn ltac:(repeat constructor)). discriminate H.
Qed.

End ZScoreIdenticalValues.

(* ===================================================================== *)
(** * Contemporary groups (processing/grouping.py) *)
(* ===================================================================== *)

Section ContemporaryGroups.
Import Grouping Spec.

Lemma keys_set {V} (d : PyDict.dict V) (k k' : string) (v : V) :
  In k (PyDict.keys (PyDict.set d k' v)) -> In k (PyDict.keys d) \/ k = k'.
Proof.
  induction d as [|[k0 v0] d IH]; simpl.
  - intros [<-|[]]. now right.
  - destruct (String.eqb k0 k'); simpl; intros [<-|H]; auto.
    destruct (IH H); auto.
Qed.

Lemma In_insert_by_date (a b : Animal) (l : list Animal) :
  In a (insert_by_date b l) -> a = b \/ In a l.
Proof.
  induction l as [|c l IH]; simpl.
  - intros [<-|[]]. now left.
  - destruct (date_leb (birth_date b) (birth_date c)); simpl.
    + intros [<-|H]; auto.
    + intros [<-|H]; auto. destruct (IH H); auto.
Qed.

Lemma In_sort_values (a : Animal) (l : list Animal) :
  In a (sort_values l) -> In a l.
Proof.
  induction l as [|b l IH]; simpl; [tauto|].
  intro H. apply In_insert_by_date in H. destruct H as [->|H]; auto.
Qed.

Lemma keys_window_step (window_days : Z) (st : PyDict.dict string * nat * option (option Z))
    (row : Animal) (k : string) :
  In k (PyDict.keys (fst (fst (window_step window_days st row)))) ->
  In k (PyDict.keys (fst (fst st))) \/ k = animal_id row.
Proof.
  destruct st as [[d n] start]. unfold window_step.
  destruct start as [s|]; [destruct (within_window window_days (birth_date row) s)|];
    simpl; apply keys_set.
Qed.

(** Every key of the dictionary of a management group is the identifier
    of an animal of that group. *)
Lemma keys_group_by_birth_window (window_days : Z) (has_birth_date : bool)
    (group_df : list Animal) (k : string) :
  In k (PyDict.keys (_group_by_birth_window window_days has_birth_date group_df)) ->
  exists a, In a group_df /\ animal_id a = k.
Proof.
  unfold _group_by_birth_window. destruct group_df as [|a0 l0]; [intros []|].
  destruct (negb has_birth_date); [intros []|].
  assert (G : forall rows st,
             In k (PyDict.keys (fst (fst (fold_left (window_step window_days) rows st)))) ->
             In k (PyDict.keys (fst (fst st))) \/ exists a, In a rows /\ animal_id a = k).
  { induction rows as [|r rows IH]; intros st H; simpl in H; [now left|].
    destruct (IH _ H) as [H1|[a [Ha Hk]]].
    - apply keys_window_step in H1. destruct H1 as [H1 | ->]; [now left|].
      right. exists r. split; [now left | reflexivity].
    - right. exists a. split; [now right | exact Hk]. }
  intro H. destruct (G _ _ H) as [[]|[a [Ha Hk]]].
  exists a. split; [now apply In_sort_values | exact Hk].
Qed.

Lemma NoDup_map_inj {A B} (f : A -> B) (l : list A) (a b : A) :
  NoDup (map f l) -> In a l -> In b l -> f a = f b -> a = b.
Proof.
  induction l as [|x l IH]; intros Hnd Ha Hb E; [contradiction|].
  simpl in Hnd. inversion Hnd as [|? ? Hx Hnd']; subst.
  destruct Ha as [->|Ha], Hb as [->|Hb]; auto.
  - exfalso. apply Hx. rewrite E. now apply in_map.
  - exfalso. apply Hx. rewrite <- E. now apply in_map.
Qed.

Lemma set_group_invariant (df : list Animal) (out : list Grouped) (id label : string) :
  NoDup (map animal_id df) ->
  (exists a m, In a df /\ animal_id a = id /\ mgmt_group a = Some m) ->
  grouping_invariant df out ->
  grouping_invariant df (set_group id label out).
Proof.
  intros Hnd [a [m [Ha [Hid Hm]]]] [Hrec Hnone]. unfold set_group. split.
  - rewrite map_map. rewrite <- Hrec. apply map_ext. intro g.
    destruct (String.eqb (animal_id (record g)) id); reflexivity.
  - intros g Hg Hmg. apply in_map_iff in Hg. destruct Hg as [g0 [<- Hg0]].
    destruct (String.eqb (animal_id (record g0)) id) eqn:E.
    + exfalso. apply String.eqb_eq in E. simpl in Hmg.
      assert (Hin : In (record g0) df) by (rewrite <- Hrec; now apply in_map).
      assert (record g0 = a)
        by (apply (NoDup_map_inj animal_id df); auto; congruence).
      congruence.
    + now apply Hnone.
Qed.

(** C6 (amended): on records with distinct identifiers,
    [create_contemporary_groups] returns the input records in their
    order, each with its cohort, whatever birth dates are missing; an
    animal without a management group has no cohort. *)
Theorem no_management_group_no_cohort (window_days : Z) (has_birth_date : bool)
    (df : list Animal) :
  NoDup (map animal_id df) ->
  let out := create_contemporary_groups window_days has_birth_date df in
  map record out = df
  /\ forall g, In g out -> mgmt_group (record g) = None -> contemporary_group g = None.
Proof.
  intros Hnd out. subst out. unfold create_contemporary_groups.
  change (grouping_invariant df
            (fold_left
               (fun (df0 : list Grouped) (mgmt : option string) =>
                  let group_df :=
                    filter (fun a => opt_string_eqb (mgmt_group a) mgmt) (map record df0) in
                  if negb has_birth_date then df0
                  else fold_left (fun df1 item => set_group (fst item) (snd item) df1)
                         (PyDict.items
                            (_group_by_birth_window window_days has_birth_date group_df))
                         df0)
               (unique (map mgmt_group df)) (map (fun a => mkGrouped a None) df))).
  assert (H0 : grouping_invariant df (map (fun a => mkGrouped a None) df)).
  { split.
    - rewrite map_map. simpl. apply map_id.
    - intros g Hg _. apply in_map_iff in Hg. now destruct Hg as [a [<- _]]. }
  revert H0. generalize (map (fun a => mkGrouped a None) df).
  induction (unique (map mgmt_group df)) as [|mgmt mgmts IH]; intros out H0; simpl;
    [exact H0|].
  apply IH. destruct (negb has_birth_date); [exact H0|].
  destruct H0 as [Hrec Hnone]. rewrite Hrec.
  set (d := _group_by_birth_window window_days has_birth_date
              (filter (fun a => opt_string_eqb (mgmt_group a) mgmt) df)).
  assert (Hkeys : forall k, In k (PyDict.keys d) ->
                            exists a m, In a df /\ animal_id a = k /\ mgmt_group a = Some m).
  { intros k Hk. apply keys_group_by_birth_window in Hk. destruct Hk as [a [Ha Hid]].
    apply filter_In in Ha. destruct Ha as [Ha Hm].
    destruct (mgmt_group a) as [m|] eqn:Em; [|discriminate].
    exists a, m. auto. }
  assert (Hout : grouping_invariant df out) by (split; assumption).
  clear Hrec Hnone. clearbody d. revert out Hout.
  unfold PyDict.items. induction d as [|[k v] d IHd]; intros out Hout; simpl; [exact Hout|].
  apply IHd.
  - intros k' Hk'. apply Hkeys. now right.
  - apply set_group_invariant; [exact Hnd | apply Hkeys; now left | exact Hout].
Qed.

Lemma no_management_group_no_cohort_witness :
  map record (create_contemporary_groups 30 true Examples.mob_with_gaps)
  = Examples.mob_with_gaps
  /\ forall g,
       In g (create_contemporary_groups 30 true Examples.mob_with_gaps) ->
       mgmt_group (record g) = None -> contemporary_group g = None.
Proof.
  apply (no_management_group_no_cohort 30 true Examples.mob_with_gaps).
  simpl. repeat constructor; simpl; intuition discriminate.
Defined.

(** C6, as the specification states it, fails: the animal [A2] has no
    birth date and is put into a cohort of its own, [MOB1_G3]. *)
Lemma missing_data_excluded_fails :
  ~ missing_data_excluded 30 true Examples.mob_with_gaps.
Proof.
  intro H.
  specialize (H (mkGrouped (mkAnimal "A2" (Some "MOB1") None) (Some "MOB1_G3"))).
  assert (Hc : Some "MOB1_G3" = None); [|discriminate Hc].
  apply H.
  - vm_compute. right. left. reflexivity.
  - right. reflexivity.
Qed.

End ContemporaryGroups.
(* ===================================================================== *)
(** * More on standardization (processing/standardizer.py) *)
(* ===================================================================== *)

Section StandardizeTrait.
Import Pandas Standardizer Spec.

(** The z-score method returns a series as long as the input. *)
Lemma zscore_length (np_sum : list Float64.float -> Float64.float) (values : Series)
    (valid_values : list Q) :
  List.length (_zscore_standardize np_sum values valid_values) = List.length values.
Proof.
  unfold _zscore_standardize. destruct (PrimFloat.eqb _ _); apply length_map.
Qed.

(** X1. [_standardize_trait] fails exactly when the cohort has at least
    two recorded values and the method name is neither [percentile] nor
    [zscore]; the error then carries the name, and there is no other
    error.  With fewer than two recorded values every animal gets [NaN]
    whatever the method name: the name is looked at only afterwards.  A
    series that is returned is as long as the input. *)
Theorem standardize_trait_outcomes (np_sum : list Float64.float -> Float64.float)
    (method : string) (values : Series) :
  (_standardize_trait np_sum method values = inl (UnknownMethod method)
   <-> (2 <= List.length (dropna values))%nat
       /\ method <> "percentile" /\ method <> "zscore")
  /\ (forall e, _standardize_trait np_sum method values = inl e -> e = UnknownMethod method)
  /\ ((List.length (dropna values) < 2)%nat ->
      _standardize_trait np_sum method values = inr (map (fun _ => None) values))
  /\ (forall out, _standardize_trait np_sum method values = inr out ->
                  List.length out = List.length values).
Proof.
  unfold _standardize_trait.
  destruct (List.length (dropna values) <? 2)%nat eqn:E.
  - apply Nat.ltb_lt in E. split; [split; [discriminate | intros [H _]; lia]|].
    split; [discriminate|]. split; [reflexivity|].
    intros out H. injection H as <-. apply length_map.
  - apply Nat.ltb_ge in E.
    destruct (String.eqb_spec method "percentile") as [Ep|Ep].
    + split; [split; [discriminate | intros [_ [H _]]; contradiction]|].
      split; [discriminate|]. split; [lia|].
      intros out H. injection H as <-. apply length_map.
    + destruct (String.eqb_spec method "zscore") as [Ez|Ez].
      * split; [split; [discriminate | intros [_ [_ H]]; contradiction]|].
        split; [discriminate|]. split; [lia|].
        intros out H. injection H as <-. apply zscore_length.
      * split; [split; [auto | reflexivity]|].
        split; [intros e H; now injection H as <-|]. split; [lia | discriminate].
Qed.

Lemma count_at_most_all (v : Q) (l : list Q) :
  (forall x, In x l -> x <= v) -> count_at_most v l = List.length l.
Proof.
  intro H. unfold count_at_most. induction l as [|x l IH]; simpl; [reflexivity|].
  assert (E : Qle_bool x v = true) by (apply Qle_bool_iff, H; now left).
  rewrite E. simpl. f_equal. apply IH. intros y Hy. apply H. now right.
Qed.

Lemma count_at_most_self (v : Q) (l : list Q) :
  In v l -> (1 <= count_at_most v l)%nat.
Proof.
  intro H. unfold count_at_most. induction l as [|x l IH]; [contradiction|]. simpl.
  destruct H as [->|H].
  - assert (E : Qle_bool v v = true) by (apply Qle_bool_iff, Qle_refl).
    rewrite E. simpl. lia.
  - specialize (IH H). destruct (Qle_bool x v); simpl; lia.
Qed.

(** X3. Percentile standardization of a cohort with at least two recorded
    values: an animal without a value stays without one, no animal gets
    the percentile 0, and an animal holding the cohort's largest value
    gets exactly 100. *)
Theorem percentile_extremes (np_sum : list Float64.float -> Float64.float)
    (values : Series) :
  (2 <= List.length (dropna values))%nat ->
  exists out,
    _standardize_trait np_sum "percentile" values = inr out
    /\ (forall i, nth_error values i = Some None -> nth_error out i = Some None)
    /\ (forall i v, nth_error values i = Some (Some v) ->
                    exists p, nth_error out i = Some (Some p)
                              /\ 0 < p
                              /\ ((forall x, In x (dropna values) -> x <= v) -> p == 100)).
Proof.
  intro Hn. unfold _standardize_trait.
  assert (Hlt : (List.length (dropna values) <? 2)%nat = false) by (apply Nat.ltb_ge; lia).
  rewrite Hlt. cbn [String.eqb Ascii.eqb Bool.eqb].
  eexists. split; [reflexivity|].
  set (valid := dropna values) in *.
  assert (Hpos : (0 < List.length valid)%nat) by lia.
  split.
  - intros i Hi. unfold _percentile_standardize.
    now rewrite (map_nth_error _ i values Hi).
  - intros i v Hi. eexists. split; [apply nth_error_percentile; exact Hi|].
    rewrite count_le_filter.
    assert (Hin : In v valid).
    { apply In_dropna. eapply nth_error_In. exact Hi. }
    split.
    + apply Qlt_le_trans with (inject_Z (Z.of_nat 1) / inject_Z (Z.of_nat (List.length valid)) * 100).
      * apply Qmult_lt_0_compat; [|reflexivity].
        apply Qlt_shift_div_l; [now apply inject_nat_pos|].
        rewrite Qmult_0_l. reflexivity.
      * apply percent_mono; [exact Hpos | now apply count_at_most_self].
    + intro Hmax. rewrite (count_at_most_all v valid Hmax).
      now apply percent_full.
Qed.

Lemma percentile_extremes_witness :
  exists out,
    _standardize_trait Float64.sum "percentile" Examples.cohort_with_tie = inr out
    /\ nth_error out 1 = Some None.
Proof.
  destruct (percentile_extremes Float64.sum Examples.cohort_with_tie) as [out [Hout [Hnan _]]].
  - simpl. lia.
  - exists out. split; [exact Hout|]. apply Hnan. reflexivity.
Defined.

End StandardizeTrait.

(* ===================================================================== *)
(** * More on filtering (scoring/filters.py) *)
(* ===================================================================== *)

Section FiltersMore.
Import Pandas Models Filters SoftFilters Spec SpecMore.

Ltac rows_kept :=
  let r := fresh "r" in
  intro r;
  repeat match goal with
         | |- context [if ?b then _ else _] => destruct b
         end; reflexivity.

(** X4. An animal that is not recommended for culling has no reason text,
    and an animal that is recommended has one: the two added columns
    agree on every row. *)
Theorem cull_reasons_empty_iff (df : DataFrame) :
  Forall (fun c => cull_recommended c = false <-> cull_reasons c = "")
         (identify_cull_candidates df).
Proof.
  unfold identify_cull_candidates. cbv zeta.
  rewrite !flag_rows_guard.
  rewrite flag_rows_map by rows_kept.
  rewrite flag_rows_map by rows_kept.
  rewrite flag_rows_map by rows_kept.
  rewrite flag_rows_map by rows_kept.
  rewrite !map_map.
  apply Forall_forall. intros c Hc. apply in_map_iff in Hc. destruct Hc as [r [<- _]].
  destruct (has_column df "cull_flag" && cell_eqb (r "cull_flag") 1);
    destruct (has_column df "wt_300d"
              && cell_lt_cell (r "wt_300d") (quantile (column df "wt_300d") (1#10)));
    destruct (has_column df "health_score"
              && cell_lt_cell (r "health_score") (quantile (column df "health_score") (1#10)));
    destruct (has_column df "weaning_rate" && cell_lt (r "weaning_rate") (5#10));
    cbn [animal cull_reasons cull_recommended];
    split; intro H; try discriminate H; try reflexivity;
    vm_compute in H; discriminate H.
Qed.

Lemma filter_length_kept (kept : Row -> bool) (rs : list Row) :
  (List.length (filter kept rs) + count_if (fun r => negb (kept r)) rs = List.length rs)%nat.
Proof.
  unfold count_if. induction rs as [|r rs IH]; simpl; [reflexivity|].
  destruct (kept r); simpl; lia.
Qed.

(** A count is covered by two others when each of its rows is in one of
    them. *)
Lemma count_if_cover (p q1 q2 : Row -> bool) (rs : list Row) :
  (forall r, In r rs -> p r = true -> q1 r = true \/ q2 r = true) ->
  (count_if p rs <= count_if q1 rs + count_if q2 rs)%nat.
Proof.
  unfold count_if. induction rs as [|r rs IH]; intro H; simpl; [lia|].
  assert (IH' := IH (fun r' Hin => H r' (or_intror Hin))).
  pose proof (H r (or_introl eq_refl)) as Hr.
  destruct (p r), (q1 r), (q2 r); simpl;
    first [lia | destruct (Hr eq_refl); discriminate].
Qed.

Lemma count_if_le (p q : Row -> bool) (rs : list Row) :
  (forall r, In r rs -> p r = true -> q r = true) ->
  (count_if p rs <= count_if q rs)%nat.
Proof.
  unfold count_if. induction rs as [|r rs IH]; intro H; simpl; [lia|].
  assert (IH' := IH (fun r' Hin => H r' (or_intror Hin))).
  pose proof (H r (or_introl eq_refl)) as Hr.
  destruct (p r), (q r); simpl; first [lia | discriminate (Hr eq_refl)].
Qed.

Lemma count_if_none (rs : list Row) : count_if (fun _ => false) rs = 0%nat.
Proof. unfold count_if. induction rs; simpl; auto. Qed.

Lemma sum_counts_app (d : PyDict.dict nat) (k : string) (v : nat) :
  sum_counts (d ++ [(k, v)])%list = (sum_counts d + v)%nat.
Proof.
  unfold sum_counts, PyDict.values. induction d as [|[k' v'] d IH]; simpl; [lia|].
  rewrite IH. lia.
Qed.

(** One block keeps the accounting. *)
Lemma filter_block_accounting (df : DataFrame) (enabled : bool) (col name : string)
    (mask : Row -> mask_cell) (st : DataFrame * FilterResults) (kept nas : Row -> bool)
    (done_ : list string) :
  ~ In name done_ ->
  accounting df done_ kept nas st ->
  accounting df (name :: done_)
             (fun r => kept r && (negb (enabled && has_column df col) || meets df mask r))
             (fun r => nas r || removed_as_na df (enabled, col, mask) r)
             (filter_block df enabled col name mask st).
Proof.
  intros Hfresh [Hrows [Horig [Hcount [Hkeys [Hdone Hpos]]]]].
  destruct st as [filtered_df res]. simpl in *.
  unfold accounting.
  unfold filter_block, removed_as_na.
  destruct (enabled && has_column df col) eqn:Eon; cbn [andb negb orb fst snd].
  - rewrite count_false_some_fails. destruct (some_fails df mask) eqn:E; cbn [fst snd andb].
    + assert (Hnew : ~ In name (PyDict.keys (animals_removed res)))
        by (intro Hin; apply Hfresh; now apply Hdone).
      cbn [original_count animals_removed filters_applied].
      rewrite (set_fresh _ _ _ Hnew).
      split.
      { cbn [rows select]. rewrite Hrows, filter_filter_and. apply filter_ext. intro r.
        now rewrite (meets_applied df mask r E). }
      split; [exact Horig|]. split.
      { rewrite sum_counts_app.
        pose proof (count_if_cover
                      (fun r => negb (kept r && meets df mask r)
                                && negb (nas r || is_na (mask r)))
                      (fun r => negb (kept r) && negb (nas r))
                      (fun r => is_false (mask r)) (rows df)) as Hc.
        unfold count_false. fold (count_if (fun r => is_false (mask r)) (rows df)).
        etransitivity; [apply Hc|apply Nat.add_le_mono_r; exact Hcount].
        intros r _. rewrite (meets_applied df mask r E).
        destruct (kept r), (nas r), (mask r) as [[|]|]; simpl; auto; discriminate. }
      split.
      { unfold PyDict.keys in *. rewrite map_app. simpl. now rewrite Hkeys. }
      split.
      { intros k Hk. unfold PyDict.keys in Hk. rewrite map_app in Hk.
        apply in_app_or in Hk. destruct Hk as [Hk|[<-|[]]]; [right; now apply Hdone | now left]. }
      apply Forall_app. split; [exact Hpos|]. constructor; [|constructor].
      simpl. unfold some_fails in E. clear - E.
      unfold count_false. induction (rows df) as [|r rs IH]; [discriminate|].
      simpl in *. destruct (is_false (mask r)); simpl; [lia | now apply IH].
    + split.
      { rewrite Hrows. apply filter_ext_in. intros r Hr.
        now rewrite (meets_not_applied df mask r E Hr), andb_true_r. }
      split; [exact Horig|]. split.
      { etransitivity; [|exact Hcount]. apply count_if_le. intros r Hr.
        rewrite (meets_not_applied df mask r E Hr).
        destruct (kept r), (nas r); simpl; auto. }
      split; [exact Hkeys|]. split; [intros k Hk; right; now apply Hdone | exact Hpos].
  - split.
    { rewrite Hrows. apply filter_ext. intro r. now rewrite andb_true_r. }
    split; [exact Horig|]. split.
    { etransitivity; [|exact Hcount]. apply count_if_le. intros r Hr.
      destruct (kept r), (nas r); simpl; auto. }
    split; [exact Hkeys|]. split; [intros k Hk; right; now apply Hdone | exact Hpos].
Qed.

(** A numpy column holds no [pd.NA]. *)
Lemma removed_as_na_float (config : AnalysisConfig) (dtypes : Dtypes) (df : DataFrame) :
  (forall col, dtypes col = false) ->
  na_removals config dtypes df = 0%nat.
Proof.
  intro Hfloat. unfold na_removals. rewrite <- (count_if_none (rows df)).
  unfold count_if. f_equal. apply filter_ext. intro r.
  unfold hard_filters, removed_as_na, col_ge, col_le, col_eqb, compared. cbn [existsb].
  rewrite !Hfloat.
  repeat match goal with
         | |- context [match ?c with Some _ => _ | None => _ end] => destruct c
         end; cbn [is_na]; now rewrite ?andb_false_r.
Qed.

(** X5. The bookkeeping of [apply_hard_filters]: the counts before and after
    add up, the filters listed as applied are exactly those with a
    recorded count, every recorded count is positive, and the recorded
    counts together with the number of animals removed for a [pd.NA],
    which no count records, are at least the number of animals removed
    (each filter is counted on the whole input, so an animal failing two
    filters is counted twice).  On a frame without nullable columns the
    recorded counts alone are at least the number of animals removed. *)
Theorem hard_filter_accounting (config : AnalysisConfig) (dtypes : Dtypes) (df : DataFrame) :
  let out := apply_hard_filters config dtypes df in
  original_count (snd out) = len df
  /\ final_count (snd out) = len (fst out)
  /\ (final_count (snd out) + total_removed (snd out) = original_count (snd out))%nat
  /\ (total_removed (snd out)
      <= sum_counts (animals_removed (snd out)) + na_removals config dtypes df)%nat
  /\ ((forall col, dtypes col = false) ->
      (total_removed (snd out) <= sum_counts (animals_removed (snd out)))%nat)
  /\ PyDict.keys (animals_removed (snd out)) = filters_applied (snd out)
  /\ Forall (fun kv : string * nat => (0 < snd kv)%nat) (animals_removed (snd out)).
Proof.
  cbv zeta.
  assert (Hfloat : (forall col, dtypes col = false) -> na_removals config dtypes df = 0%nat)
    by apply removed_as_na_float.
  revert Hfloat. unfold na_removals, hard_filters. cbn [existsb].
  unfold apply_hard_filters.
  set (st0 := (df, mkFilterResults (len df) [] [] 0 0)).
  assert (A0 : accounting df [] (fun _ => true) (fun _ => false) st0).
  { unfold accounting. simpl. split.
    { clear. induction (rows df) as [|r l IH]; simpl; congruence. }
    split; [reflexivity|]. split.
    { rewrite count_if_none. lia. }
    split; [reflexivity|]. split; [intros k []|constructor]. }
  pose proof (filter_block_accounting df true "wt_birth" "min_birth_weight"
                (col_ge dtypes "wt_birth" (min_birth_weight config)) st0 _ _ []
                (fun H => H) A0) as A1.
  set (st1 := filter_block df true "wt_birth" "min_birth_weight" _ st0) in *.
  pose proof (fun Hf => filter_block_accounting df true "footrot_score" "max_footrot_score"
                (col_le dtypes "footrot_score" (inject_Z (max_footrot_score config)))
                st1 _ _ _ Hf A1) as A2.
  set (st2 := filter_block df true "footrot_score" "max_footrot_score" _ st1) in *.
  specialize (A2 ltac:(simpl; intuition discriminate)).
  pose proof (fun Hf => filter_block_accounting df true "dag_score" "max_dag_score"
                (col_le dtypes "dag_score" (inject_Z (max_dag_score config)))
                st2 _ _ _ Hf A2) as A3.
  set (st3 := filter_block df true "dag_score" "max_dag_score" _ st2) in *.
  specialize (A3 ltac:(simpl; intuition discriminate)).
  pose proof (fun Hf => filter_block_accounting df true "wt_wean" "min_weaning_weight"
                (col_ge dtypes "wt_wean" (min_weaning_weight config))
                st3 _ _ _ Hf A3) as A4.
  set (st4 := filter_block df true "wt_wean" "min_weaning_weight" _ st3) in *.
  specialize (A4 ltac:(simpl; intuition discriminate)).
  pose proof (fun Hf => filter_block_accounting df true "micron" "max_micron"
                (col_le dtypes "micron" (max_micron config))
                st4 _ _ _ Hf A4) as A5.
  set (st5 := filter_block df true "micron" "max_micron" _ st4) in *.
  specialize (A5 ltac:(simpl; intuition discriminate)).
  pose proof (fun Hf => filter_block_accounting df (bse_pass_required config)
                "bse_pass" "bse_pass_required"
                (col_eqb dtypes "bse_pass" 1)
                st5 _ _ _ Hf A5) as A6.
  set (st6 := filter_block df (bse_pass_required config) "bse_pass" "bse_pass_required" _ st5)
    in *.
  specialize (A6 ltac:(simpl; intuition discriminate)).
  match type of A6 with
  | accounting _ _ ?K ?N _ => set (kept6 := K) in A6; set (nas6 := N) in A6
  end.
  assert (Hn : forall r,
             nas6 r
             = (removed_as_na df
                  (true, "wt_birth", col_ge dtypes "wt_birth" (min_birth_weight config)) r
                || (removed_as_na df
                      (true, "footrot_score",
                       col_le dtypes "footrot_score" (inject_Z (max_footrot_score config))) r
                || (removed_as_na df
                      (true, "dag_score",
                       col_le dtypes "dag_score" (inject_Z (max_dag_score config))) r
                || (removed_as_na df
                      (true, "wt_wean",
                       col_ge dtypes "wt_wean" (min_weaning_weight config)) r
                || (removed_as_na df
                      (true, "micron", col_le dtypes "micron" (max_micron config)) r
                || (removed_as_na df
                      (bse_pass_required config, "bse_pass",
                       col_eqb dtypes "bse_pass" 1) r
                || false))))))).
  { intro r. unfold nas6. cbn [orb]. now rewrite orb_false_r, !orb_assoc. }
  clearbody st6 kept6 nas6. clear - A6 Hn. destruct st6 as [filtered_df res].
  destruct A6 as [Hrows [Horig [Hcount [Hkeys [_ Hpos]]]]].
  cbn [fst snd original_count final_count total_removed animals_removed filters_applied] in *.
  unfold len in *. rewrite Hrows in *.
  pose proof (filter_length_kept kept6 (rows df)) as Hlen.
  pose proof (count_if_cover (fun r => negb (kept6 r))
                (fun r => negb (kept6 r) && negb (nas6 r)) nas6 (rows df)) as Hcov.
  assert (Hc : forall r, In r (rows df) -> negb (kept6 r) = true ->
                         negb (kept6 r) && negb (nas6 r) = true \/ nas6 r = true).
  { intros r _. destruct (kept6 r), (nas6 r); simpl; auto. }
  specialize (Hcov Hc).
  assert (Hn' : count_if nas6 (rows df)
                = count_if
                    (fun r =>
                       removed_as_na df
                         (true, "wt_birth", col_ge dtypes "wt_birth" (min_birth_weight config)) r
                       || (removed_as_na df
                             (true, "footrot_score",
                              col_le dtypes "footrot_score"
                                     (inject_Z (max_footrot_score config))) r
                       || (removed_as_na df
                             (true, "dag_score",
                              col_le dtypes "dag_score" (inject_Z (max_dag_score config))) r
                       || (removed_as_na df
                             (true, "wt_wean",
                              col_ge dtypes "wt_wean" (min_weaning_weight config)) r
                       || (removed_as_na df
                             (true, "micron", col_le dtypes "micron" (max_micron config)) r
                       || (removed_as_na df
                             (bse_pass_required config, "bse_pass",
                              col_eqb dtypes "bse_pass" 1) r
                       || false))))))
                    (rows df)).
  { unfold count_if. f_equal. apply filter_ext. exact Hn. }
  rewrite <- Hn'. clear Hn Hn'.
  intro Hfloat.
  repeat split; auto; try lia.
  intro Hf. specialize (Hfloat Hf). lia.
Qed.

Lemma get_set_same {V} (d : PyDict.dict V) (k : string) (v default : V) :
  PyDict.get (PyDict.set d k v) k default = v.
Proof.
  induction d as [|[k' v'] d IH]; simpl.
  - now rewrite String.eqb_refl.
  - destruct (String.eqb k' k) eqn:E; simpl; rewrite E; [reflexivity | exact IH].
Qed.

Lemma get_set_other {V} (d : PyDict.dict V) (k k' : string) (v default : V) :
  String.eqb k k' = false ->
  PyDict.get (PyDict.set d k v) k' default = PyDict.get d k' default.
Proof.
  intro Hne. induction d as [|[k0 v0] d IH]; simpl.
  - now rewrite Hne.
  - destruct (String.eqb k0 k) eqn:E; simpl.
    + apply String.eqb_eq in E. subst k0. now rewrite Hne.
    + now rewrite IH.
Qed.

Lemma length_filter_map {A} (f : A -> bool) (l : list A) :
  List.length (filter (fun b : bool => b) (map f l)) = List.length (filter f l).
Proof.
  induction l as [|x l IH]; simpl; [reflexivity|].
  destruct (f x); simpl; now rewrite IH.
Qed.

(** What one soft-filter block does. *)
Lemma soft_block_spec (config : AnalysisConfig) (df : DataFrame)
    (col flag_col name : string) (thr : Q) (st : DataFrame * SoftFilterResults) :
  len (fst st) = len df ->
  PyDict.get (animals_flagged (snd st)) name 0%nat = 0%nat ->
  let st' := soft_block config df col flag_col name thr st in
  len (fst st') = len df
  /\ (forall c, String.eqb c flag_col = false ->
                column (fst st') c = column (fst st) c
                /\ has_column (fst st') c = has_column (fst st) c)
  /\ (forall k, String.eqb name k = false ->
                PyDict.get (animals_flagged (snd st')) k 0%nat
                = PyDict.get (animals_flagged (snd st)) k 0%nat)
  /\ (if has_column df col
      then column (fst st') flag_col
           = map (fun r => bool_cell (cell_lt (r col) thr)) (rows df)
           /\ PyDict.get (animals_flagged (snd st')) name 0%nat = count_below df col thr
      else st' = st).
Proof.
  destruct st as [fdf res]. simpl. intros Hlen Hget. unfold soft_block, getattr_default.
  destruct (has_column df col); [|repeat split; auto].
  rewrite length_filter_map, map_map.
  assert (Hl : List.length (map (fun r : Row => bool_cell (cell_lt (r col) thr)) (rows df))
               = len fdf) by (rewrite length_map; now rewrite Hlen).
  unfold count_below.
  match goal with
  | |- context [(0 <? ?n)%nat] => destruct (0 <? n)%nat eqn:E
  end; cbn [fst snd animals_flagged].
  - split; [now rewrite len_assign|]. split.
    { intros c Hc. rewrite column_assign by exact Hl. rewrite Hc.
      rewrite has_column_assign, Hc. now rewrite orb_false_r. }
    split; [intros k Hk; now apply get_set_other|].
    split; [|apply get_set_same].
    rewrite column_assign by exact Hl. now rewrite String.eqb_refl.
  - split; [now rewrite len_assign|]. split.
    { intros c Hc. rewrite column_assign by exact Hl. rewrite Hc.
      rewrite has_column_assign, Hc. now rewrite orb_false_r. }
    split; [reflexivity|]. split.
    + rewrite column_assign by exact Hl. now rewrite String.eqb_refl.
    + apply Nat.ltb_ge in E. rewrite Hget. symmetry. apply Nat.le_0_r. exact E.
Qed.

(** What [apply_soft_filters] does to the frame and to its record. *)
Lemma soft_filters_frame (config : AnalysisConfig) (df : DataFrame) :
  let out := apply_soft_filters config df in
  len (fst out) = len df
  /\ (forall c, ~ In c soft_flag_columns ->
                has_column (fst out) c = has_column df c
                /\ column (fst out) c = column df c)
  /\ Forall (fun f : string * string * string * Q =>
               let '(col, flag_col, name, thr) := f in
               if has_column df col
               then column (fst out) flag_col
                    = map (fun r => bool_cell (cell_lt (r col) thr)) (rows df)
                    /\ PyDict.get (animals_flagged (snd out)) name 0%nat
                       = count_below df col thr
               else column (fst out) flag_col = column df flag_col
                    /\ PyDict.get (animals_flagged (snd out)) name 0%nat = 0%nat)
            soft_filters.
Proof.
  unfold apply_soft_filters.
  set (st0 := (df, mkSoftFilterResults [] [])).
  destruct (soft_block_spec config df "wt_200d" "soft_filter_200d" "min_200d_weight" 40 st0
              eq_refl eq_refl) as [L1 [C1 [G1 V1]]].
  set (st1 := soft_block config df "wt_200d" "soft_filter_200d" "min_200d_weight" 40 st0) in *.
  destruct (soft_block_spec config df "wt_300d" "soft_filter_300d" "min_300d_weight" 50 st1 L1)
    as [L2 [C2 [G2 V2]]].
  { rewrite G1 by reflexivity. reflexivity. }
  set (st2 := soft_block config df "wt_300d" "soft_filter_300d" "min_300d_weight" 50 st1) in *.
  destruct (soft_block_spec config df "weaning_rate" "soft_filter_weaning" "min_weaning_rate"
              (5#10) st2 L2) as [L3 [C3 [G3 V3]]].
  { rewrite G2, G1 by reflexivity. reflexivity. }
  set (st3 := soft_block config df "weaning_rate" "soft_filter_weaning" "min_weaning_rate"
                (5#10) st2) in *.
  cbv zeta. split; [exact L3|]. split.
  - intros c Hc.
    assert (H1 : String.eqb c "soft_filter_200d" = false
                 /\ String.eqb c "soft_filter_300d" = false
                 /\ String.eqb c "soft_filter_weaning" = false).
    { unfold soft_flag_columns in Hc. simpl in Hc.
      repeat split; apply String.eqb_neq; intro E; apply Hc; subst; tauto. }
    destruct H1 as [E1 [E2 E3]].
    destruct (C3 c E3) as [K3 H3], (C2 c E2) as [K2 H2], (C1 c E1) as [K1 H1].
    split; [now rewrite H3, H2, H1 | now rewrite K3, K2, K1].
  - pose proof (proj1 (C3 "soft_filter_200d" eq_refl)) as K31.
    pose proof (proj1 (C2 "soft_filter_200d" eq_refl)) as K21.
    pose proof (proj1 (C3 "soft_filter_300d" eq_refl)) as K32.
    pose proof (proj1 (C1 "soft_filter_300d" eq_refl)) as K12.
    pose proof (proj1 (C2 "soft_filter_weaning" eq_refl)) as K23.
    pose proof (proj1 (C1 "soft_filter_weaning" eq_refl)) as K13.
    pose proof (G3 "min_200d_weight" eq_refl) as G31.
    pose proof (G2 "min_200d_weight" eq_refl) as G21.
    pose proof (G3 "min_300d_weight" eq_refl) as G32.
    pose proof (G1 "min_300d_weight" eq_refl) as G12.
    pose proof (G2 "min_weaning_rate" eq_refl) as G23.
    pose proof (G1 "min_weaning_rate" eq_refl) as G13.
    unfold soft_filters. repeat apply Forall_cons; try apply Forall_nil.
    + destruct (has_column df "wt_200d").
      * destruct V1 as [Vc Vg]. split; [now rewrite K31, K21 | now rewrite G31, G21].
      * rewrite K31, K21, G31, G21, V1. split; reflexivity.
    + destruct (has_column df "wt_300d").
      * destruct V2 as [Vc Vg]. split; [now rewrite K32 | now rewrite G32].
      * rewrite K32, G32, V2, K12, G12. split; reflexivity.
    + destruct (has_column df "weaning_rate").
      * exact V3.
      * rewrite V3, K23, G23, K13, G13. split; reflexivity.
Qed.

(** X6. Soft filters only flag: the frame keeps its rows and every column
    other than the three flag columns.  For a soft filter whose column
    is in the frame, the flag of an animal is 1 exactly when its value is
    below the threshold (40 kg at 200 days, 50 kg at 300 days, a weaning
    rate of 0.5) and 0 otherwise, a missing value included, and the count
    recorded under the filter's name is the number of flagged animals (no
    entry when it is 0).  A filter whose column is absent writes nothing.
    The thresholds are the same for every configuration. *)
Theorem soft_filters_flag_only (config : AnalysisConfig) (df : DataFrame) :
  let out := apply_soft_filters config df in
  len (fst out) = len df
  /\ (forall c, ~ In c soft_flag_columns ->
                has_column (fst out) c = has_column df c
                /\ column (fst out) c = column df c)
  /\ Forall (fun f : string * string * string * Q =>
               let '(col, flag_col, name, thr) := f in
               if has_column df col
               then column (fst out) flag_col
                    = map (fun r => bool_cell (cell_lt (r col) thr)) (rows df)
                    /\ PyDict.get (animals_flagged (snd out)) name 0%nat
                       = count_below df col thr
               else column (fst out) flag_col = column df flag_col
                    /\ PyDict.get (animals_flagged (snd out)) name 0%nat = 0%nat)
            soft_filters.
Proof. apply soft_filters_frame. Qed.

End FiltersMore.

(* ===================================================================== *)
(** * More on scoring and ranking (scoring/ranker.py) *)
(* ===================================================================== *)

Section RankerMore.
Import Pandas Models Ranker Rams Spec SpecMore.

Lemma weighted_sum_bounds (r : Row) (lo hi : Q) (active : list (string * Q)) :
  Forall (fun w => 0 < w) (map snd active) ->
  (forall cw, In cw active ->
              lo <= value_or_0 (r (score_column (fst cw)))
              /\ value_or_0 (r (score_column (fst cw))) <= hi) ->
  lo * Qsum (map snd active)
  <= Qsum (map (fun cw => snd cw * value_or_0 (r (score_column (fst cw)))) active)
  /\ Qsum (map (fun cw => snd cw * value_or_0 (r (score_column (fst cw)))) active)
     <= hi * Qsum (map snd active).
Proof.
  induction active as [|[c w] active IH]; intros Hpos Hin.
  - unfold Qsum. simpl. split; lra.
  - cbn [map fst snd] in *. inversion Hpos as [|? ? Hw Hpos']; subst.
    destruct (IH Hpos' (fun cw H => Hin cw (or_intror H))) as [IHlo IHhi].
    destruct (Hin (c, w) (or_introl eq_refl)) as [Hlo Hhi]. cbn [fst snd] in *.
    rewrite !Qsum_cons. set (x := value_or_0 (r (score_column c))) in *.
    split; nra.
Qed.

(** The weighted mean of an animal's category scores lies between the
    bounds of those scores. *)
Lemma weighted_mean_bounds (r : Row) (lo hi : Q) (active : list (string * Q)) :
  active <> [] ->
  Forall (fun w => 0 < w) (map snd active) ->
  (forall cw, In cw active ->
              lo <= value_or_0 (r (score_column (fst cw)))
              /\ value_or_0 (r (score_column (fst cw))) <= hi) ->
  lo <= weighted_mean active r /\ weighted_mean active r <= hi.
Proof.
  intros Hne Hpos Hin.
  destruct (weighted_sum_bounds r lo hi active Hpos Hin) as [Hlo Hhi].
  assert (Ht : 0 < Qsum (map snd active)).
  { apply Qsum_pos; [|exact Hpos]. destruct active; [congruence | discriminate]. }
  unfold weighted_mean. destruct active as [|a act]; [congruence|].
  split.
  - apply Qle_shift_div_l; assumption.
  - apply Qle_shift_div_r; assumption.
Qed.

(** X7. The composite score is a weighted mean: when at least one configured
    category is active, the composite score of an animal lies between
    any two bounds that hold for its active category scores (a missing
    score counting as 0). *)
Theorem composite_within_category_range (config : AnalysisConfig) (df : DataFrame)
    (lo hi : Q) :
  NoDup (PyDict.keys (weights config)) ->
  let cat_df := _calculate_category_scores df in
  active_categories (weights config) cat_df <> [] ->
  exists scored,
    calculate_scores config df = inr scored
    /\ Forall2 (fun (r_cat : Row) (c : cell) =>
                  (forall cw, In cw (active_categories (weights config) cat_df) ->
                              lo <= value_or_0 (r_cat (score_column (fst cw)))
                              /\ value_or_0 (r_cat (score_column (fst cw))) <= hi) ->
                  exists q, c = Some q /\ lo <= q /\ q <= hi)
               (rows cat_df) (column scored "composite_score").
Proof.
  intros Hnd cat_df Hact.
  destruct (calculate_scores_frame config df) as [ranked [Hr [_ [Hother _]]]].
  cbv zeta in Hother.
  exists ranked. split; [exact Hr|].
  rewrite (Hother "composite_score" eq_refl).
  pose proof (composite_closed_form config cat_df Hnd) as Hcf.
  fold cat_df.
  eapply Forall2_impl; [|exact Hcf].
  intros r_cat c [q [-> Hq]] Hb. exists q. split; [reflexivity|].
  rewrite Hq. apply weighted_mean_bounds; auto. apply active_positive.
Qed.

Lemma composite_within_category_range_witness :
  exists scored,
    calculate_scores Examples.default_config Examples.df_missing_wool = inr scored
    /\ Forall2 (fun (r_cat : Row) (c : cell) =>
                  (forall cw, In cw (active_categories (weights Examples.default_config)
                                       (_calculate_category_scores Examples.df_missing_wool)) ->
                              0 <= value_or_0 (r_cat (score_column (fst cw)))
                              /\ value_or_0 (r_cat (score_column (fst cw))) <= 1) ->
                  exists q, c = Some q /\ 0 <= q /\ q <= 1)
               (rows (_calculate_category_scores Examples.df_missing_wool))
               (column scored "composite_score").
Proof.
  apply (composite_within_category_range Examples.default_config Examples.df_missing_wool 0 1).
  - simpl. repeat constructor; simpl; intuition discriminate.
  - vm_compute. discriminate.
Defined.

(** Every row of a scored frame holds a composite score and the rank
    computed from the composite column. *)
Lemma scored_rows_rank (config : AnalysisConfig) (df : DataFrame) :
  exists ranked,
    calculate_scores config df = inr ranked
    /\ len ranked = len df
    /\ Forall (fun r : Row =>
                 exists q, r "composite_score" = Some q
                           /\ r "rank" = rank_cell (column ranked "composite_score") (Some q))
              (rows ranked).
Proof.
  destruct (calculate_scores_frame config df) as [ranked [Hr [Hlen [Hother [Hrank Hsome]]]]].
  cbv zeta in *.
  set (comp_df := _calculate_composite_score config (_calculate_category_scores df)) in *.
  assert (Hcs : column ranked "composite_score" = column comp_df "composite_score")
    by (apply Hother; reflexivity).
  rewrite <- Hcs in Hrank, Hsome.
  exists ranked. split; [exact Hr|]. split; [exact Hlen|].
  apply Forall_forall. intros r Hin. apply In_nth_error in Hin. destruct Hin as [i Hi].
  pose proof (nth_error_column ranked "composite_score" i r Hi) as Hc.
  pose proof (nth_error_column ranked "rank" i r Hi) as Hk.
  rewrite Hrank in Hk.
  rewrite (map_nth_error (rank_cell (column ranked "composite_score")) i _ Hc) in Hk.
  injection Hk as Hk.
  destruct (r "composite_score") as [q|] eqn:Eq.
  - exists q. split; [reflexivity | now rewrite <- Hk].
  - exfalso. apply (Hsome None); [|reflexivity]. eapply nth_error_In. exact Hc.
Qed.

Lemma higher_count_lt (q : Q) (s : Series) :
  In (Some q) s -> (higher_count q s < List.length s)%nat.
Proof.
  unfold higher_count. induction s as [|c s IH]; intro H; [contradiction|].
  simpl. destruct H as [->|H].
  - simpl. assert (E : Qle_bool q q = true) by (apply Qle_bool_iff, Qle_refl).
    rewrite E. simpl. pose proof (filter_length_le (fun c => cell_gt c q) s). lia.
  - specialize (IH H). destruct (cell_gt c q); simpl; lia.
Qed.

Lemma higher_count_zero (q : Q) (s : Series) :
  higher_count q s = 0%nat <-> forall c, In c s -> cell_gt c q = false.
Proof.
  unfold higher_count. induction s as [|c s IH]; simpl.
  - split; [intros _ c [] | reflexivity].
  - destruct (cell_gt c q) eqn:E; simpl.
    + split; [discriminate|]. intro H. specialize (H c (or_introl eq_refl)). congruence.
    + rewrite IH. split.
      * intros H c' [<-|Hc']; auto.
      * intros H c' Hc'. apply H. now right.
Qed.

(** A series of numbers that is not empty has a largest value. *)
Lemma largest_exists (s : Series) :
  s <> [] -> (forall c, In c s -> c <> None) ->
  exists q, In (Some q) s /\ higher_count q s = 0%nat.
Proof.
  induction s as [|c s IH]; intros Hne Hsome; [congruence|].
  destruct c as [q|]; [|exfalso; apply (Hsome None); [now left | reflexivity]].
  destruct s as [|c' s'].
  - exists q. split; [now left|]. apply higher_count_zero. intros c [<-|[]].
    simpl. apply negb_false_iff, Qle_bool_iff, Qle_refl.
  - destruct IH as [m [Hm Hmax]]; [discriminate | intros c Hc; apply Hsome; now right |].
    destruct (Qle_bool q m) eqn:E.
    + exists m. split; [now right|]. apply higher_count_zero.
      intros c [<-|Hc]; [simpl; now rewrite E | now apply (proj1 (higher_count_zero m _) Hmax)].
    + exists q. split; [now left|]. apply higher_count_zero.
      apply Qle_bool_false in E.
      intros c [<-|Hc]; [simpl; apply negb_false_iff, Qle_bool_iff, Qle_refl|].
      pose proof (proj1 (higher_count_zero m _) Hmax c Hc) as Hcm.
      destruct c as [v|]; [|reflexivity]. simpl in *.
      apply negb_false_iff, Qle_bool_iff in Hcm.
      apply negb_false_iff, Qle_bool_iff. lra.
Qed.

(** X8. The ranks of a scored frame run from 1 to the number of animals,
    and when there is an animal at all, some animal has rank 1. *)
Theorem rank_bounds (config : AnalysisConfig) (df : DataFrame) :
  exists ranked,
    calculate_scores config df = inr ranked
    /\ (forall i r,
          nth_error (rows ranked) i = Some r ->
          exists k, r "rank" = Some (inject_Z (Z.of_nat k))
                    /\ (1 <= k <= len df)%nat)
    /\ ((0 < len df)%nat ->
        exists i r, nth_error (rows ranked) i = Some r
                    /\ r "rank" = Some (inject_Z (Z.of_nat 1))).
Proof.
  destruct (scored_rows_rank config df) as [ranked [Hr [Hlen Hrows]]].
  exists ranked. split; [exact Hr|].
  rewrite Forall_forall in Hrows.
  assert (Hcol : forall r, In r (rows ranked) ->
                           In (r "composite_score") (column ranked "composite_score")).
  { intros r Hin. unfold column. now apply (in_map (fun r0 : Row => r0 "composite_score")). }
  split.
  - intros i r Hi. apply nth_error_In in Hi.
    destruct (Hrows r Hi) as [q [Hq Hk]]. rewrite Hk. cbn [rank_cell].
    eexists. split; [reflexivity|].
    pose proof (higher_count_lt q (column ranked "composite_score")) as Hlt.
    rewrite <- Hq in Hlt at 1. specialize (Hlt (Hcol r Hi)).
    rewrite length_column, Hlen in Hlt. lia.
  - intro Hpos.
    destruct (largest_exists (column ranked "composite_score")) as [q [Hin Hmax]].
    + intro E. apply (f_equal (@List.length cell)) in E.
      rewrite length_column, Hlen in E. simpl in E. lia.
    + intros c Hc. unfold column in Hc. apply in_map_iff in Hc.
      destruct Hc as [r [<- Hr']]. destruct (Hrows r Hr') as [q [Hq _]]. congruence.
    + unfold column in Hin. apply in_map_iff in Hin. destruct Hin as [r [Hq Hin]].
      destruct (In_nth_error _ _ Hin) as [i Hi].
      exists i, r. split; [exact Hi|].
      destruct (Hrows r Hin) as [q' [Hq' Hk]]. assert (q' = q) by congruence. subst q'.
      rewrite Hk. cbn [rank_cell]. fold (column ranked "composite_score").
      now rewrite Hmax.
Qed.

Lemma insert_row_perm (col : string) (r : Row) (l : list Row) :
  Permutation (insert_row col r l) (r :: l).
Proof.
  induction l as [|r' l IH]; simpl; [reflexivity|].
  destruct (cell_leb (r col) (r' col)); [reflexivity|].
  rewrite IH. apply perm_swap.
Qed.

Lemma sort_values_perm (df : DataFrame) (col : string) :
  Permutation (rows (sort_values df col)) (rows df).
Proof.
  unfold sort_values. simpl. induction (rows df) as [|r l IH]; simpl; [reflexivity|].
  rewrite insert_row_perm. now constructor.
Qed.

Lemma cell_leb_total (a b : cell) : cell_leb a b = false -> cell_leb b a = true.
Proof.
  destruct a as [x|], b as [y|]; simpl; try discriminate; try reflexivity.
  intro H. apply Qle_bool_false in H. apply Qle_bool_iff. lra.
Qed.

Lemma cell_leb_trans (a b c : cell) :
  cell_leb a b = true -> cell_leb b c = true -> cell_leb a c = true.
Proof.
  destruct a as [x|], b as [y|], c as [z|]; simpl; try discriminate; try reflexivity.
  rewrite !Qle_bool_iff. intros. lra.
Qed.

Lemma insert_row_sorted (col : string) (r : Row) (l : list Row) :
  StronglySorted (fun r1 r2 : Row => cell_leb (r1 col) (r2 col) = true) l ->
  StronglySorted (fun r1 r2 : Row => cell_leb (r1 col) (r2 col) = true) (insert_row col r l).
Proof.
  induction l as [|r' l IH]; intro Hs; simpl.
  - constructor; constructor.
  - inversion Hs as [|? ? Hs' Hall]; subst.
    destruct (cell_leb (r col) (r' col)) eqn:E.
    + constructor; [exact Hs|]. constructor; [exact E|].
      eapply Forall_impl; [|exact Hall]. intros a Ha. cbv beta in *.
      eapply cell_leb_trans; eassumption.
    + constructor; [now apply IH|].
      apply (Permutation_Forall (Permutation_sym (insert_row_perm col r l))).
      constructor; [now apply cell_leb_total | exact Hall].
Qed.

Lemma sort_values_sorted (df : DataFrame) (col : string) :
  StronglySorted (fun r1 r2 : Row => cell_leb (r1 col) (r2 col) = true)
                 (rows (sort_values df col)).
Proof.
  unfold sort_values. simpl. induction (rows df) as [|r l IH]; simpl;
    [constructor | now apply insert_row_sorted].
Qed.

Lemma higher_count_perm (q : Q) (s s' : Series) :
  Permutation s s' -> higher_count q s = higher_count q s'.
Proof.
  unfold higher_count. induction 1; simpl.
  - reflexivity.
  - destruct (cell_gt x q); simpl; congruence.
  - destruct (cell_gt x q), (cell_gt y q); reflexivity.
  - congruence.
Qed.

Lemma Qle_bool_inject_nat (a b : nat) :
  Qle_bool (inject_Z (Z.of_nat a)) (inject_Z (Z.of_nat b)) = true <-> (a <= b)%nat.
Proof. rewrite Qle_bool_iff, <- Zle_Qle. lia. Qed.

(** The frame of [rank_rams]. *)
Lemma rank_rams_frame (config : AnalysisConfig) (df : DataFrame) (sex : list string) :
  exists out,
    rank_rams config df sex = inr out
    /\ len out = len (select_rams df sex)
    /\ (exists ks, column out "rank" = map (fun k => Some (inject_Z (Z.of_nat k))) ks
                   /\ StronglySorted le ks)
    /\ Forall (fun r : Row =>
                 exists q,
                   r "composite_score" = Some q
                   /\ r "rank"
                      = Some (inject_Z (Z.of_nat
                                (1 + higher_count q (column out "composite_score"))))
                   /\ r "selection_recommended"
                      = Some (if (higher_count q (column out "composite_score") <? 10)%nat
                              then 1 else 0))
              (rows out).
Proof.
  unfold rank_rams.
  destruct (rows (select_rams df sex)) as [|r0 rs] eqn:Erows.
  { eexists. split; [reflexivity|]. unfold len. rewrite Erows. simpl.
    split; [reflexivity|]. split; [exists []; split; constructor | constructor]. }
  destruct (scored_rows_rank config (select_rams df sex)) as [ranked [Hr [Hlen Hrows]]].
  rewrite Hr. eexists. split; [reflexivity|].
  set (sorted := sort_values ranked "rank").
  set (s := column ranked "composite_score") in *.
  pose proof (sort_values_perm ranked "rank") as Hperm. fold sorted in Hperm.
  assert (Hs : Permutation (column sorted "composite_score") s).
  { unfold column. now apply Permutation_map. }
  assert (Hsorted_rows : Forall (fun r : Row =>
                                   exists q, r "composite_score" = Some q
                                             /\ r "rank" = rank_cell s (Some q))
                                (rows sorted)).
  { apply (Permutation_Forall (Permutation_sym Hperm)). exact Hrows. }
  assert (Hcomp : column (assign_rowwise sorted "selection_recommended"
                            (fun r => SoftFilters.bool_cell (cell_le (r "rank") 10)))
                         "composite_score"
                  = column sorted "composite_score")
    by now rewrite column_assign_rowwise.
  split.
  { rewrite len_assign_rowwise. unfold len.
    rewrite (Permutation_length Hperm). fold (len ranked). rewrite Hlen.
    unfold len. now rewrite Erows. }
  split.
  { exists (map (fun r : Row => (1 + higher_count (value_or_0 (r "composite_score")) s)%nat)
                (rows sorted)).
    split.
    - rewrite column_assign_rowwise. cbn [String.eqb Ascii.eqb Bool.eqb].
      unfold column. rewrite map_map. apply map_ext_in. intros r Hin.
      rewrite Forall_forall in Hsorted_rows.
      destruct (Hsorted_rows r Hin) as [q [Hq Hk]]. rewrite Hk, Hq. reflexivity.
    - pose proof (sort_values_sorted ranked "rank") as Hss. fold sorted in Hss.
      revert Hss Hsorted_rows. generalize (rows sorted).
      induction l as [|r l IH]; intros Hss Hall; simpl; constructor.
      + apply IH; [now inversion Hss | now inversion Hall].
      + inversion Hss as [|? ? _ Hle]; subst. inversion Hall as [|? ? Hr0 Hall']; subst.
        rewrite Forall_forall in Hle. rewrite Forall_forall in Hall'.
        apply Forall_forall. intros k Hk.
        apply in_map_iff in Hk. destruct Hk as [r' [<- Hr']].
        specialize (Hle r' Hr'). cbv beta in Hle.
        destruct Hr0 as [q [Hq Hrk]]. destruct (Hall' r' Hr') as [q' [Hq' Hrk']].
        rewrite Hrk, Hrk' in Hle. cbn [rank_cell cell_leb] in Hle.
        rewrite Hq, Hq'. cbn [value_or_0].
        now apply Qle_bool_inject_nat in Hle. }
  rewrite Hcomp. unfold assign_rowwise. cbn [rows].
  apply Forall_forall. intros r Hin. apply in_map_iff in Hin.
  destruct Hin as [r1 [<- Hin]].
  rewrite Forall_forall in Hsorted_rows.
  destruct (Hsorted_rows r1 Hin) as [q [Hq Hk]].
  exists q. unfold set_cell. cbn [String.eqb Ascii.eqb Bool.eqb].
  rewrite (higher_count_perm q _ _ Hs).
  split; [exact Hq|]. split; [exact Hk|].
  rewrite Hk. cbn [rank_cell cell_le SoftFilters.bool_cell]. f_equal.
  change 10 with (inject_Z (Z.of_nat 10)).
  destruct (higher_count q s <? 10)%nat eqn:E.
  - apply Nat.ltb_lt in E.
    assert (Hb : Qle_bool (inject_Z (Z.of_nat (1 + higher_count q s)))
                          (inject_Z (Z.of_nat 10)) = true)
      by (apply Qle_bool_inject_nat; lia).
    now rewrite Hb.
  - apply Nat.ltb_ge in E.
    destruct (Qle_bool (inject_Z (Z.of_nat (1 + higher_count q s)))
                       (inject_Z (Z.of_nat 10))) eqn:Hb; [|reflexivity].
    apply Qle_bool_inject_nat in Hb. lia.
Qed.


(** X10. An explanation that is returned never calls a category both
    strong and poor, it holds at most five notes, and each recommendation
    comes with the weakness note of its category: advice on growth,
    health or reproduction is given only for a category also listed as
    poor. *)
Theorem recommendations_follow_weaknesses (row : RowSeries) (e : Explanation) :
  _generate_explanation row = inr e ->
  Forall (fun category =>
            ~ (In (strong_note category) (strengths e)
               /\ In (poor_note category) (weaknesses e)))
         categories
  /\ (List.length (strengths e) + List.length (weaknesses e) <= 5)%nat
  /\ Forall (fun cm : string * string =>
               In (snd cm) (recommendations e) -> In (poor_note (fst cm)) (weaknesses e))
            [("growth", "Focus on improving growth performance");
             ("health", "Address health issues");
             ("reproduction", "Improve reproductive performance")].
Proof.
  intro G. destruct (explanation_notes row e G) as [Hnotes Hrec].
  split; [|split].
  - unfold categories. repeat apply Forall_cons; try apply Forall_nil;
      intros [H1 H2];
      match goal with
      | H : In (strong_note ?c) _ |- _ =>
          destruct (Hnotes c (row_get row (score_column c) 0)) as [_ [Hs Hw]];
          [simpl; tauto|]
      end;
      apply Hs in H1; apply Hw in H2; apply above_below_excl in H1; congruence.
  - rewrite generate_explanation_cases in G.
    destruct (some_score_na row); [discriminate|].
    apply (f_equal (fun x : ExplanationError + Explanation =>
                      match x with inr e' => e' | inl _ => e end)) in G.
    cbn beta iota in G. subst e. cbn [strengths weaknesses].
    rewrite !length_map. unfold component_scores. cbn [filter snd].
    repeat match goal with
           | |- context [if ?b then _ else _] => destruct b eqn:?; cbn [List.length]
           end; try lia;
      repeat match goal with
             | H : above_07 _ = true |- _ => apply above_below_excl in H
             end; congruence.
  - repeat apply Forall_cons; try apply Forall_nil; cbn [fst snd]; intro Hin;
      match goal with
      | |- In (poor_note ?c) _ =>
          destruct (Hnotes c (row_get row (score_column c) 0)) as [_ [_ Hw]];
          [simpl; tauto|];
          apply Hw; apply (Hrec (score_column c)) in Hin; [|simpl; tauto]
      end;
      unfold advised in Hin; apply andb_true_iff in Hin; destruct Hin as [Hh Hl];
      unfold row_get; rewrite Hh; exact Hl.
Qed.

Lemma recommendations_follow_weaknesses_witness :
  _generate_explanation Examples.row_poor_growth = inr Examples.explanation_poor_growth
  /\ Forall (fun category =>
               ~ (In (strong_note category) (strengths Examples.explanation_poor_growth)
                  /\ In (poor_note category) (weaknesses Examples.explanation_poor_growth)))
            categories
  /\ (List.length (strengths Examples.explanation_poor_growth)
      + List.length (weaknesses Examples.explanation_poor_growth) <= 5)%nat
  /\ Forall (fun cm : string * string =>
               In (snd cm) (recommendations Examples.explanation_poor_growth) ->
               In (poor_note (fst cm)) (weaknesses Examples.explanation_poor_growth))
            [("growth", "Focus on improving growth performance");
             ("health", "Address health issues");
             ("reproduction", "Improve reproductive performance")].
Proof.
  split; [reflexivity|].
  apply (recommendations_follow_weaknesses Examples.row_poor_growth). reflexivity.
Defined.

End RankerMore.

(* ===================================================================== *)
(** * More on contemporary groups (processing/grouping.py) *)
(* ===================================================================== *)

Section GroupingMore.
Import Grouping Spec SpecMore.

Lemma digits_tail (a : ascii) (s : string) : digits (String a s) -> digits s.
Proof.
  intros [d H]. simpl in H.
  destruct (NilEmpty.uint_of_string s) as [d'|] eqn:E; [exists d'; exact E | discriminate].
Qed.

Lemma digits_no_separator (x y : string) : ~ digits (x ++ "_G" ++ y)%string.
Proof.
  induction x as [|a x IH]; intro H.
  - destruct H as [d H].
    change (uint_of_char "_" (NilEmpty.uint_of_string (String "G" y)) = Some d) in H.
    destruct (NilEmpty.uint_of_string (String "G" y)); discriminate.
  - apply IH. eapply digits_tail. exact H.
Qed.

Lemma append_cancel_l (m x y : string) : (m ++ x)%string = (m ++ y)%string -> x = y.
Proof. induction m as [|a m IH]; simpl; intro H; [exact H | injection H as H; auto]. Qed.

Lemma group_prefix_inj (m1 m2 d1 d2 : string) :
  digits d1 -> digits d2 ->
  (m1 ++ "_G" ++ d1)%string = (m2 ++ "_G" ++ d2)%string -> m1 = m2.
Proof.
  intros H1 H2. revert m2. induction m1 as [|a m1 IH]; intros [|b m2] H.
  - reflexivity.
  - exfalso. simpl in H. injection H as Hb H.
    destruct m2 as [|c m2]; simpl in H; [discriminate|].
    injection H as Hc H. subst d1. exact (digits_no_separator m2 d2 H1).
  - exfalso. simpl in H. injection H as Hb H.
    destruct m1 as [|c m1]; simpl in H; [discriminate|].
    injection H as Hc H. subst d2. exact (digits_no_separator m1 d1 H2).
  - simpl in H. injection H as -> H. f_equal. now apply IH.
Qed.

Lemma str_of_nat_digits (n : nat) : digits (str_of_nat n).
Proof. exists (Nat.to_uint n). apply NilEmpty.usu. Qed.

Lemma str_of_nat_inj (n1 n2 : nat) : str_of_nat n1 = str_of_nat n2 -> n1 = n2.
Proof.
  unfold str_of_nat. intro H.
  apply DecimalNat.Unsigned.to_uint_inj.
  pose proof (NilEmpty.usu (Nat.to_uint n1)) as U1.
  pose proof (NilEmpty.usu (Nat.to_uint n2)) as U2.
  rewrite H in U1. congruence.
Qed.

Lemma group_name_injective (m1 m2 : string) (k1 k2 : nat) :
  group_name m1 k1 = group_name m2 k2 -> m1 = m2 /\ k1 = k2.
Proof.
  unfold group_name. intro H.
  assert (Hm : m1 = m2)
    by (apply (group_prefix_inj m1 m2 (str_of_nat k1) (str_of_nat k2));
        auto using str_of_nat_digits).
  subst m2. split; [reflexivity|].
  apply append_cancel_l in H. apply (append_cancel_l "_G") in H.
  now apply str_of_nat_inj.
Qed.

(** X11. A cohort label determines its management group and its window
    index: two labels are equal only if both are, whatever characters the
    management group's name holds. *)
Theorem group_name_inj (m1 m2 : string) (k1 k2 : nat) :
  group_name m1 k1 = group_name m2 k2 -> m1 = m2 /\ k1 = k2.
Proof. apply group_name_injective. Qed.

Lemma group_name_inj_witness : "MOB1" = "MOB1" /\ 12%nat = 12%nat.
Proof. apply (group_name_inj "MOB1" "MOB1" 12 12). reflexivity. Defined.

(** ** The rows of a management group in birth order *)

Lemma insert_by_date_perm (a : Animal) (l : list Animal) :
  Permutation (insert_by_date a l) (a :: l).
Proof.
  induction l as [|b l IH]; simpl; [reflexivity|].
  destruct (date_leb (birth_date a) (birth_date b)); [reflexivity|].
  rewrite IH. apply perm_swap.
Qed.

Lemma sort_values_permutation (l : list Animal) : Permutation (sort_values l) l.
Proof.
  induction l as [|a l IH]; simpl; [reflexivity|].
  rewrite insert_by_date_perm. now constructor.
Qed.

Lemma date_leb_total (a b : option Z) : date_leb a b = false -> date_leb b a = true.
Proof.
  destruct a as [x|], b as [y|]; simpl; try discriminate; try reflexivity.
  intro H. apply Z.leb_gt in H. apply Z.leb_le. lia.
Qed.

Lemma date_leb_trans (a b c : option Z) :
  date_leb a b = true -> date_leb b c = true -> date_leb a c = true.
Proof.
  destruct a as [x|], b as [y|], c as [z|]; simpl; try discriminate; try reflexivity.
  rewrite !Z.leb_le. lia.
Qed.

Lemma insert_by_date_sorted (a : Animal) (l : list Animal) :
  StronglySorted by_date l -> StronglySorted by_date (insert_by_date a l).
Proof.
  induction l as [|b l IH]; intro Hs; simpl.
  - constructor; constructor.
  - inversion Hs as [|? ? Hs' Hall]; subst.
    destruct (date_leb (birth_date a) (birth_date b)) eqn:E.
    + constructor; [exact Hs|]. constructor; [exact E|].
      eapply Forall_impl; [|exact Hall]. intros c Hc. unfold by_date in *.
      eapply date_leb_trans; eassumption.
    + constructor; [now apply IH|].
      apply (Permutation_Forall (Permutation_sym (insert_by_date_perm a l))).
      constructor; [now apply date_leb_total | exact Hall].
Qed.

Lemma sort_values_sorted_by_date (l : list Animal) : StronglySorted by_date (sort_values l).
Proof.
  induction l as [|a l IH]; simpl; [constructor | now apply insert_by_date_sorted].
Qed.

(** ** Window indices along a sorted list *)

Lemma assign_windows_rows (w : Z) (rows : list Animal) (k : nat) (start : option (option Z)) :
  map fst (assign_windows w rows k start) = rows.
Proof.
  revert k start. induction rows as [|row rest IH]; intros k start; simpl; [reflexivity|].
  destruct start as [s|]; [destruct (within_window w (birth_date row) s)|];
    simpl; now rewrite IH.
Qed.

(** From a window already open at [so]: indices never go below the
    current one, a row given the current index was born within the window
    counted from its start, and rows sharing an index are close. *)
Lemma assign_windows_open (w : Z) (rows : list Animal) (k : nat) (so : option Z) :
  StronglySorted by_date rows ->
  Forall (fun a => date_leb so (birth_date a) = true) rows ->
  Forall (fun e : Animal * nat =>
            (k <= snd e)%nat
            /\ (snd e = k ->
                exists s b, so = Some s /\ birth_date (fst e) = Some b
                            /\ (s <= b <= s + w)%Z))
         (assign_windows w rows k (Some so))
  /\ ForallOrdPairs (same_window_close w) (assign_windows w rows k (Some so))
  /\ ForallOrdPairs (fun e1 e2 : Animal * nat => (snd e1 <= snd e2)%nat)
                    (assign_windows w rows k (Some so)).
Proof.
  revert k so. induction rows as [|row rest IH]; intros k so Hs Hge.
  - simpl. repeat split; constructor.
  - inversion Hs as [|? ? Hs' Hrow]; subst. inversion Hge as [|? ? Hge0 Hge']; subst.
    cbn [assign_windows].
    destruct (within_window w (birth_date row) so) eqn:E.
    + destruct (IH k so Hs' Hge') as [IH1 [IH2 IH3]].
      unfold within_window in E.
      destruct (birth_date row) as [b|] eqn:Eb; [|discriminate].
      destruct so as [s|]; [|discriminate].
      apply Z.leb_le in E. simpl in Hge0. apply Z.leb_le in Hge0.
      split; [|split].
      * constructor; [|exact IH1]. simpl. split; [lia|].
        intros _. exists s, b. repeat split; auto; lia.
      * constructor; [|exact IH2].
        rewrite Forall_forall in *. intros e He. unfold same_window_close. simpl.
        intro Hk. destruct (IH1 e He) as [_ Hcur].
        destruct (Hcur (eq_sym Hk)) as [s' [b' [Hs0 [Hb' Hr]]]]. injection Hs0 as <-.
        exists b, b'. rewrite Eb. repeat split; auto; try lia.
        assert (Hin : In (fst e) rest)
          by (rewrite <- (assign_windows_rows w rest k (Some (Some s))); now apply in_map).
        specialize (Hrow (fst e) Hin). unfold by_date in Hrow.
        rewrite Eb, Hb' in Hrow. simpl in Hrow. apply Z.leb_le in Hrow. lia.
      * constructor; [|exact IH3].
        rewrite Forall_forall in *. intros e He. simpl. now destruct (IH1 e He).
    + destruct (IH (S k) (birth_date row) Hs' Hrow) as [IH1 [IH2 IH3]].
      split; [|split].
      * constructor.
        -- simpl. split; [lia|]. intro Hk. lia.
        -- eapply Forall_impl; [|exact IH1]. intros e [Hle _]. split; [lia|].
           intro Hk. lia.
      * constructor; [|exact IH2].
        rewrite Forall_forall in *. intros e He. unfold same_window_close. simpl.
        intro Hk. destruct (IH1 e He) as [_ Hcur].
        destruct (Hcur (eq_sym Hk)) as [s' [b' [Hs0 [Hb' Hr]]]].
        exists s', b'. repeat split; auto; lia.
      * constructor; [|exact IH3].
        rewrite Forall_forall in *. intros e He. simpl. now destruct (IH1 e He).
Qed.

(** The same from the start of the loop. *)
Lemma assign_windows_start (w : Z) (rows : list Animal) :
  StronglySorted by_date rows ->
  Forall (fun e : Animal * nat => (1 <= snd e)%nat) (assign_windows w rows 1 None)
  /\ ForallOrdPairs (same_window_close w) (assign_windows w rows 1 None)
  /\ ForallOrdPairs (fun e1 e2 : Animal * nat => (snd e1 <= snd e2)%nat)
                    (assign_windows w rows 1 None).
Proof.
  intro Hs. destruct rows as [|row rest]; [simpl; repeat split; constructor|].
  inversion Hs as [|? ? Hs' Hrow]; subst. cbn [assign_windows].
  destruct (assign_windows_open w rest 1 (birth_date row) Hs' Hrow) as [H1 [H2 H3]].
  split; [|split].
  - constructor; [simpl; lia|]. eapply Forall_impl; [|exact H1]. now intros e [He _].
  - constructor; [|exact H2].
    rewrite Forall_forall in *. intros e He. unfold same_window_close. simpl.
    intro Hk. destruct (H1 e He) as [_ Hcur].
    destruct (Hcur (eq_sym Hk)) as [s' [b' [Hs0 [Hb' Hr]]]].
    exists s', b'. repeat split; auto; lia.
  - constructor; [|exact H3].
    rewrite Forall_forall in *. intros e He. simpl. now destruct (H1 e He).
Qed.

(** ** From the loop to the dictionary, and to the frame *)

Lemma window_fold (w : Z) (rows : list Animal) (d : PyDict.dict string) (k : nat)
    (start : option (option Z)) :
  fst (fst (fold_left (window_step w) rows (d, k, start)))
  = fold_left (fun d e => PyDict.set d (fst (window_item e)) (snd (window_item e)))
              (assign_windows w rows k start) d.
Proof.
  revert d k start. induction rows as [|row rest IH]; intros d k start; [reflexivity|].
  cbn [fold_left assign_windows].
  destruct start as [s|]; [destruct (within_window w (birth_date row) s) eqn:E|];
    cbn [window_step]; rewrite ?E; rewrite IH; reflexivity.
Qed.

Lemma set_items_fresh (entries : list (Animal * nat)) (d : PyDict.dict string) :
  NoDup (map (fun e => animal_id (fst e)) entries) ->
  (forall e, In e entries -> ~ In (animal_id (fst e)) (PyDict.keys d)) ->
  fold_left (fun d e => PyDict.set d (fst (window_item e)) (snd (window_item e))) entries d
  = (d ++ map window_item entries)%list.
Proof.
  revert d. induction entries as [|e entries IH]; intros d Hnd Hfresh; simpl.
  - now rewrite app_nil_r.
  - inversion Hnd as [|? ? Hk Hnd']; subst.
    rewrite set_fresh by (apply Hfresh; now left).
    rewrite IH; [now rewrite <- app_assoc | exact Hnd' |].
    intros e' He' Hin. unfold PyDict.keys in Hin. rewrite map_app in Hin.
    apply in_app_or in Hin. destruct Hin as [Hin|[Hin|[]]].
    + apply (Hfresh e'); [now right | exact Hin].
    + simpl in Hin. apply Hk. rewrite Hin.
      now apply (in_map (fun e0 : Animal * nat => animal_id (fst e0))).
Qed.

(** The dictionary of a partition whose identifiers are distinct holds
    one entry per row, in birth order. *)
Lemma group_by_birth_window_items (w : Z) (part : list Animal) :
  NoDup (map animal_id part) ->
  _group_by_birth_window w true part
  = map window_item (assign_windows w (sort_values part) 1 None).
Proof.
  intro Hnd. unfold _group_by_birth_window.
  destruct part as [|a part]; [reflexivity|]. cbn [negb].
  rewrite window_fold, set_items_fresh; [reflexivity| |intros e _ []].
  rewrite <- (map_map fst animal_id), assign_windows_rows.
  apply (Permutation_NoDup (l := map animal_id (a :: part))); [|exact Hnd].
  apply Permutation_map, Permutation_sym, sort_values_permutation.
Qed.

Lemma fold_set_group_map (items : list (string * string)) (out : list Grouped) :
  fold_left (fun df item => set_group (fst item) (snd item) df) items out
  = map (fun g => fold_left relabel items g) out.
Proof.
  revert out. induction items as [|item items IH]; intro out; simpl.
  - symmetry. apply map_id.
  - rewrite IH. unfold set_group. rewrite map_map. reflexivity.
Qed.

Lemma relabel_record (items : list (string * string)) (g : Grouped) :
  record (fold_left relabel items g) = record g.
Proof.
  revert g. induction items as [|item items IH]; intro g; simpl; [reflexivity|].
  rewrite IH. unfold relabel.
  destruct (String.eqb (animal_id (record g)) (fst item)); reflexivity.
Qed.

Lemma relabel_other (items : list (string * string)) (g : Grouped) :
  (forall item, In item items -> fst item <> animal_id (record g)) ->
  fold_left relabel items g = g.
Proof.
  revert g. induction items as [|item items IH]; intros g H; simpl; [reflexivity|].
  assert (E : relabel g item = g).
  { unfold relabel. destruct (String.eqb (animal_id (record g)) (fst item)) eqn:E;
      [|reflexivity].
    apply String.eqb_eq in E. exfalso. apply (H item); [now left | now symmetry]. }
  rewrite E. apply IH. intros item' Hi. apply H. now right.
Qed.

Lemma relabel_found (items : list (string * string)) (g : Grouped) (label : string) :
  NoDup (map fst items) ->
  In (animal_id (record g), label) items ->
  contemporary_group (fold_left relabel items g) = Some label.
Proof.
  revert g. induction items as [|item items IH]; intros g Hnd Hin; [contradiction|].
  simpl. inversion Hnd as [|? ? Hk Hnd']; subst. destruct Hin as [->|Hin].
  - unfold relabel at 2. cbn [fst snd]. rewrite String.eqb_refl.
    rewrite relabel_other; [reflexivity|].
    intros item' Hi E. apply Hk. simpl. simpl in E. rewrite <- E. now apply in_map.
  - assert (E : relabel g item = g).
    { unfold relabel. destruct (String.eqb (animal_id (record g)) (fst item)) eqn:E;
        [|reflexivity].
      apply String.eqb_eq in E. exfalso. apply Hk. rewrite <- E.
      change (animal_id (record g)) with (fst (animal_id (record g), label)).
      now apply in_map. }
    rewrite E. now apply IH.
Qed.

(** [create_contemporary_groups], row by row. *)
Lemma create_groups_rowwise (w : Z) (df : list Animal) :
  create_contemporary_groups w true df
  = map (fun a => fold_left (fun g mgmt => fold_left relabel (group_dict w df mgmt) g)
                            (unique (map mgmt_group df)) (mkGrouped a None))
        df.
Proof.
  unfold create_contemporary_groups. cbn [negb].
  rewrite <- (map_map (fun a => mkGrouped a None)
                      (fun g => fold_left (fun g mgmt => fold_left relabel (group_dict w df mgmt) g)
                                          (unique (map mgmt_group df)) g)).
  assert (H0 : map record (map (fun a => mkGrouped a None) df) = df)
    by (rewrite map_map; apply map_id).
  revert H0. generalize (map (fun a => mkGrouped a None) df).
  induction (unique (map mgmt_group df)) as [|mgmt mgmts IH]; intros out Hrec; simpl.
  - symmetry. apply map_id.
  - rewrite Hrec. unfold PyDict.items. rewrite fold_set_group_map.
    fold (group_dict w df mgmt). rewrite IH.
    + now rewrite map_map.
    + rewrite map_map. transitivity (map record out); [|exact Hrec].
      apply map_ext. intro g. apply relabel_record.
Qed.

Lemma opt_string_eqb_true (x y : option string) :
  opt_string_eqb x y = true -> x = y /\ exists m, x = Some m.
Proof.
  destruct x as [a|], y as [b|]; simpl; try discriminate.
  intro E. apply String.eqb_eq in E. subst. eauto.
Qed.

Lemma In_unique (x : option string) (l : list (option string)) :
  In x l -> In x (unique l).
Proof.
  induction l as [|y l IH]; [contradiction|]. intros [->|H]; [now left|].
  cbn [unique]. destruct x as [a|], y as [b|].
  - destruct (String.eqb_spec b a) as [->|Hne]; [now left|].
    right. apply filter_In. split; [auto|].
    destruct (String.eqb_spec b a); [contradiction | reflexivity].
  - right. apply filter_In. auto.
  - right. apply filter_In. auto.
  - now left.
Qed.

Lemma filter_ids_distinct (keep : Animal -> bool) (df : list Animal) :
  NoDup (map animal_id df) -> NoDup (map animal_id (filter keep df)).
Proof.
  induction df as [|a df IH]; simpl; intro H; [constructor|].
  inversion H as [|? ? Ha Hnd]; subst.
  destruct (keep a); [|auto]. simpl. constructor; [|auto].
  intro Hin. apply Ha. apply in_map_iff in Hin. destruct Hin as [b [E Hb]].
  apply filter_In in Hb. rewrite <- E. apply in_map. tauto.
Qed.

Lemma assign_windows_upper_open (w : Z) (rows : list Animal) (k : nat) (so : option Z) :
  Forall (fun e : Animal * nat => (snd e <= k + List.length rows)%nat)
         (assign_windows w rows k (Some so)).
Proof.
  revert k so. induction rows as [|row rest IH]; intros k so; [constructor|].
  cbn [assign_windows List.length].
  destruct (within_window w (birth_date row) so).
  - constructor; [simpl; lia|].
    eapply Forall_impl; [|apply (IH k so)]. intros e He. simpl in He. lia.
  - constructor; [simpl; lia|].
    eapply Forall_impl; [|apply (IH (S k) (birth_date row))]. intros e He. simpl in He. lia.
Qed.

Lemma assign_windows_upper (w : Z) (rows : list Animal) :
  Forall (fun e : Animal * nat => (snd e <= List.length rows)%nat)
         (assign_windows w rows 1 None).
Proof.
  destruct rows as [|row rest]; [constructor|]. cbn [assign_windows List.length].
  constructor; [simpl; lia|]. apply (assign_windows_upper_open w rest 1 (birth_date row)).
Qed.

Lemma StronglySorted_pairs {A B} (R : B -> B -> Prop) (f : A -> B) (l : list A) :
  StronglySorted R (map f l) -> ForallOrdPairs (fun x y => R (f x) (f y)) l.
Proof.
  induction l as [|x l IH]; simpl; intro H; [constructor|].
  inversion H as [|? ? Hs Hx]; subst. constructor; [|auto].
  rewrite Forall_forall in *. intros y Hy. apply Hx. now apply in_map.
Qed.

Lemma ForallOrdPairs_and {A} (R1 R2 : A -> A -> Prop) (l : list A) :
  ForallOrdPairs R1 l -> ForallOrdPairs R2 l ->
  ForallOrdPairs (fun x y => R1 x y /\ R2 x y) l.
Proof.
  induction 1 as [|x l H1 Hp IH]; intro H2; [constructor|].
  inversion H2 as [|? ? H2x H2p]; subst. constructor; [|auto].
  rewrite Forall_forall in *. auto.
Qed.

Lemma assign_windows_consecutive_open (w : Z) (rows : list Animal) (k : nat) (so : option Z)
    (e : Animal * nat) (j : nat) :
  In e (assign_windows w rows k (Some so)) -> (k < j <= snd e)%nat ->
  exists e', In e' (assign_windows w rows k (Some so)) /\ snd e' = j.
Proof.
  revert k so. induction rows as [|row rest IH]; intros k so He Hj; [contradiction|].
  cbn [assign_windows] in *.
  destruct (within_window w (birth_date row) so).
  - destruct He as [<-|He]; [simpl in Hj; lia|].
    destruct (IH k so He Hj) as [e' [He' Hs]]. exists e'. split; [now right | exact Hs].
  - destruct (Nat.eq_dec j (S k)) as [->|Hne].
    + exists (row, S k). split; [now left | reflexivity].
    + destruct He as [<-|He]; [simpl in Hj; lia|].
      destruct (IH (S k) (birth_date row) He) as [e' [He' Hs]]; [lia|].
      exists e'. split; [now right | exact Hs].
Qed.

Lemma assign_windows_consecutive (w : Z) (rows : list Animal) (e : Animal * nat) (j : nat) :
  In e (assign_windows w rows 1 None) -> (1 <= j <= snd e)%nat ->
  exists e', In e' (assign_windows w rows 1 None) /\ snd e' = j.
Proof.
  destruct rows as [|row rest]; [contradiction|]. cbn [assign_windows]. intros He Hj.
  destruct (Nat.eq_dec j 1) as [->|Hne].
  - exists (row, 1%nat). split; [now left | reflexivity].
  - destruct He as [<-|He]; [simpl in Hj; lia|].
    destruct (assign_windows_consecutive_open w rest 1 (birth_date row) e j He) as [e' [He' Hs]];
      [lia|].
    exists e'. split; [now right | exact Hs].
Qed.

(** What the loop gives the rows of one management group. *)
Lemma windows_of_facts (w : Z) (df : list Animal) (m : string) :
  map fst (windows_of w df m) = sort_values (mob df m)
  /\ Forall (fun e : Animal * nat => (1 <= snd e <= List.length (mob df m))%nat)
            (windows_of w df m)
  /\ ForallOrdPairs (same_window_close w) (windows_of w df m)
  /\ ForallOrdPairs (fun e1 e2 : Animal * nat =>
                       (snd e1 <= snd e2)%nat /\ by_date (fst e1) (fst e2))
                    (windows_of w df m).
Proof.
  unfold windows_of. fold (mob df m).
  pose proof (sort_values_sorted_by_date (mob df m)) as Hs.
  destruct (assign_windows_start w _ Hs) as [H1 [H2 H3]].
  pose proof (assign_windows_upper w (sort_values (mob df m))) as Hu.
  pose proof (assign_windows_rows w (sort_values (mob df m)) 1 None) as Hr.
  repeat split.
  - exact Hr.
  - rewrite Forall_forall in *. intros e He.
    specialize (H1 e He). specialize (Hu e He).
    rewrite (Permutation_length (sort_values_permutation (mob df m))) in Hu. lia.
  - exact H2.
  - apply ForallOrdPairs_and; [exact H3|].
    apply (StronglySorted_pairs by_date fst). now rewrite Hr.
Qed.

Section CohortRows.
Variable w : Z.
Variable df : list Animal.
Hypothesis Hnd : NoDup (map animal_id df).

Lemma group_dict_items (mgmt : option string) :
  group_dict w df mgmt
  = map window_item
        (assign_windows w
           (sort_values (filter (fun a => opt_string_eqb (mgmt_group a) mgmt) df)) 1 None).
Proof.
  unfold group_dict. apply group_by_birth_window_items. now apply filter_ids_distinct.
Qed.

Lemma group_dict_rows (mgmt : option string) (item : string * string) :
  In item (group_dict w df mgmt) ->
  exists a, In a df /\ opt_string_eqb (mgmt_group a) mgmt = true /\ fst item = animal_id a.
Proof.
  rewrite group_dict_items. intro H. apply in_map_iff in H. destruct H as [e [<- He]].
  exists (fst e). apply (in_map fst) in He. rewrite assign_windows_rows in He.
  apply In_sort_values in He. apply filter_In in He. destruct He. auto.
Qed.

Lemma relabel_group_other (mgmt : option string) (g : Grouped) :
  In (record g) df ->
  opt_string_eqb (mgmt_group (record g)) mgmt = false ->
  fold_left relabel (group_dict w df mgmt) g = g.
Proof.
  intros Ha E. apply relabel_other. intros item Hi Hid.
  destruct (group_dict_rows mgmt item Hi) as [b [Hb [Eb Hfst]]].
  assert (b = record g) by (apply (NoDup_map_inj animal_id df); auto; congruence).
  subst b. congruence.
Qed.

Lemma relabel_group_same (m : string) (g : Grouped) :
  In (record g) df ->
  mgmt_group (record g) = Some m ->
  exists n, In (record g, n) (windows_of w df m)
            /\ contemporary_group (fold_left relabel (group_dict w df (Some m)) g)
               = Some (group_name m n).
Proof.
  intros Ha Em.
  destruct (windows_of_facts w df m) as [Hr _].
  assert (Hin : In (record g) (map fst (windows_of w df m))).
  { rewrite Hr. apply (Permutation_in _ (Permutation_sym (sort_values_permutation _))).
    apply filter_In. split; [exact Ha|]. rewrite Em. simpl. apply String.eqb_refl. }
  apply in_map_iff in Hin. destruct Hin as [[a n] [Ea He]]. simpl in Ea. subst a.
  exists n. split; [exact He|].
  apply relabel_found.
  - rewrite group_dict_items. rewrite map_map. cbn [window_item fst].
    rewrite <- (map_map fst animal_id), assign_windows_rows.
    apply (Permutation_NoDup (l := map animal_id (mob df m))).
    + apply Permutation_map, Permutation_sym, sort_values_permutation.
    + now apply filter_ids_distinct.
  - rewrite group_dict_items. fold (mob df m). fold (windows_of w df m).
    apply in_map_iff. exists (record g, n). split; [|exact He].
    unfold window_item, mgmt_str. cbn [fst snd]. now rewrite Em.
Qed.

Lemma fold_groups_none (mgmts : list (option string)) (g : Grouped) :
  In (record g) df ->
  mgmt_group (record g) = None ->
  fold_left (fun g mgmt => fold_left relabel (group_dict w df mgmt) g) mgmts g = g.
Proof.
  intros Ha En. induction mgmts as [|mgmt mgmts IH]; [reflexivity|]. simpl.
  rewrite relabel_group_other; [exact IH | exact Ha | now rewrite En].
Qed.

Lemma fold_groups_some (m : string) (mgmts : list (option string)) (g : Grouped) :
  In (record g) df ->
  mgmt_group (record g) = Some m ->
  In (Some m) mgmts
  \/ (exists n, In (record g, n) (windows_of w df m)
                /\ contemporary_group g = Some (group_name m n)) ->
  exists n, In (record g, n) (windows_of w df m)
            /\ contemporary_group
                 (fold_left (fun g mgmt => fold_left relabel (group_dict w df mgmt) g) mgmts g)
               = Some (group_name m n).
Proof.
  revert g. induction mgmts as [|mgmt mgmts IH]; intros g Ha Em H.
  - destruct H as [[]|H]. exact H.
  - simpl. destruct (opt_string_eqb (mgmt_group (record g)) mgmt) eqn:E.
    + apply opt_string_eqb_true in E. destruct E as [E _]. rewrite Em in E. subst mgmt.
      destruct (relabel_group_same m g Ha Em) as [n [Hn Hl]].
      pose proof (relabel_record (group_dict w df (Some m)) g) as Hrec.
      destruct (IH (fold_left relabel (group_dict w df (Some m)) g)) as [n' [Hn' Hl']].
      * now rewrite Hrec.
      * now rewrite Hrec.
      * right. exists n. rewrite Hrec. auto.
      * exists n'. rewrite Hrec in Hn'. auto.
    + rewrite relabel_group_other by assumption.
      apply IH; [exact Ha | exact Em |].
      destruct H as [[->|H]|H]; auto.
      exfalso. rewrite Em in E. simpl in E. rewrite String.eqb_refl in E. discriminate.
Qed.

Lemma fold_groups_record (mgmts : list (option string)) (g : Grouped) :
  record (fold_left (fun g mgmt => fold_left relabel (group_dict w df mgmt) g) mgmts g)
  = record g.
Proof.
  revert g. induction mgmts as [|mgmt mgmts IH]; intro g; simpl; [reflexivity|].
  rewrite IH. apply relabel_record.
Qed.

(** Every row of the result: its record is a row of the input; without a
    management group it has no cohort, and with one its cohort is the label
    of the window the loop gave it. *)
Lemma cohort_of_row (g : Grouped) :
  In g (create_contemporary_groups w true df) ->
  In (record g) df
  /\ match mgmt_group (record g) with
     | None => contemporary_group g = None
     | Some m => exists n, In (record g, n) (windows_of w df m)
                           /\ contemporary_group g = Some (group_name m n)
     end.
Proof.
  rewrite create_groups_rowwise. intro H. apply in_map_iff in H.
  destruct H as [a [<- Ha]].
  pose proof (fold_groups_record (unique (map mgmt_group df)) (mkGrouped a None)) as Hrec.
  cbn [record] in Hrec. rewrite Hrec. split; [exact Ha|].
  destruct (mgmt_group a) as [m|] eqn:Em.
  - apply (fold_groups_some m (unique (map mgmt_group df)) (mkGrouped a None) Ha Em).
    left. apply In_unique. rewrite <- Em. now apply in_map.
  - now rewrite (fold_groups_none (unique (map mgmt_group df)) (mkGrouped a None) Ha Em).
Qed.

End CohortRows.

Lemma born_before_not_after (a1 a2 : Animal) :
  born_before a1 a2 -> by_date a2 a1 -> False.
Proof.
  unfold born_before, by_date, date_leb.
  destruct (birth_date a1) as [x|], (birth_date a2) as [y|]; try tauto; try discriminate.
  intros H1 H2. apply Z.leb_le in H2. lia.
Qed.

Lemma labelled_row (w : Z) (df : list Animal) (g : Grouped) (m : string) (n : nat) :
  NoDup (map animal_id df) ->
  In g (create_contemporary_groups w true df) ->
  contemporary_group g = Some (group_name m n) ->
  mgmt_group (record g) = Some m /\ In (record g, n) (windows_of w df m).
Proof.
  intros Hnd Hg Hl. destruct (cohort_of_row w df Hnd g Hg) as [_ H].
  destruct (mgmt_group (record g)) as [m'|]; [|congruence].
  destruct H as [n' [Hn' Hl']]. rewrite Hl' in Hl. injection Hl as Hl.
  apply group_name_injective in Hl. destruct Hl as [-> ->]. auto.
Qed.

Lemma result_rows (w : Z) (df : list Animal) :
  map record (create_contemporary_groups w true df) = df.
Proof.
  rewrite create_groups_rowwise, map_map.
  transitivity (map (fun a : Animal => a) df); [|apply map_id].
  apply map_ext. intro a. apply (fold_groups_record w df).
Qed.

(** Without a [birth_date] column every management group is skipped. *)
Lemma no_birth_date_column (w : Z) (df : list Animal) :
  create_contemporary_groups w false df = map (fun a => mkGrouped a None) df.
Proof.
  unfold create_contemporary_groups. cbn [negb].
  generalize (map (fun a => mkGrouped a None) df) as out.
  induction (unique (map mgmt_group df)) as [|mgmt l IH]; intro out; [reflexivity|].
  simpl. apply IH.
Qed.

(** X12. When animal identifiers are distinct, the result keeps the rows
    of the input.  On a frame with a [birth_date] column an animal
    without a management group has no cohort, and an animal of management
    group [m] has the cohort label [m_Gn] with [n] between 1 and the
    number of animals of [m], whether or not it has a birth date.  On a
    frame without that column no animal has a cohort. *)
Theorem cohort_labels (w : Z) (has_birth_date : bool) (df : list Animal) :
  NoDup (map animal_id df) ->
  map record (create_contemporary_groups w has_birth_date df) = df
  /\ Forall (fun g =>
               if has_birth_date then
                 match mgmt_group (record g) with
                 | None => contemporary_group g = None
                 | Some m =>
                     exists n, contemporary_group g = Some (group_name m n)
                               /\ (1 <= n <= List.length (mob df m))%nat
                 end
               else contemporary_group g = None)
            (create_contemporary_groups w has_birth_date df).
Proof.
  intro Hnd. destruct has_birth_date.
  - split.
    + apply result_rows.
    + apply Forall_forall. intros g Hg.
      destruct (cohort_of_row w df Hnd g Hg) as [_ H].
      destruct (mgmt_group (record g)) as [m|]; [|exact H].
      destruct H as [n [Hn Hl]]. exists n. split; [exact Hl|].
      destruct (windows_of_facts w df m) as [_ [Hb _]].
      rewrite Forall_forall in Hb. exact (Hb _ Hn).
  - rewrite no_birth_date_column. split.
    + rewrite map_map. cbn [record]. apply map_id.
    + apply Forall_forall. intros g Hg. apply in_map_iff in Hg.
      destruct Hg as [a [<- _]]. reflexivity.
Qed.

Lemma cohort_labels_witness :
  (map record (create_contemporary_groups 30 true Examples.mob_with_gaps)
   = Examples.mob_with_gaps
   /\ Forall (fun g =>
                match mgmt_group (record g) with
                | None => contemporary_group g = None
                | Some m =>
                    exists n, contemporary_group g = Some (group_name m n)
                              /\ (1 <= n <= List.length (mob Examples.mob_with_gaps m))%nat
                end)
             (create_contemporary_groups 30 true Examples.mob_with_gaps))
  /\ (map record (create_contemporary_groups 30 false Examples.mob_with_gaps)
      = Examples.mob_with_gaps
      /\ Forall (fun g => contemporary_group g = None)
                (create_contemporary_groups 30 false Examples.mob_with_gaps)).
Proof.
  split.
  - apply (cohort_labels 30 true Examples.mob_with_gaps).
    simpl. repeat constructor; simpl; intuition discriminate.
  - apply (cohort_labels 30 false Examples.mob_with_gaps).
    simpl. repeat constructor; simpl; intuition discriminate.
Defined.

(** X13. When animal identifiers are distinct, two different animals
    that share a cohort label belong to the same management group, both
    have a birth date, and their birth dates are at most [window_days]
    apart; an animal without a birth date shares its cohort with no one. *)
Theorem cohort_within_window (w : Z) (df : list Animal) (g1 g2 : Grouped) (label : string) :
  NoDup (map animal_id df) ->
  In g1 (create_contemporary_groups w true df) ->
  In g2 (create_contemporary_groups w true df) ->
  animal_id (record g1) <> animal_id (record g2) ->
  contemporary_group g1 = Some label ->
  contemporary_group g2 = Some label ->
  mgmt_group (record g1) = mgmt_group (record g2)
  /\ exists b1 b2, birth_date (record g1) = Some b1 /\ birth_date (record g2) = Some b2
                   /\ (Z.abs (b2 - b1) <= w)%Z.
Proof.
  intros Hnd H1 H2 Hid L1 L2.
  destruct (cohort_of_row w df Hnd g1 H1) as [_ C1].
  destruct (mgmt_group (record g1)) as [m|] eqn:Em; [|congruence].
  destruct C1 as [n [Hn Hl]].
  assert (L2' : contemporary_group g2 = Some (group_name m n)) by congruence.
  destruct (labelled_row w df g2 m n Hnd H2 L2') as [Em2 Hn2].
  split; [now rewrite Em2|].
  destruct (windows_of_facts w df m) as [_ [_ [Hc _]]].
  destruct (ForallOrdPairs_In Hc _ _ Hn Hn2) as [E|[R|R]].
  - exfalso. apply Hid. now injection E as ->.
  - destruct (R eq_refl) as [b1 [b2 [E1 [E2 Hr]]]]. simpl in E1, E2.
    exists b1, b2. repeat split; auto. lia.
  - destruct (R eq_refl) as [b2 [b1 [E2 [E1 Hr]]]]. simpl in E1, E2.
    exists b1, b2. repeat split; auto. lia.
Qed.

Lemma cohort_within_window_witness :
  Some "MOB1" = Some "MOB1"
  /\ exists b1 b2, Some 100%Z = Some b1 /\ Some 140%Z = Some b2 /\ (Z.abs (b2 - b1) <= 40)%Z.
Proof.
  apply (cohort_within_window 40 Examples.mob_with_gaps
           (mkGrouped (mkAnimal "A1" (Some "MOB1") (Some 100%Z)) (Some "MOB1_G1"))
           (mkGrouped (mkAnimal "A4" (Some "MOB1") (Some 140%Z)) (Some "MOB1_G1"))
           "MOB1_G1").
  - simpl. repeat constructor; simpl; intuition discriminate.
  - vm_compute. auto.
  - vm_compute. auto.
  - simpl. discriminate.
  - reflexivity.
  - reflexivity.
Defined.

(** X14. Cohort numbers follow the order of birth within a management
    group: an animal never has a larger number than one born after it, or
    than one without a birth date; and two animals with the same number
    were born at most [window_days] apart. *)
Theorem cohort_numbers_follow_birth_order (w : Z) (df : list Animal) (g1 g2 : Grouped)
    (m : string) (n1 n2 : nat) :
  NoDup (map animal_id df) ->
  In g1 (create_contemporary_groups w true df) ->
  In g2 (create_contemporary_groups w true df) ->
  contemporary_group g1 = Some (group_name m n1) ->
  contemporary_group g2 = Some (group_name m n2) ->
  born_before (record g1) (record g2) ->
  (n1 <= n2)%nat
  /\ (n1 = n2 ->
      exists b1 b2, birth_date (record g1) = Some b1 /\ birth_date (record g2) = Some b2
                    /\ (0 < b2 - b1 <= w)%Z).
Proof.
  intros Hnd H1 H2 L1 L2 Hb.
  destruct (labelled_row w df g1 m n1 Hnd H1 L1) as [_ E1].
  destruct (labelled_row w df g2 m n2 Hnd H2 L2) as [_ E2].
  destruct (windows_of_facts w df m) as [_ [_ [Hc Ho]]].
  assert (Hne : (record g1, n1) <> (record g2, n2)).
  { intro E. injection E as E _. rewrite E in Hb. revert Hb. unfold born_before.
    destruct (birth_date (record g2)); [lia | tauto]. }
  assert (Hle : (n1 <= n2)%nat).
  { destruct (ForallOrdPairs_In Ho _ _ E1 E2) as [E|[[R _]|[_ R]]].
    - contradiction.
    - exact R.
    - exfalso. exact (born_before_not_after _ _ Hb R). }
  split; [exact Hle|]. intro En.
  assert (Hclose : exists b1 b2, birth_date (record g1) = Some b1
                                 /\ birth_date (record g2) = Some b2
                                 /\ (Z.abs (b2 - b1) <= w)%Z).
  { destruct (ForallOrdPairs_In Hc _ _ E1 E2) as [E|[R|R]].
    - contradiction.
    - destruct (R En) as [b1 [b2 [B1 [B2 Hr]]]]. simpl in B1, B2.
      exists b1, b2. repeat split; auto. lia.
    - destruct (R (eq_sym En)) as [b2 [b1 [B2 [B1 Hr]]]]. simpl in B1, B2.
      exists b1, b2. repeat split; auto. lia. }
  destruct Hclose as [b1 [b2 [B1 [B2 Hr]]]]. exists b1, b2.
  unfold born_before in Hb. rewrite B1, B2 in Hb. repeat split; auto; lia.
Qed.

Lemma cohort_numbers_follow_birth_order_witness :
  (1 <= 2)%nat
  /\ (1%nat = 2%nat ->
      exists b1 b2, Some 100%Z = Some b1 /\ Some 140%Z = Some b2 /\ (0 < b2 - b1 <= 30)%Z).
Proof.
  apply (cohort_numbers_follow_birth_order 30 Examples.mob_with_gaps
           (mkGrouped (mkAnimal "A1" (Some "MOB1") (Some 100%Z)) (Some "MOB1_G1"))
           (mkGrouped (mkAnimal "A4" (Some "MOB1") (Some 140%Z)) (Some "MOB1_G2"))
           "MOB1" 1 2).
  - simpl. repeat constructor; simpl; intuition discriminate.
  - vm_compute. auto.
  - vm_compute. auto.
  - reflexivity.
  - reflexivity.
  - reflexivity.
Defined.

(** X15. Cohort numbers of a management group are consecutive from 1:
    when some animal has the label [m_Gn], every number from 1 to [n] is
    the cohort number of some animal of [m]. *)
Theorem cohort_numbers_consecutive (w : Z) (df : list Animal) (g : Grouped)
    (m : string) (n j : nat) :
  NoDup (map animal_id df) ->
  In g (create_contemporary_groups w true df) ->
  contemporary_group g = Some (group_name m n) ->
  (1 <= j <= n)%nat ->
  exists g', In g' (create_contemporary_groups w true df)
             /\ mgmt_group (record g') = Some m
             /\ contemporary_group g' = Some (group_name m j).
Proof.
  intros Hnd Hg Hl Hj.
  destruct (labelled_row w df g m n Hnd Hg Hl) as [_ He].
  destruct (assign_windows_consecutive w _ (record g, n) j He Hj) as [[a j'] [Ha Es]].
  simpl in Es. subst j'. fold (windows_of w df m) in Ha.
  destruct (windows_of_facts w df m) as [Hr _].
  assert (Hdf : In a (mob df m)).
  { apply (Permutation_in _ (sort_values_permutation _)). rewrite <- Hr.
    now apply (in_map fst) in Ha. }
  apply filter_In in Hdf. destruct Hdf as [Hdf Em].
  apply opt_string_eqb_true in Em. destruct Em as [Em _].
  assert (Hout : exists g', In g' (create_contemporary_groups w true df) /\ record g' = a).
  { pose proof (result_rows w df) as Hrec.
    rewrite <- Hrec in Hdf. apply in_map_iff in Hdf.
    destruct Hdf as [g' [E Hg']]. eauto. }
  destruct Hout as [g' [Hg' <-]]. exists g'. split; [exact Hg'|]. split; [exact Em|].
  destruct (cohort_of_row w df Hnd g' Hg') as [_ C]. rewrite Em in C.
  destruct C as [n' [Hn' Hl']]. rewrite Hl'. do 2 f_equal.
  assert (Hnd' : NoDup (map fst (windows_of w df m))).
  { rewrite Hr. apply (Permutation_NoDup (Permutation_sym (sort_values_permutation _))).
    apply (NoDup_map_inv animal_id). now apply filter_ids_distinct. }
  assert (E : (record g', n') = (record g', j))
    by (apply (NoDup_map_inj fst (windows_of w df m)); auto).
  now injection E.
Qed.

Lemma cohort_numbers_consecutive_witness :
  exists g', In g' (create_contemporary_groups 30 true Examples.mob_with_gaps)
             /\ mgmt_group (record g') = Some "MOB1"
             /\ contemporary_group g' = Some (group_name "MOB1" 2).
Proof.
  apply (cohort_numbers_consecutive 30 Examples.mob_with_gaps
           (mkGrouped (mkAnimal "A2" (Some "MOB1") None) (Some "MOB1_G3")) "MOB1" 3 2).
  - simpl. repeat constructor; simpl; intuition discriminate.
  - vm_compute. auto.
  - reflexivity.
  - lia.
Defined.

End GroupingMore.

(* ===================================================================== *)
(** * The scoring run (scoring/engine.py) *)
(* ===================================================================== *)

Section EngineMore.
Import Pandas Models Ranker Filters SoftFilters Rams Engine Spec SpecMore.

Lemma final_count_len (config : AnalysisConfig) (dtypes : Dtypes) (df : DataFrame) :
  final_count (snd (apply_hard_filters config dtypes df))
  = len (fst (apply_hard_filters config dtypes df)).
Proof.
  unfold apply_hard_filters.
  match goal with |- context [let '(a, b) := ?st in _] => destruct st as [fd fr] end.
  reflexivity.
Qed.

Lemma has_column_columns (df df' : DataFrame) (c : string) :
  columns df' = columns df -> has_column df' c = has_column df c.
Proof. unfold has_column. now intros ->. Qed.

Lemma filtered_len_le (config : AnalysisConfig) (dtypes : Dtypes) (df : DataFrame) :
  (len (fst (apply_hard_filters config dtypes df)) <= len df)%nat.
Proof.
  destruct (apply_hard_filters_rows config dtypes df) as [_ Hr]. cbv zeta in Hr.
  unfold len. rewrite Hr. apply filter_length_le.
Qed.

(** Scoring keeps the columns it does not compute. *)
Lemma calculate_scores_keeps (config : AnalysisConfig) (df : DataFrame) :
  exists ranked,
    calculate_scores config df = inr ranked
    /\ len ranked = len df
    /\ has_column ranked "composite_score" = true
    /\ (forall c, has_column df c = true ->
                  String.eqb c "composite_score" = false ->
                  String.eqb c "rank" = false ->
                  column ranked c = column df c).
Proof.
  destruct (calculate_scores_frame config df) as [ranked [Hr [Hlen [Hother [Hrank Hsome]]]]].
  cbv zeta in *.
  destruct (category_scores_frame df) as [_ [_ [Hcat _]]]. cbv zeta in Hcat.
  destruct (composite_frame config (_calculate_category_scores df))
    as [_ [Hhas [Hcomp _]]]. cbv zeta in Hhas, Hcomp.
  exists ranked. split; [exact Hr|]. split; [exact Hlen|]. split.
  - unfold calculate_scores, _add_ranking in Hr. cbv zeta in Hr. rewrite Hhas in Hr.
    destruct (astype_int _) as [e|ranks]; [discriminate|].
    injection Hr as <-. rewrite has_column_assign, Hhas. reflexivity.
  - intros c Hc E1 E2. rewrite (Hother c E2), (Hcomp c E1). now apply Hcat.
Qed.

(** The value of an animal that meets a condition on a column: it
    satisfies the comparison, or it is a [pd.NA] of a nullable column in
    which no animal of the frame fails the comparison. *)
Lemma meets_value (df : DataFrame) (dtypes : Dtypes) (col : string) (ok : cell -> bool)
    (r : Row) :
  meets df (fun r0 => compared (dtypes col) (r0 col) (ok (r0 col))) r = true ->
  ok (r col) = true
  \/ (r col = None /\ dtypes col = true
      /\ Forall (fun u => u = None \/ ok u = true) (column df col)).
Proof.
  unfold meets. cbn beta. destruct (r col) as [v|] eqn:Er; [now left|].
  destruct (dtypes col) eqn:Ed; cbn [compared]; [|discriminate].
  intro H. right. split; [reflexivity|]. split; [reflexivity|].
  apply negb_true_iff in H.
  unfold column. apply Forall_forall. intros u Hu. apply in_map_iff in Hu.
  destruct Hu as [r' [<- Hr']].
  destruct (r' col) as [v'|] eqn:Er'; [|now left]. right.
  destruct (ok (Some v')) eqn:Eo; [reflexivity|]. exfalso.
  match type of H with
  | some_fails ?d ?m = false => assert (Hs : some_fails d m = true); [|congruence]
  end.
  unfold some_fails. apply existsb_exists. exists r'. split; [exact Hr'|].
  cbn beta. now rewrite Er', Eo.
Qed.

(** X16. Hard filters, soft filters and scoring, run one after the
    other as [score_animals] does, always produce a ranked frame; it has
    one row per animal that the hard filters kept.  Whenever a hard
    filter is switched on and the input has its column, every value of
    that column in the ranked frame meets the filter's condition, or it
    is the [pd.NA] of a nullable column in which no animal of the input
    failed the condition (the filter was then not applied). *)
Theorem scored_animals_meet_hard_thresholds (config : AnalysisConfig) (dtypes : Dtypes)
    (df : DataFrame) :
  let hard := apply_hard_filters config dtypes df in
  let soft := apply_soft_filters config (fst hard) in
  exists ranked,
    calculate_scores config (fst soft) = inr ranked
    /\ len ranked = final_count (snd hard)
    /\ (len ranked <= len df)%nat
    /\ Forall (fun f : bool * string * (cell -> bool) =>
                 let '(enabled, col, ok) := f in
                 enabled && has_column df col = true ->
                 Forall (fun v =>
                           ok v = true
                           \/ (v = None /\ dtypes col = true
                               /\ Forall (fun u => u = None \/ ok u = true) (column df col)))
                        (column ranked col))
              (hard_thresholds config).
Proof.
  cbv zeta.
  destruct (apply_hard_filters_rows config dtypes df) as [Hcols Hrows].
  cbv zeta in Hcols, Hrows.
  destruct (soft_filters_frame config (fst (apply_hard_filters config dtypes df)))
    as [Slen [Skeep _]]. cbv zeta in Slen, Skeep.
  destruct (calculate_scores_keeps config
              (fst (apply_soft_filters config (fst (apply_hard_filters config dtypes df)))))
    as [ranked [Hr [Hlen [_ Hkeep]]]].
  exists ranked. split; [exact Hr|].
  assert (Hl : len ranked = len (fst (apply_hard_filters config dtypes df))) by congruence.
  split; [now rewrite final_count_len|].
  split; [rewrite Hl; apply filtered_len_le|].
  assert (Hcol : forall col,
             ~ In col soft_flag_columns ->
             String.eqb col "composite_score" = false ->
             String.eqb col "rank" = false ->
             has_column df col = true ->
             column ranked col
             = map (fun r : Row => r col) (filter (survives config dtypes df) (rows df))).
  { intros col Hs E1 E2 Hdf. destruct (Skeep col Hs) as [Shas Scol].
    rewrite Hkeep; [|rewrite Shas, (has_column_columns df _ col Hcols); exact Hdf|exact E1|exact E2].
    rewrite Scol. unfold column. now rewrite Hrows. }
  assert (Hsurv : forall r, In r (filter (survives config dtypes df) (rows df)) ->
                            survives config dtypes df r = true)
    by (intros r Hin; now apply filter_In in Hin).
  unfold hard_thresholds.
  repeat apply Forall_cons; try apply Forall_nil; intro Hon;
    (rewrite Hcol;
     [| unfold soft_flag_columns; simpl; intuition discriminate
      | reflexivity | reflexivity
      | apply andb_true_iff in Hon; tauto ]);
    apply Forall_forall; intros v Hv; apply in_map_iff in Hv;
    destruct Hv as [r [<- Hin]]; specialize (Hsurv r Hin);
    unfold survives, hard_filters in Hsurv; cbn [forallb] in Hsurv;
    rewrite !andb_true_iff in Hsurv; rewrite Hon in *; cbn [negb orb] in Hsurv;
    destruct Hsurv as [H1 [H2 [H3 [H4 [H5 [H6 _]]]]]].
  - exact (meets_value df dtypes "wt_birth"
             (fun c => cell_ge c (min_birth_weight config)) r H1).
  - exact (meets_value df dtypes "footrot_score"
             (fun c => cell_le c (inject_Z (max_footrot_score config))) r H2).
  - exact (meets_value df dtypes "dag_score"
             (fun c => cell_le c (inject_Z (max_dag_score config))) r H3).
  - exact (meets_value df dtypes "wt_wean"
             (fun c => cell_ge c (min_weaning_weight config)) r H4).
  - exact (meets_value df dtypes "micron"
             (fun c => cell_le c (max_micron config)) r H5).
  - exact (meets_value df dtypes "bse_pass" (fun c => cell_eqb c 1) r H6).
Qed.

(** ** The checks of [validate_scoring] *)

Lemma fold_min_lt (t : Q) (xs : list Q) (x : Q) :
  negb (Qle_bool t (fold_left (fun a b => if Qle_bool a b then a else b) xs x))
  = existsb (fun v => negb (Qle_bool t v)) (x :: xs).
Proof.
  revert x. induction xs as [|y xs IH]; intro x; cbn [fold_left].
  - simpl. now rewrite orb_false_r.
  - rewrite IH. cbn [existsb].
    destruct (Qle_bool x y) eqn:E.
    + destruct (Qle_bool t x) eqn:E1, (Qle_bool t y) eqn:E2; simpl; try reflexivity.
      exfalso. apply Qle_bool_iff in E, E1. apply Qle_bool_false in E2. lra.
    + destruct (Qle_bool t x) eqn:E1, (Qle_bool t y) eqn:E2; simpl; try reflexivity.
      exfalso. apply Qle_bool_false in E, E1. apply Qle_bool_iff in E2. lra.
Qed.

Lemma fold_max_gt (t : Q) (xs : list Q) (x : Q) :
  negb (Qle_bool (fold_left (fun a b => if Qle_bool a b then b else a) xs x) t)
  = existsb (fun v => negb (Qle_bool v t)) (x :: xs).
Proof.
  revert x. induction xs as [|y xs IH]; intro x; cbn [fold_left].
  - simpl. now rewrite orb_false_r.
  - rewrite IH. cbn [existsb].
    destruct (Qle_bool x y) eqn:E.
    + destruct (Qle_bool x t) eqn:E1, (Qle_bool y t) eqn:E2; simpl; try reflexivity.
      exfalso. apply Qle_bool_iff in E, E2. apply Qle_bool_false in E1. lra.
    + destruct (Qle_bool x t) eqn:E1, (Qle_bool y t) eqn:E2; simpl; try reflexivity.
      exfalso. apply Qle_bool_false in E, E2. apply Qle_bool_iff in E1. lra.
Qed.

Lemma existsb_dropna (p : Q -> bool) (s : Series) :
  existsb p (dropna s)
  = existsb (fun c => match c with Some v => p v | None => false end) s.
Proof.
  induction s as [|[v|] s IH]; simpl; [reflexivity | now rewrite IH | exact IH].
Qed.

Lemma series_min_lt (s : Series) (t : Q) :
  cell_lt (series_min s) t = existsb (fun c => cell_lt c t) s.
Proof.
  unfold series_min.
  transitivity (existsb (fun v => negb (Qle_bool t v)) (dropna s));
    [|apply existsb_dropna].
  destruct (dropna s) as [|x xs]; [reflexivity|]. apply fold_min_lt.
Qed.

Lemma series_max_gt (s : Series) (t : Q) :
  cell_gt (series_max s) t = existsb (fun c => cell_gt c t) s.
Proof.
  unfold series_max.
  transitivity (existsb (fun v => negb (Qle_bool v t)) (dropna s));
    [|apply existsb_dropna].
  destruct (dropna s) as [|x xs]; [reflexivity|]. apply fold_max_gt.
Qed.

Lemma sorted_ranks_monotonic (ks : list nat) :
  StronglySorted le ks ->
  is_monotonic_increasing (map (fun k => Some (inject_Z (Z.of_nat k))) ks) = true.
Proof.
  induction ks as [|k ks IH]; intro Hs; [reflexivity|].
  inversion Hs as [|? ? Hs' Hall]; subst. cbn [map is_monotonic_increasing].
  rewrite (IH Hs'), andb_true_r.
  destruct ks as [|k' ks]; [reflexivity|]. cbn [map].
  apply Qle_bool_inject_nat. inversion Hall; subst. assumption.
Qed.

(** X17. After a scoring run, [validate_scoring] never reports that the
    filtered data has more rows than the original, nor that the rams'
    ranks are out of order; the only issue it can report is a composite
    score outside [0, 1], and it reports it exactly when some animal's
    composite score is below 0 or above 1. *)
Theorem validate_scoring_after_run (config : AnalysisConfig) (dtypes : Dtypes)
    (df : DataFrame) (sex : list string) :
  let hard := apply_hard_filters config dtypes df in
  let soft := apply_soft_filters config (fst hard) in
  exists ranked rams,
    calculate_scores config (fst soft) = inr ranked
    /\ rank_rams config ranked sex = inr rams
    /\ forall issue,
         In issue (validate_scoring (Some (mkScoringResults df (fst hard) ranked rams)))
         <-> issue = "Composite scores outside expected range [0, 1]"
             /\ exists q, In (Some q) (column ranked "composite_score") /\ (q < 0 \/ 1 < q).
Proof.
  cbv zeta.
  destruct (calculate_scores_keeps config
              (fst (apply_soft_filters config (fst (apply_hard_filters config dtypes df)))))
    as [ranked [Hr [_ [Hhas _]]]].
  destruct (rank_rams_frame config ranked sex) as [rams [Hrams [_ [[ks [Hks Hsorted]] _]]]].
  exists ranked, rams. split; [exact Hr|]. split; [exact Hrams|].
  unfold validate_scoring. cbn [original_data filtered_data scored_data ranked_rams].
  assert (E1 : (len df <? len (fst (apply_hard_filters config dtypes df)))%nat = false)
    by (apply Nat.ltb_ge, filtered_len_le).
  rewrite E1, Hhas, Hks, (sorted_ranks_monotonic ks Hsorted). cbn [negb].
  rewrite series_min_lt, series_max_gt.
  assert (Hgoal : forall issues3 : list string,
             (if has_column rams "rank" then issues3 else issues3) = issues3)
    by (intro; now destruct (has_column rams "rank")).
  rewrite Hgoal. intro issue.
  destruct (existsb (fun c => cell_lt c 0) (column ranked "composite_score")
            || existsb (fun c => cell_gt c 1) (column ranked "composite_score")) eqn:E.
  - cbn [app]. split.
    + intros [<-|[]]. split; [reflexivity|].
      apply orb_true_iff in E. destruct E as [E|E]; apply existsb_exists in E;
        destruct E as [c [Hc Hv]].
      * apply cell_lt_spec in Hv. destruct Hv as [q [-> Hq]]. exists q. auto.
      * apply cell_gt_spec in Hv. destruct Hv as [q [-> Hq]]. exists q. auto.
    + intros [-> _]. now left.
  - split; [intros []|]. intros [_ [q [Hq Hout]]]. exfalso.
    apply orb_false_iff in E. destruct E as [Elt Egt].
    destruct Hout as [Hout|Hout].
    + assert (existsb (fun c => cell_lt c 0) (column ranked "composite_score") = true);
        [|congruence].
      apply existsb_exists. exists (Some q). split; [exact Hq|].
      apply cell_lt_spec. eauto.
    + assert (existsb (fun c => cell_gt c 1) (column ranked "composite_score") = true);
        [|congruence].
      apply existsb_exists. exists (Some q). split; [exact Hq|].
      apply cell_gt_spec. eauto.
Qed.

(** X18. The retention rate reported after hard filtering lies between 0
    and 100; it is 100 exactly when the input is not empty and no animal
    was removed, and 0 for an empty input. *)
Theorem retention_rate_bounds (config : AnalysisConfig) (dtypes : Dtypes)
    (df scored rams : DataFrame) :
  let hard := apply_hard_filters config dtypes df in
  let rate := retention_rate (mkScoringResults df (fst hard) scored rams) in
  0 <= rate /\ rate <= 100
  /\ (rate == 100 <-> (0 < len df)%nat /\ total_removed (snd hard) = 0%nat)
  /\ (len df = 0%nat -> rate == 0).
Proof.
  cbv zeta. unfold retention_rate. cbn [original_data filtered_data].
  pose proof (filtered_len_le config dtypes df) as Hle.
  assert (Hrem : total_removed (snd (apply_hard_filters config dtypes df))
                 = (len df - len (fst (apply_hard_filters config dtypes df)))%nat).
  { unfold apply_hard_filters.
    match goal with |- context [let '(a, b) := ?st in _] => destruct st as [fd fr] end.
    reflexivity. }
  rewrite Hrem.
  set (f := len (fst (apply_hard_filters config dtypes df))) in *.
  set (t := len df) in *.
  destruct (0 <? t)%nat eqn:Et.
  - apply Nat.ltb_lt in Et.
    pose proof (percent_mono 0 f t Et (Nat.le_0_l f)) as H0.
    rewrite percent_zero in H0.
    pose proof (percent_mono f t t Et Hle) as H1.
    rewrite (percent_full t Et) in H1.
    split; [exact H0|]. split; [exact H1|]. split; [|lia].
    pose proof (inject_nat_pos t Et) as Hp.
    split.
    + intro E. split; [exact Et|].
      assert (EF : inject_Z (Z.of_nat f) == inject_Z (Z.of_nat t)).
      { transitivity (inject_Z (Z.of_nat f) / inject_Z (Z.of_nat t) * 100
                      * inject_Z (Z.of_nat t) / 100); [field; intro Hz; rewrite Hz in Hp; exact (Qlt_irrefl 0 Hp)|].
        rewrite E. field. }
      unfold Qeq in EF. cbn [Qnum Qden inject_Z] in EF. lia.
    + intros [_ E]. assert (f = t) as -> by lia. now apply percent_full.
  - apply Nat.ltb_ge in Et. split; [lra|]. split; [lra|]. split.
    + split; [intro E; exfalso; lra | intros [H _]; lia].
    + reflexivity.
Qed.

End EngineMore.

(* ===================================================================== *)
(** * Presets (config_presets/presets.py) *)
(* ===================================================================== *)

Section PresetsMore.
Import Models Presets.

Lemma getitem_set_same {V} (d : PyDict.dict V) (k : string) (v : V) :
  getitem (PyDict.set d k v) k = Some v.
Proof.
  induction d as [|[k' v'] d IH]; simpl.
  - now rewrite String.eqb_refl.
  - destruct (String.eqb k' k) eqn:E; simpl; rewrite E; [reflexivity | exact IH].
Qed.

Lemma getitem_set_other {V} (d : PyDict.dict V) (k k' : string) (v : V) :
  k' <> k -> getitem (PyDict.set d k v) k' = getitem d k'.
Proof.
  intro Hne. induction d as [|[k0 v0] d IH]; simpl.
  - destruct (String.eqb_spec k k'); [congruence | reflexivity].
  - destruct (String.eqb_spec k0 k) as [->|Hk]; simpl.
    + destruct (String.eqb_spec k k'); [congruence | reflexivity].
    + destruct (String.eqb k0 k'); [reflexivity | exact IH].
Qed.

(** The weights of a constructed configuration pass the validator. *)
Lemma init_weights_valid (a : ConfigArgs) (config : AnalysisConfigOf Float64.float) :
  AnalysisConfig_init a = inr config ->
  validate_weights_sum (weights config) = inr (weights config).
Proof.
  unfold AnalysisConfig_init. destruct (arg_weights a) as [v|].
  - destruct (validate_weights_sum v) as [e|v'] eqn:E; [discriminate|].
    intro H. injection H as <-. cbn [weights].
    unfold validate_weights_sum in E |- *.
    destruct (PrimFloat.ltb _ _) eqn:Eb; [discriminate|].
    injection E as <-. now rewrite Eb.
  - intro H. injection H as <-. reflexivity.
Qed.

(** X19. A preset that has no [weights] entry is always rejected: the
    missing entry is replaced by an empty dictionary, not by the default
    weights of [AnalysisConfig], and the empty dictionary fails the
    validator.  Every built-in preset is of this kind. *)
Theorem preset_without_weights_rejected (presets : PyDict.dict PresetData) (name : string)
    (preset_data : PresetData) :
  get_preset presets name = inr preset_data ->
  p_weights preset_data = None ->
  create_config_from_preset presets name
  = inl (ConfigInvalid (ValueError "Weights must sum to 1.0")).
Proof.
  intros Hget Hw. unfold create_config_from_preset. rewrite Hget, Hw. reflexivity.
Qed.

Lemma preset_without_weights_rejected_witness :
  create_config_from_preset DEFAULT_PRESETS "balanced"
  = inl (ConfigInvalid (ValueError "Weights must sum to 1.0")).
Proof.
  apply (preset_without_weights_rejected DEFAULT_PRESETS "balanced"
           (flat_preset (3#10) (2#10) (2#10) (2#10) (1#10))); reflexivity.
Defined.

(** X20. Saving a configuration as a preset and creating a
    configuration from that preset gives the configuration back, for
    every configuration that [AnalysisConfig] can construct; a preset of
    another name gives what it gave before. *)
Theorem save_then_create_round_trip (presets : PyDict.dict PresetData)
    (name description : string) (a : ConfigArgs) (config : AnalysisConfigOf Float64.float) :
  AnalysisConfig_init a = inr config ->
  create_config_from_preset (save_preset presets name config description) name = inr config
  /\ forall other preset_data,
       other <> name ->
       get_preset presets other = inr preset_data ->
       create_config_from_preset (save_preset presets name config description) other
       = create_config_from_preset presets other.
Proof.
  intro Hinit. split.
  - unfold create_config_from_preset, get_preset, save_preset.
    rewrite getitem_set_same. cbn [or_default p_contemporary_group_window_days
      p_normalization_method p_min_birth_weight p_max_footrot_score p_max_dag_score
      p_min_weaning_weight p_max_micron p_bse_pass_required p_weights p_trait_weights].
    unfold AnalysisConfig_init. cbn [arg_weights].
    rewrite (init_weights_valid a config Hinit).
    destruct config. reflexivity.
  - intros other preset_data Hne Hget.
    unfold create_config_from_preset, get_preset, save_preset in *.
    rewrite (getitem_set_other presets name other _ Hne).
    destruct (getitem presets other) as [p|]; [reflexivity | discriminate].
Qed.

Lemma save_then_create_round_trip_witness :
  create_config_from_preset
    (save_preset DEFAULT_PRESETS "custom" Examples.constructed_default "house blend") "custom"
  = inr Examples.constructed_default
  /\ forall other preset_data,
       other <> "custom" ->
       get_preset DEFAULT_PRESETS other = inr preset_data ->
       create_config_from_preset
         (save_preset DEFAULT_PRESETS "custom" Examples.constructed_default "house blend") other
       = create_config_from_preset DEFAULT_PRESETS other.
Proof.
  apply (save_then_create_round_trip DEFAULT_PRESETS "custom" "house blend" no_args).
  reflexivity.
Defined.

End PresetsMore.

(* ===================================================================== *)
(** * Metrics feeding the filters (metrics/calculator.py) *)
(* ===================================================================== *)

Section CalculatorMore.
Import Pandas Models Filters SoftFilters Calculator Spec SpecMore.

Lemma combine_map_self {A B} (g : A -> B) (l : list A) :
  combine l (map g l) = map (fun x => (x, g x)) l.
Proof. induction l as [|x l IH]; simpl; [reflexivity | now rewrite IH]. Qed.

Lemma filter_map_swap {A B} (p : B -> bool) (g : A -> B) (l : list A) :
  filter p (map g l) = map g (filter (fun x => p (g x)) l).
Proof.
  induction l as [|x l IH]; simpl; [reflexivity|].
  destruct (p (g x)); simpl; now rewrite IH.
Qed.

(** The frame of [_calculate_bse_status]: every row gets its verdict. *)
Lemma bse_status_frame (dtypes : Dtypes) (df : DataFrame) :
  _calculate_bse_status dtypes df
  = {| columns := add_column (columns df) "bse_pass";
       rows := map (fun r => set_cell r "bse_pass" (bool_cell (passes_bse dtypes df r)))
                   (rows df) |}.
Proof.
  unfold _calculate_bse_status, bse_criteria, passes_bse, bse_masks.
  cbn [forallb fst snd].
  destruct (has_column df "wt_300d"), (has_column df "footrot_score"),
           (has_column df "dag_score"), (has_column df "temperament");
    cbn [app negb orb andb]; unfold assign, assign_rowwise; f_equal;
    rewrite ?combine_map_self, ?map_map; apply map_ext; intro r;
    cbn [fst snd forallb andb]; rewrite ?andb_true_r; reflexivity.
Qed.

Lemma bool_cell_eqb (b : bool) : cell_eqb (bool_cell b) 1 = b.
Proof. destruct b; reflexivity. Qed.

(** A condition that does not read [bse_pass] gives the same verdict on
    the frame with the BSE verdicts as on the frame without them. *)
Lemma meets_set_bse (df : DataFrame) (cols : list string) (f : Row -> cell)
    (cond : Row -> mask_cell) (r : Row) :
  (forall r0 v, cond (set_cell r0 "bse_pass" v) = cond r0) ->
  meets {| columns := cols; rows := map (fun r0 => set_cell r0 "bse_pass" (f r0)) (rows df) |}
        cond (set_cell r "bse_pass" (f r))
  = meets df cond r.
Proof.
  intro Hc. unfold meets, some_fails. cbn [rows]. rewrite Hc.
  destruct (cond r); [reflexivity|]. f_equal.
  induction (rows df) as [|r0 rs IH]; [reflexivity|].
  cbn [map existsb]. now rewrite Hc, IH.
Qed.

(** On a frame with BSE verdicts, a row survives the hard filters when it
    meets the measurement filters and the BSE criteria. *)
Lemma survives_bse (config : AnalysisConfig) (dtypes : Dtypes) (df : DataFrame) (r : Row) :
  bse_pass_required config = true ->
  survives config dtypes (_calculate_bse_status dtypes df)
           (set_cell r "bse_pass" (bool_cell (passes_bse dtypes df r)))
  = passes_measurements config dtypes df r && passes_bse dtypes df r.
Proof.
  intro Hreq. rewrite bse_status_frame.
  unfold survives, passes_measurements, hard_filters.
  cbn [removelast forallb]. rewrite Hreq.
  set (bse := {| columns := add_column (columns df) "bse_pass";
                 rows := map (fun r0 => set_cell r0 "bse_pass"
                                         (bool_cell (passes_bse dtypes df r0)))
                             (rows df) |}).
  assert (Hc : forall col, String.eqb col "bse_pass" = false ->
                           has_column bse col = has_column df col).
  { intros col E. unfold has_column, bse. cbn [columns]. unfold add_column.
    destruct (existsb (String.eqb "bse_pass") (columns df)); [reflexivity|].
    rewrite existsb_app. cbn [existsb]. rewrite E. now rewrite !orb_false_r. }
  assert (Hb : has_column bse "bse_pass" = true).
  { unfold has_column, bse. cbn [columns]. unfold add_column.
    destruct (existsb (String.eqb "bse_pass") (columns df)) eqn:E; [exact E|].
    rewrite existsb_app. cbn [existsb]. rewrite String.eqb_refl. now rewrite orb_true_r. }
  rewrite !Hc by reflexivity. rewrite Hb.
  unfold bse.
  assert (Hm : meets {| columns := add_column (columns df) "bse_pass";
                        rows := map (fun r0 => set_cell r0 "bse_pass"
                                                (bool_cell (passes_bse dtypes df r0)))
                                    (rows df) |}
                     (col_eqb dtypes "bse_pass" 1)
                     (set_cell r "bse_pass" (bool_cell (passes_bse dtypes df r)))
               = passes_bse dtypes df r).
  { unfold meets, col_eqb, compared, set_cell. cbn [String.eqb Ascii.eqb Bool.eqb].
    unfold bool_cell at 1. now rewrite bool_cell_eqb. }
  rewrite Hm.
  repeat rewrite (meets_set_bse df _ (fun r0 => bool_cell (passes_bse dtypes df r0)))
    by (intros r0 v; reflexivity).
  cbn [andb negb orb]. now rewrite !andb_true_r, !andb_assoc.
Qed.

(** X21. With the BSE pass required, the animals that come out of the
    hard filters after [_calculate_bse_status] are exactly those that pass
    the five measurement filters and fail no BSE criterion whose column
    the frame has (300-day weight at least 50, footrot and dag scores at
    most 2, temperament at least 3): a [NaN] fails its criterion, a
    [pd.NA] of a nullable column is skipped and does not.  Their
    measurements are unchanged and their verdict is a pass. *)
Theorem bse_required_survivors (config : AnalysisConfig) (dtypes : Dtypes) (df : DataFrame) :
  bse_pass_required config = true ->
  let out := fst (apply_hard_filters config dtypes (_calculate_bse_status dtypes df)) in
  let kept := filter (fun r => passes_measurements config dtypes df r
                               && passes_bse dtypes df r) (rows df) in
  (forall c, c <> "bse_pass" -> column out c = map (fun r : Row => r c) kept)
  /\ column out "bse_pass" = map (fun _ => Some 1) kept.
Proof.
  intros Hreq out kept.
  assert (Hrows : rows out
                  = map (fun r => set_cell r "bse_pass" (bool_cell (passes_bse dtypes df r)))
                        kept).
  { subst out kept.
    destruct (apply_hard_filters_rows config dtypes (_calculate_bse_status dtypes df))
      as [_ Hr].
    cbv zeta in Hr.
    rewrite Hr. rewrite bse_status_frame at 2. cbn [rows].
    rewrite filter_map_swap. f_equal. apply filter_ext. intro r.
    now apply survives_bse. }
  split.
  - intros c Hc. unfold column. rewrite Hrows, map_map. apply map_ext. intro r.
    unfold set_cell. destruct (String.eqb_spec c "bse_pass"); [contradiction | reflexivity].
  - unfold column. rewrite Hrows, map_map. apply map_ext_in. intros r Hin.
    unfold set_cell. rewrite String.eqb_refl.
    subst kept. apply filter_In in Hin. destruct Hin as [_ Hk].
    apply andb_true_iff in Hk. destruct Hk as [_ Hk]. now rewrite Hk.
Qed.

Lemma bse_required_survivors_witness :
  let out := fst (apply_hard_filters Examples.default_config Cleaner.cleaned_dtypes
                    (_calculate_bse_status Cleaner.cleaned_dtypes Examples.df_footrot)) in
  let kept := filter (fun r => passes_measurements Examples.default_config
                                 Cleaner.cleaned_dtypes Examples.df_footrot r
                               && passes_bse Cleaner.cleaned_dtypes Examples.df_footrot r)
                     (rows Examples.df_footrot) in
  (forall c, c <> "bse_pass" -> column out c = map (fun r : Row => r c) kept)
  /\ column out "bse_pass" = map (fun _ => Some 1) kept.
Proof.
  apply (bse_required_survivors Examples.default_config Cleaner.cleaned_dtypes
           Examples.df_footrot).
  reflexivity.
Defined.

(** An animal of 60 kg without a footrot score in a cleaned frame: its
    footrot criterion is [pd.NA], the verdict is a pass, and it comes out
    of the hard filters. *)
Example bse_missing_footrot_passes :
  let out := fst (apply_hard_filters Examples.default_config Cleaner.cleaned_dtypes
                    (_calculate_bse_status Cleaner.cleaned_dtypes
                       Examples.df_heavy_no_footrot)) in
  column out "wt_300d" = [Some 60]
  /\ column out "footrot_score" = [None]
  /\ column out "bse_pass" = [Some 1].
Proof. vm_compute. repeat split. Qed.

(** ** Weaning rate and its soft filter *)

Lemma Forall2_map_right {A B} (R : A -> B -> Prop) (h : A -> B) (l : list A) :
  (forall x, In x l -> R x (h x)) -> Forall2 R l (map h l).
Proof.
  induction l as [|x l IH]; intro H; simpl; constructor.
  - apply H. now left.
  - apply IH. intros y Hy. apply H. now right.
Qed.

Lemma half_ratio (w b : Q) : 0 < b -> (w / b < 5 # 10 <-> 2 * w < b).
Proof.
  intro Hb. split; intro H.
  - assert (E : w == (w / b) * b) by (field; lra).
    assert (Hm : (w / b) * b < (5 # 10) * b) by (apply Qmult_lt_compat_r; assumption).
    rewrite <- E in Hm. lra.
  - apply Qlt_shift_div_r; [exact Hb | lra].
Qed.

(** The weaning rate of a row, as [_calculate_reproduction_metrics] writes it. *)
Lemma weaning_rate_column (df : DataFrame) :
  has_column df "lambs_born" = true ->
  has_column df "lambs_weaned" = true ->
  let metrics := _calculate_reproduction_metrics df in
  len metrics = len df
  /\ has_column metrics "weaning_rate" = true
  /\ column metrics "weaning_rate"
     = map (fun r => if cell_gt (r "lambs_born") 0
                     then cell_div (r "lambs_weaned") (r "lambs_born")
                     else None)
           (rows df).
Proof.
  intros Hb Hw. unfold _calculate_reproduction_metrics. rewrite Hb, Hw. cbn [andb].
  cbv beta iota zeta.
  pose (s := map (fun r : Row => if cell_gt (r "lambs_born") 0
                                 then cell_div (r "lambs_weaned") (r "lambs_born")
                                 else None) (rows df)).
  assert (Ls : List.length s = len df) by (subst s; apply length_map).
  pose (d1 := assign df "weaning_rate" s).
  assert (L1 : len d1 = len df) by (subst d1; now apply len_assign).
  assert (H1 : has_column d1 "weaning_rate" = true)
    by (subst d1; rewrite has_column_assign, String.eqb_refl; apply orb_true_r).
  assert (C1 : column d1 "weaning_rate" = s)
    by (subst d1; rewrite column_assign by exact Ls; now rewrite String.eqb_refl).
  pose (d2 := if has_column df "preg_scan"
              then assign d1 "pregnancy_success" (column df "preg_scan") else d1).
  assert (P2 : len d2 = len df /\ has_column d2 "weaning_rate" = true
               /\ column d2 "weaning_rate" = s).
  { subst d2. destruct (has_column df "preg_scan"); [|auto].
    assert (Lc : List.length (column df "preg_scan") = len d1)
      by (rewrite length_column; now symmetry).
    split; [rewrite len_assign by exact Lc; exact L1|]. split.
    - rewrite has_column_assign, H1. reflexivity.
    - rewrite column_assign by exact Lc. exact C1. }
  destruct P2 as [L2 [H2 C2]].
  assert (Lc : List.length (column df "lambs_weaned") = len d2)
    by (rewrite length_column; now symmetry).
  change (len (assign d2 "reproductive_efficiency" (column df "lambs_weaned")) = len df
          /\ has_column (assign d2 "reproductive_efficiency" (column df "lambs_weaned"))
                        "weaning_rate" = true
          /\ column (assign d2 "reproductive_efficiency" (column df "lambs_weaned"))
                    "weaning_rate" = s).
  clearbody d2.
  split; [rewrite len_assign by exact Lc; exact L2|]. split.
  - rewrite has_column_assign, H2. reflexivity.
  - rewrite column_assign by exact Lc. exact C2.
Qed.

(** X22. After [_calculate_reproduction_metrics], the soft filter on the
    weaning rate flags an animal exactly when it had lambs and weaned
    fewer than half of them; an animal with no lambs born, or with an
    unknown number of lambs born or weaned, has no weaning rate and is
    never flagged. *)
Theorem weaning_flag_meaning (config : AnalysisConfig) (df : DataFrame) :
  has_column df "lambs_born" = true ->
  has_column df "lambs_weaned" = true ->
  let metrics := _calculate_reproduction_metrics df in
  Forall2 (fun (r : Row) (flag : cell) =>
             (flag = Some 1 \/ flag = Some 0)
             /\ (flag = Some 1 <-> weaned_under_half r))
          (rows df)
          (column (fst (apply_soft_filters config metrics)) "soft_filter_weaning").
Proof.
  intros Hb Hw metrics.
  destruct (weaning_rate_column df Hb Hw) as [Hlen [Hhas Hcol]].
  fold metrics in Hlen, Hhas, Hcol.
  destruct (soft_filters_frame config metrics) as [_ [_ Hflags]].
  unfold soft_filters in Hflags.
  apply Forall_inv_tail, Forall_inv_tail, Forall_inv in Hflags.
  cbv beta iota zeta in Hflags. rewrite Hhas in Hflags. destruct Hflags as [Hflag _].
  assert (Hm : map (fun r : Row => bool_cell (cell_lt (r "weaning_rate") (5 # 10)))
                   (rows metrics)
               = map (fun c => bool_cell (cell_lt c (5 # 10)))
                     (column metrics "weaning_rate"))
    by (unfold column; now rewrite map_map).
  rewrite Hflag. unfold Row in *. rewrite Hm, Hcol, map_map.
  apply Forall2_map_right. intros r _. unfold weaned_under_half.
  destruct (r "lambs_born") as [b|] eqn:Eb; cbn [cell_gt].
  - destruct (negb (Qle_bool b 0)) eqn:Epos.
    + apply Qgt_bool_true in Epos.
      destruct (r "lambs_weaned") as [w|] eqn:Ew; cbn [cell_div cell_lt bool_cell].
      * destruct (negb (Qle_bool (5 # 10) (w / b))) eqn:Ehalf.
        -- apply Qgt_bool_true in Ehalf. apply (half_ratio w b Epos) in Ehalf.
           split; [now left|]. split; [|reflexivity].
           intros _. exists b, w. auto.
        -- split; [now right|]. split; [discriminate|].
           intros [b' [w' [E1 [E2 [Hp Hh]]]]]. injection E1 as <-. injection E2 as <-.
           apply (half_ratio w b Epos) in Hh. apply Qgt_bool_true in Hh. congruence.
      * split; [now right|]. split; [discriminate|].
        intros [b' [w' [_ [E2 _]]]]. discriminate.
    + cbn [cell_lt bool_cell]. split; [now right|]. split; [discriminate|].
      intros [b' [w' [E1 [_ [Hp _]]]]]. injection E1 as <-.
      apply Qgt_bool_true in Hp. congruence.
  - cbn [cell_lt bool_cell]. split; [now right|]. split; [discriminate|].
    intros [b' [w' [E1 _]]]. discriminate.
Qed.

Lemma weaning_flag_meaning_witness :
  let df := mkDataFrame ["lambs_born"; "lambs_weaned"]
              [Examples.row_of [("lambs_born", Some 2); ("lambs_weaned", Some 0)];
               Examples.row_of [("lambs_born", Some 0); ("lambs_weaned", Some 0)]] in
  Forall2 (fun (r : Row) (flag : cell) =>
             (flag = Some 1 \/ flag = Some 0)
             /\ (flag = Some 1 <-> weaned_under_half r))
          (rows df)
          (column (fst (apply_soft_filters Examples.default_config
                          (_calculate_reproduction_metrics df)))
                  "soft_filter_weaning").
Proof.
  apply (weaning_flag_meaning Examples.default_config
           (mkDataFrame ["lambs_born"; "lambs_weaned"]
              [Examples.row_of [("lambs_born", Some 2); ("lambs_weaned", Some 0)];
               Examples.row_of [("lambs_born", Some 0); ("lambs_weaned", Some 0)]]));
    reflexivity.
Defined.

End CalculatorMore.

(* ===================================================================== *)
(** * Scoring a scored frame again (scoring/ranker.py) *)
(* ===================================================================== *)

Section Rescoring.
Import Pandas Models Ranker Rams Spec SpecMore.

Lemma combine_map_left {A B C} (h : A -> C) (l : list A) (ks : list B) :
  combine (map h l) ks = map (fun rv => (h (fst rv), snd rv)) (combine l ks).
Proof.
  revert ks. induction l as [|x l IH]; intros [|k ks]; simpl; try reflexivity.
  now rewrite IH.
Qed.

Lemma astype_int_length (l : list (option nat)) (cs : list cell) :
  astype_int l = inr cs -> List.length cs = List.length l.
Proof.
  revert cs. induction l as [|[k|] l IH]; intros cs H; simpl in H.
  - now injection H as <-.
  - destruct (astype_int l) as [e|cs'] eqn:E; [discriminate|].
    injection H as <-. simpl. f_equal. now apply IH.
  - discriminate.
Qed.

Lemma composite_cell_some (W : dict) (cs : PyDict.dict string) (r : Row) :
  exists q, composite_cell W cs r = Some q.
Proof.
  unfold composite_cell. destruct cs as [|item cs]; [eauto|].
  destruct (accumulate_weighted W (item :: cs)) as [[|f ws] t]; [eauto|].
  destruct (negb (Qle_bool t 0)); eauto.
Qed.

(** The frame of [_calculate_composite_score], row by row. *)
Lemma composite_rows (config : AnalysisConfig) (df : DataFrame) :
  _calculate_composite_score config df
  = {| columns := add_column (columns df) "composite_score";
       rows := map (fun r => set_cell r "composite_score"
                               (composite_cell (weights config)
                                  (collect_category_scores df (weights config)) r))
                   (rows df) |}.
Proof.
  unfold _calculate_composite_score, composite_cell. cbv zeta.
  destruct (collect_category_scores df (weights config)) as [|item items]; [reflexivity|].
  destruct (accumulate_weighted (weights config) (item :: items)) as [[|f ws] t];
    [|destruct (negb (Qle_bool t 0))];
    unfold assign; rewrite combine_map_self, map_map; reflexivity.
Qed.

Lemma add_ranking_rows (comp ranked : DataFrame) :
  _add_ranking comp = inr ranked ->
  columns ranked = add_column (columns comp) "rank"
  /\ exists ks, List.length ks = len comp
                /\ rows ranked
                   = map (fun rv : Row * cell => set_cell (fst rv) "rank" (snd rv))
                         (combine (rows comp) ks).
Proof.
  unfold _add_ranking. cbv zeta. destruct (has_column comp "composite_score").
  - destruct (astype_int (rank_desc_min (column comp "composite_score"))) as [e|ranks] eqn:E;
      [discriminate|].
    intro H. injection H as <-. split; [reflexivity|]. exists ranks. split; [|reflexivity].
    apply astype_int_length in E. rewrite E. unfold rank_desc_min.
    rewrite length_map. apply length_column.
  - intro H. injection H as <-. split; [reflexivity|].
    exists (map (fun _ : Row => Some 1) (rows comp)). split; [apply length_map|].
    unfold assign_rowwise. cbn [rows]. now rewrite combine_map_self, map_map.
Qed.

Lemma set_in {V} (d : PyDict.dict V) (k : string) (v : V) (item : string * V) :
  In item (PyDict.set d k v) -> item = (k, v) \/ In item d.
Proof.
  induction d as [|[k' v'] d IH]; simpl.
  - intros [<-|[]]. now left.
  - destruct (String.eqb_spec k' k) as [->|Hne]; simpl.
    + intros [<-|H]; auto.
    + intros [<-|H]; auto. destruct (IH H); auto.
Qed.

(** Every entry of the dictionary of the first loop names the score
    column of a configured category. *)
Lemma collect_items (df : DataFrame) (W : dict) (item : string * string) :
  In item (collect_category_scores df W) ->
  snd item = score_column (fst item) /\ In (fst item) (PyDict.keys W).
Proof.
  unfold collect_category_scores.
  assert (G : forall (ks : list string) (acc : PyDict.dict string),
             (forall k, In k ks -> In k (PyDict.keys W)) ->
             (forall it, In it acc ->
                         snd it = score_column (fst it) /\ In (fst it) (PyDict.keys W)) ->
             forall it,
               In it (fold_left (fun category_scores category =>
                                   let score_col := score_column category in
                                   if has_column df score_col
                                   then PyDict.set category_scores category score_col
                                   else category_scores) ks acc) ->
               snd it = score_column (fst it) /\ In (fst it) (PyDict.keys W)).
  { induction ks as [|k ks IH]; intros acc Hks Hacc it Hin; [now apply Hacc|].
    simpl in Hin. apply (IH _ (fun k' H => Hks k' (or_intror H))) in Hin; [exact Hin|].
    intros it' Hit'. destruct (has_column df (score_column k)); [|now apply Hacc].
    apply set_in in Hit'. destruct Hit' as [->|Hit']; [|now apply Hacc].
    split; [reflexivity|]. apply Hks. now left. }
  apply G; [auto | intros it []].
Qed.

Lemma collect_ext (df df' : DataFrame) (W : dict) :
  (forall c, In c (PyDict.keys W) ->
             has_column df (score_column c) = has_column df' (score_column c)) ->
  collect_category_scores df W = collect_category_scores df' W.
Proof.
  unfold collect_category_scores. generalize (@nil (string * string)).
  induction (PyDict.keys W) as [|k ks IH]; intros acc H; [reflexivity|].
  simpl. rewrite (H k (or_introl eq_refl)). apply IH.
  intros c Hc. apply H. now right.
Qed.

(** The composite score of a row depends on the row only through its
    category scores. *)
Lemma composite_cell_ext (W : dict) (cs : PyDict.dict string) (r r' : Row) :
  (forall item, In item cs -> r (snd item) = r' (snd item)) ->
  composite_cell W cs r = composite_cell W cs r'.
Proof.
  intro H. unfold composite_cell. destruct cs as [|item0 cs0] eqn:Ecs; [reflexivity|].
  rewrite <- Ecs in *. unfold accumulate_weighted, PyDict.items.
  pose proof (accumulate_weighted_fold W cs [] 0) as Hf. cbv zeta in Hf. rewrite Hf.
  cbn [app].
  set (ws := map (fun item : string * string =>
                    fun r0 : Row => scale (PyDict.get W (fst item) 0) (r0 (snd item)))
                 (filter (fun item : string * string =>
                            negb (Qle_bool (PyDict.get W (fst item) 0) 0)) cs)).
  assert (Hmap : map (fun f : Row -> cell => f r) ws = map (fun f : Row -> cell => f r') ws).
  { subst ws. rewrite !map_map. apply map_ext_in. intros item Hin.
    apply filter_In in Hin. destruct Hin as [Hin _]. now rewrite (H item Hin). }
  clearbody ws. destruct ws as [|f ws]; [reflexivity|].
  destruct (negb (Qle_bool _ 0)); [|reflexivity]. now rewrite Hmap.
Qed.

Lemma score_column_not_rank (c : string) : String.eqb (score_column c) "rank" = false.
Proof.
  apply String.eqb_neq. unfold score_column. intro E.
  apply (f_equal String.length) in E. rewrite length_append in E. simpl in E. lia.
Qed.

Lemma score_column_not_composite (c : string) :
  c <> "composite" -> String.eqb (score_column c) "composite_score" = false.
Proof.
  intro H. apply String.eqb_neq. unfold score_column. intro E. apply H.
  now apply (append_cancel_r "_score").
Qed.

Lemma category_scores_id (df : DataFrame) :
  Forall (fun c => has_column df c = true) score_columns ->
  _calculate_category_scores df = df.
Proof.
  unfold score_columns. intro H.
  inversion H as [|? ? H1 H']; subst. inversion H' as [|? ? H2 H'']; subst.
  inversion H'' as [|? ? H3 H3']; subst. inversion H3' as [|? ? H4 H4']; subst.
  inversion H4' as [|? ? H5 _]; subst.
  unfold _calculate_category_scores, mean_category, health_category, temperament_category.
  cbv zeta. now rewrite H1, H2, H3, H4, H5.
Qed.

Lemma add_column_present (cols : list string) (name : string) :
  existsb (String.eqb name) cols = true -> add_column cols name = cols.
Proof. unfold add_column. now intros ->. Qed.

(** Scoring a frame that holds rows of a scored frame, under its
    columns: every such row keeps its composite score, and only the rank
    is computed anew. *)
Lemma rescored_rows (config : AnalysisConfig) (df : DataFrame) :
  ~ In "composite" (PyDict.keys (weights config)) ->
  exists scored,
    calculate_scores config df = inr scored
    /\ forall sub,
         columns sub = columns scored ->
         (forall r, In r (rows sub) -> In r (rows scored)) ->
         exists rescored ks,
           calculate_scores config sub = inr rescored
           /\ columns rescored = columns sub
           /\ List.length ks = len sub
           /\ rows rescored
              = map (fun rv : Row * cell =>
                       set_cell (set_cell (fst rv) "composite_score"
                                          (fst rv "composite_score"))
                                "rank" (snd rv))
                    (combine (rows sub) ks)
           /\ column rescored "rank"
              = map (rank_cell (column sub "composite_score")) (column sub "composite_score").
Proof.
  intro Hno.
  destruct (calculate_scores_frame config df) as [scored [Hscored _]]. cbv zeta in Hscored.
  exists scored. split; [exact Hscored|].
  set (W := weights config) in *.
  set (cat := _calculate_category_scores df) in *.
  set (G := composite_cell W (collect_category_scores cat W)).
  (* the scored frame, row by row *)
  assert (Hform : columns scored
                  = add_column (add_column (columns cat) "composite_score") "rank"
                  /\ forall r', In r' (rows scored) ->
                       exists r k, r' = set_cell (set_cell r "composite_score" (G r)) "rank" k).
  { unfold calculate_scores in Hscored. cbv zeta in Hscored. fold cat in Hscored.
    rewrite (composite_rows config cat) in Hscored. fold W in Hscored. fold G in Hscored.
    apply add_ranking_rows in Hscored. cbn [columns rows] in Hscored.
    destruct Hscored as [Hcols [ks [_ Hrows]]]. split; [exact Hcols|].
    intros r' Hin. rewrite Hrows, combine_map_left, map_map in Hin.
    apply in_map_iff in Hin. destruct Hin as [[r k] [<- _]]. exists r, k. reflexivity. }
  destruct Hform as [Hcols Hrows].
  destruct (category_scores_frame df) as [_ [Hfive _]]. cbv zeta in Hfive. fold cat in Hfive.
  intros sub Hsub Hincl.
  assert (Hhas : forall c, has_column sub c
                           = has_column cat c || String.eqb c "composite_score"
                             || String.eqb c "rank").
  { intro c. unfold has_column. rewrite Hsub, Hcols, !has_column_add. reflexivity. }
  assert (Hid : _calculate_category_scores sub = sub).
  { apply category_scores_id. rewrite Forall_forall in *. intros c Hc.
    rewrite Hhas, (Hfive c Hc). reflexivity. }
  assert (Hcollect : collect_category_scores sub W = collect_category_scores cat W).
  { apply collect_ext. intros c Hc. rewrite Hhas.
    rewrite score_column_not_rank, score_column_not_composite, !orb_false_r; [reflexivity|].
    intro E. apply Hno. now rewrite <- E. }
  assert (Hsame : forall r', In r' (rows sub) ->
                             composite_cell W (collect_category_scores sub W) r'
                             = r' "composite_score").
  { intros r' Hin. destruct (Hrows r' (Hincl r' Hin)) as [r [k ->]].
    rewrite Hcollect. unfold set_cell at 3 4. cbn [String.eqb Ascii.eqb Bool.eqb].
    apply composite_cell_ext. intros item Hitem.
    destruct (collect_items cat W item Hitem) as [Hs Hk]. rewrite Hs.
    unfold set_cell. rewrite score_column_not_rank, score_column_not_composite; [reflexivity|].
    intro E. apply Hno. now rewrite <- E. }
  destruct (calculate_scores_frame config sub) as [rescored [Hres [_ [_ [Hrank _]]]]].
  cbv zeta in Hres, Hrank. rewrite Hid in Hrank.
  pose proof Hres as Hres'.
  unfold calculate_scores in Hres'. cbv zeta in Hres'. rewrite Hid in Hres'.
  rewrite (composite_rows config sub) in Hres', Hrank. fold W in Hres', Hrank.
  apply add_ranking_rows in Hres'. cbn [columns rows] in Hres'.
  destruct Hres' as [Hcols' [ks [Hlen Hrows']]].
  unfold len in Hlen. cbn [rows] in Hlen. rewrite length_map in Hlen.
  exists rescored, ks. split; [exact Hres|]. split; [|split; [exact Hlen|split]].
  - rewrite Hcols', !add_column_present; [reflexivity| |].
    + pose proof (Hhas "composite_score") as H. unfold has_column in H.
      rewrite H. cbn [String.eqb Ascii.eqb Bool.eqb]. now rewrite orb_true_r.
    + rewrite has_column_add.
      pose proof (Hhas "rank") as H. unfold has_column in H.
      rewrite H. cbn [String.eqb Ascii.eqb Bool.eqb]. now rewrite !orb_true_r.
  - rewrite Hrows', combine_map_left, map_map. apply map_ext_in.
    intros [r k] Hin. cbn [fst snd]. apply in_combine_l in Hin.
    now rewrite (Hsame r Hin).
  - assert (Hc : column {| columns := add_column (columns sub) "composite_score";
                           rows := map (fun r => set_cell r "composite_score"
                                                   (composite_cell W
                                                      (collect_category_scores sub W) r))
                                       (rows sub) |} "composite_score"
                 = column sub "composite_score").
    { unfold column. cbn [rows]. rewrite map_map. apply map_ext_in. intros r Hin.
      unfold set_cell. rewrite String.eqb_refl. now apply Hsame. }
    now rewrite Hc in Hrank.
Qed.

(** X23. Scoring is idempotent on a scored frame: when no configured
    weight is named [composite], scoring the result of [calculate_scores]
    again gives a frame with the same columns and the same values in every
    column, composite score and rank included. *)
Theorem scoring_idempotent (config : AnalysisConfig) (df : DataFrame) :
  ~ In "composite" (PyDict.keys (weights config)) ->
  exists scored rescored,
    calculate_scores config df = inr scored
    /\ calculate_scores config scored = inr rescored
    /\ columns rescored = columns scored
    /\ forall c, column rescored c = column scored c.
Proof.
  intro Hno. destruct (rescored_rows config df Hno) as [scored [Hscored Hsub]].
  destruct (Hsub scored eq_refl (fun r H => H)) as [rescored [ks [Hres [Hcols [Hlen [Hrows Hrank]]]]]].
  exists scored, rescored. split; [exact Hscored|]. split; [exact Hres|].
  split; [exact Hcols|]. intro c.
  destruct (String.eqb_spec c "rank") as [->|Hc].
  - rewrite Hrank.
    destruct (calculate_scores_frame config df) as [scored' [Hs' [_ [Hother [Hrank' _]]]]].
    cbv zeta in Hs', Hother, Hrank'.
    assert (scored' = scored) by congruence. subst scored'.
    rewrite Hrank'. now rewrite (Hother "composite_score" eq_refl).
  - unfold column at 1. rewrite Hrows, map_map.
    transitivity (map (fun rv : Row * cell => fst rv c) (combine (rows scored) ks)).
    + apply map_ext. intros [r k]. cbn [fst snd]. unfold set_cell.
      destruct (String.eqb_spec c "rank"); [contradiction|].
      destruct (String.eqb_spec c "composite_score") as [->|]; reflexivity.
    + apply (map_combine_fst (fun r : Row => r c)). exact Hlen.
Qed.

Lemma scoring_idempotent_witness :
  exists scored rescored,
    calculate_scores Examples.default_config Examples.df_missing_wool = inr scored
    /\ calculate_scores Examples.default_config scored = inr rescored
    /\ columns rescored = columns scored
    /\ forall c, column rescored c = column scored c.
Proof.
  apply (scoring_idempotent Examples.default_config Examples.df_missing_wool).
  simpl. intuition discriminate.
Defined.



End Rescoring.
